(** * simple_task_mcp: the Python/Node bridge to the MCP server and its report tools

    A shallow embedding of [src/agno_agent/real_mcp_tools.py], and of the
    selection of a project in [src/agno_agent/real_agent.py]:

    - [Json]: the values exchanged (Python's [None]/[bool]/[int]/[str]/[list]/
      [dict], JavaScript's counterparts), the three serialisers in play
      ([json.dumps], [JSON.stringify(v)], [JSON.stringify(v, null, 2)]) and the
      parser ([json.loads], [JSON.parse]);
    - [Bridge]: the Node script that [call_mcp_tool] writes to a temporary file
      (lines 29-77 of the source), what that script does when Node runs it, and
      the Python function around it (lines 79-107), with the files and
      processes it touches recorded as a trace of events;
    - [Py], [Tools]: the operations of Python on values of unknown type, in an
      exception monad, and the report functions built with them on the bridge;
    - [Tally]: the sums over the tables that the reports build;
    - [Scenario], [Sample]: concrete servers, outputs and a runtime to run the
      definitions on;
    - [Agent]: [get_available_projects] and [select_project], on what the
      file holds and what the user types;
    - [Stated]: the properties as the specification words them, to be compared
      with what the code does.

    Then the facts: the parser reads back what the serialisers print
    ([JsonFacts.parse_text_print]), what [call_mcp_tool] returns and leaves
    behind in each case ([BridgeFacts]), the properties of the
    specification, each under its identifier (C1 to C10), and further
    properties of the bridge, the reports and the selection (X1 to X18).

    Fragment modelled.  The numbers of [json] are integers, its strings
    sequences of 8-bit characters.  [Json.JSON_parse] tells a text that is
    no JSON text ([Json.json_grammar] has the whole grammar, fractions and
    exponents included) from a JSON text whose value [json] holds as
    JavaScript does ([Json.modelled]: ASCII strings, integers up to 2^53 - 1,
    a nesting of at most [Json.depth_read]) and from one it leaves open;
    where the scan of the script meets a line left open, what the script
    prints is left to the world ([Bridge.w_unread]).  On the Python side,
    [Json.json_loads] reads the texts of the fragment; a fraction, an
    exponent, [NaN], [Infinity] and the interpreter's limits of depth and
    digits are outside.  [Bridge.staged] states the bounds on what the call
    is given, and the theorems that depend on the bounds take them as
    hypotheses. *)

From Stdlib Require Import ZArith Ascii String List Bool Lia QArith Sorted Permutation.
From Stdlib Require Import Decimal DecimalFacts DecimalString DecimalZ DecimalN DecimalPos.
From stdpp Require Import base tactics option list strings gmap.

#[local] Open Scope nat_scope.

(** ** Characters and strings *)

Module Chars.

Definition dquote : ascii := "034"%char.
Definition backslash : ascii := "092"%char.
Definition LF : ascii := "010"%char.
Definition CR : ascii := "013"%char.
Definition TAB : ascii := "009"%char.

(** A one-character string. *)
Definition str1 (c : ascii) : string := String c EmptyString.

Definition nl : string := str1 LF.

(** Test data is written with apostrophes where the JSON text has quotation
    marks; [dq] puts the quotation marks back. *)
Fixpoint dq (s : string) : string :=
  match s with
  | EmptyString => EmptyString
  | String c r => String (if Ascii.eqb c "'"%char then dquote else c) (dq r)
  end.

Definition code (c : ascii) : nat := nat_of_ascii c.

Definition is_digit (c : ascii) : bool := (48 <=? code c) && (code c <=? 57).

(** JSON white space: space, tab, line feed, carriage return. *)
Definition is_ws (c : ascii) : bool :=
  Ascii.eqb c " "%char || Ascii.eqb c TAB || Ascii.eqb c LF || Ascii.eqb c CR.

Fixpoint all_chars (p : ascii -> bool) (s : string) : bool :=
  match s with
  | EmptyString => true
  | String c r => p c && all_chars p r
  end.

Fixpoint skip_ws (s : string) : string :=
  match s with
  | String c r => if is_ws c then skip_ws r else s
  | EmptyString => s
  end.

Fixpoint strip_prefix (p s : string) : option string :=
  match p, s with
  | EmptyString, _ => Some s
  | String a p', String b s' => if Ascii.eqb a b then strip_prefix p' s' else None
  | String _ _, EmptyString => None
  end.


(** [sep.join(l)] of Python, [l.join(sep)] of JavaScript. *)
Fixpoint join (sep : string) (l : list string) : string :=
  match l with
  | [] => EmptyString
  | [s] => s
  | s :: l' => s +:+ sep +:+ join sep l'
  end.

(** [s.split(c)] on a one-character separator: always at least one piece. *)
Fixpoint split_on (c : ascii) (s : string) : list string :=
  match s with
  | EmptyString => [EmptyString]
  | String a r =>
      if Ascii.eqb a c then EmptyString :: split_on c r
      else match split_on c r with
           | p :: ps => String a p :: ps
           | [] => [str1 a]
           end
  end.

Fixpoint spaces (n : nat) : string :=
  match n with
  | O => EmptyString
  | S n' => String " "%char (spaces n')
  end.

Definition hex_digit (n : nat) : ascii :=
  ascii_of_nat (if n <? 10 then 48 + n else 87 + n).

Definition hex_value (c : ascii) : option nat :=
  let n := code c in
  if (48 <=? n) && (n <=? 57) then Some (n - 48)
  else if (97 <=? n) && (n <=? 102) then Some (n - 87)
  else if (65 <=? n) && (n <=? 70) then Some (n - 55)
  else None.

(** Decimal digits of an integer, as [str(n)] and [String(n)] write them. *)
Definition string_of_Z (n : Z) : string := NilZero.string_of_int (Z.to_int n).

Definition digit_of (c : ascii) : option (uint -> uint) :=
  if Ascii.eqb c "0" then Some D0
  else if Ascii.eqb c "1" then Some D1
  else if Ascii.eqb c "2" then Some D2
  else if Ascii.eqb c "3" then Some D3
  else if Ascii.eqb c "4" then Some D4
  else if Ascii.eqb c "5" then Some D5
  else if Ascii.eqb c "6" then Some D6
  else if Ascii.eqb c "7" then Some D7
  else if Ascii.eqb c "8" then Some D8
  else if Ascii.eqb c "9" then Some D9
  else None.

(** The longest prefix of decimal digits, and what follows it. *)
Fixpoint scan_uint (s : string) : uint * string :=
  match s with
  | String c r =>
      match digit_of c with
      | Some D => let '(u, r') := scan_uint r in (D u, r')
      | None => (Nil, s)
      end
  | EmptyString => (Nil, s)
  end.

End Chars.
Export Chars.

(** ** JSON values, serialisers and parser *)

Module Json.

(** What [json.loads] and [JSON.parse] build.  An object lists its members in
    the order in which the owner enumerates them (a Python [dict]: insertion
    order). *)
#[local] Set Warnings "-register-all".
Inductive json : Type :=
| JNull
| JBool (b : bool)
| JNum (n : Z)
| JStr (s : string)
| JArr (l : list json)
| JObj (m : list (string * json)).

Definition members := list (string * json).

(** [d.get(k)] and [o[k]]: the member named [k], if any. *)
Fixpoint lookup (k : string) (m : members) : option json :=
  match m with
  | [] => None
  | (k', v) :: m' => if String.eqb k k' then Some v else lookup k m'
  end.

Definition has_key (k : string) (m : members) : bool :=
  match lookup k m with Some _ => true | None => false end.

Definition keys (m : members) : list string := map fst m.

(** [d[k] = v] on a Python dict: an existing key keeps its place, a new one
    goes last. *)
Fixpoint py_set (k : string) (v : json) (m : members) : members :=
  match m with
  | [] => [(k, v)]
  | (k', v') :: m' =>
      if String.eqb k k' then (k, v) :: m' else (k', v') :: py_set k v m'
  end.

(** An array index in the sense of ECMAScript: the canonical decimal form of
    an integer below 2^32 - 1. *)
Definition is_array_index (k : string) : option N :=
  match NilZero.uint_of_string k with
  | Some u =>
      let n := N.of_uint u in
      if String.eqb (NilZero.string_of_uint (N.to_uint n)) k
         && (n <? 4294967295)%N
      then Some n else None
  | None => None
  end.

(** A new array-index key goes before the first member that is no array index
    or is a larger one. *)
Fixpoint js_insert_index (n : N) (k : string) (v : json) (m : members) : members :=
  match m with
  | [] => [(k, v)]
  | (k', v') :: m' =>
      match is_array_index k' with
      | Some n' =>
          if (n <? n')%N then (k, v) :: m else (k', v') :: js_insert_index n k v m'
      | None => (k, v) :: m
      end
  end.

(** [o[k] = v] on a JavaScript object, whose own keys are enumerated array
    indices first, in ascending order, then the other keys in creation
    order. *)
Definition js_set (k : string) (v : json) (m : members) : members :=
  if has_key k m then py_set k v m
  else match is_array_index k with
       | Some n => js_insert_index n k v m
       | None => m ++ [(k, v)]
       end.

(** A member [__proto__: v] of an object literal in JavaScript source sets
    the prototype and creates no own property. *)
Definition js_literal_set (k : string) (v : json) (m : members) : members :=
  if String.eqb k "__proto__" then m else js_set k v m.

(** *** Serialisers *)

(** Where a serialiser puts white space, and how it writes a character of a
    string. *)
Record layout := {
  lay_open : nat -> string;   (* after the bracket that opens a non-empty container *)
  lay_sep : nat -> string;    (* after a comma *)
  lay_close : nat -> string;  (* before the bracket that closes it *)
  lay_colon : string;         (* after a colon *)
  lay_char : ascii -> string
}.

Definition u00 (c : ascii) : string :=
  String backslash (String "u" (String "0" (String "0"
    (String (hex_digit (code c / 16)) (String (hex_digit (code c mod 16)) EmptyString))))).

(** The two-character escapes both serialisers use. *)
Definition short_escape (c : ascii) : option ascii :=
  if Ascii.eqb c dquote then Some dquote
  else if Ascii.eqb c backslash then Some backslash
  else if Ascii.eqb c "008" then Some "b"%char
  else if Ascii.eqb c "009" then Some "t"%char
  else if Ascii.eqb c "010" then Some "n"%char
  else if Ascii.eqb c "012" then Some "f"%char
  else if Ascii.eqb c "013" then Some "r"%char
  else None.

(** [JSON.stringify]: control characters are escaped, the rest is written as
    it is. *)
Definition js_char (c : ascii) : string :=
  match short_escape c with
  | Some e => String backslash (str1 e)
  | None => if code c <? 32 then u00 c else str1 c
  end.

(** [json.dumps] with [ensure_ascii=True]: everything outside space..~ is
    escaped. *)
Definition py_char (c : ascii) : string :=
  match short_escape c with
  | Some e => String backslash (str1 e)
  | None => if (code c <? 32) || (126 <? code c) then u00 c else str1 c
  end.

Fixpoint escape (f : ascii -> string) (s : string) : string :=
  match s with
  | EmptyString => EmptyString
  | String c r => f c +:+ escape f r
  end.

Definition quote (L : layout) (s : string) : string :=
  String dquote (escape (lay_char L) s +:+ str1 dquote).

(** The elements of an array after the first, then the closing bracket. *)
Fixpoint items_with (pr : json -> string) (sep close : string) (l : list json) : string :=
  match l with
  | [] => close
  | y :: l' => "," +:+ sep +:+ pr y +:+ items_with pr sep close l'
  end.

Definition member_with (pr : json -> string) (L : layout) (kv : string * json) : string :=
  quote L (fst kv) +:+ ":" +:+ lay_colon L +:+ pr (snd kv).

(** The members of an object after the first, then the closing brace. *)
Fixpoint members_with (pr : json -> string) (L : layout) (sep close : string)
    (l : list (string * json)) : string :=
  match l with
  | [] => close
  | kv :: l' => "," +:+ sep +:+ member_with pr L kv +:+ members_with pr L sep close l'
  end.

(** The text of [v] when it stands [d] containers deep. *)
Fixpoint print (L : layout) (d : nat) (v : json) : string :=
  match v with
  | JNull => "null"
  | JBool true => "true"
  | JBool false => "false"
  | JNum n => string_of_Z n
  | JStr s => quote L s
  | JArr [] => "[]"
  | JArr (x :: xs) =>
      "[" +:+ lay_open L (S d) +:+ print L (S d) x +:+
      items_with (print L (S d)) (lay_sep L (S d)) (lay_close L d +:+ "]") xs
  | JObj [] => "{}"
  | JObj (kv :: xs) =>
      "{" +:+ lay_open L (S d) +:+ member_with (print L (S d)) L kv +:+
      members_with (print L (S d)) L (lay_sep L (S d)) (lay_close L d +:+ "}") xs
  end.

(** [JSON.stringify(v)] *)
Definition compact : layout :=
  {| lay_open := fun _ => ""; lay_sep := fun _ => ""; lay_close := fun _ => "";
     lay_colon := ""; lay_char := js_char |}.

(** [JSON.stringify(v, null, 2)] *)
Definition indent2 : layout :=
  {| lay_open := fun d => nl +:+ spaces (2 * d);
     lay_sep := fun d => nl +:+ spaces (2 * d);
     lay_close := fun d => nl +:+ spaces (2 * d);
     lay_colon := " "; lay_char := js_char |}.

(** [json.dumps(v)] with its default separators [", "] and [": "] *)
Definition python : layout :=
  {| lay_open := fun _ => ""; lay_sep := fun _ => " "; lay_close := fun _ => "";
     lay_colon := " "; lay_char := py_char |}.

Definition JSON_stringify (v : json) : string := print compact 0 v.
Definition JSON_stringify_2 (v : json) : string := print indent2 0 v.
Definition json_dumps (v : json) : string := print python 0 v.

(** *** Parser *)

(** The characters of a string literal after its opening quotation mark, up
    to the closing one; the text after it. *)
Fixpoint parse_string_body (s : string) : option (string * string) :=
  match s with
  | EmptyString => None
  | String c r =>
      if Ascii.eqb c dquote then Some (EmptyString, r)
      else if Ascii.eqb c backslash then
        match r with
        | EmptyString => None
        | String e r1 =>
            if Ascii.eqb e "u" then
              match r1 with
              | String h3 (String h2 (String h1 (String h0 r2))) =>
                  match hex_value h3, hex_value h2, hex_value h1, hex_value h0 with
                  | Some 0, Some 0, Some a, Some b =>
                      match parse_string_body r2 with
                      | Some (t, rest) => Some (String (ascii_of_nat (16 * a + b)) t, rest)
                      | None => None
                      end
                  | _, _, _, _ => None
                  end
              | _ => None
              end
            else
              let ch :=
                if Ascii.eqb e dquote then Some dquote
                else if Ascii.eqb e backslash then Some backslash
                else if Ascii.eqb e "/" then Some "/"%char
                else if Ascii.eqb e "b" then Some "008"%char
                else if Ascii.eqb e "f" then Some "012"%char
                else if Ascii.eqb e "n" then Some "010"%char
                else if Ascii.eqb e "r" then Some "013"%char
                else if Ascii.eqb e "t" then Some "009"%char
                else None in
              match ch with
              | Some x =>
                  match parse_string_body r1 with
                  | Some (t, rest) => Some (String x t, rest)
                  | None => None
                  end
              | None => None
              end
        end
      else if code c <? 32 then None
      else match parse_string_body r with
           | Some (t, rest) => Some (String c t, rest)
           | None => None
           end
  end.

(** An integer: an optional minus sign, then digits without a leading zero. *)
Definition parse_number (s : string) : option (json * string) :=
  let '(neg, s1) :=
    match s with
    | String c r => if Ascii.eqb c "-" then (true, r) else (false, s)
    | EmptyString => (false, s)
    end in
  let '(u, rest) := scan_uint s1 in
  match u with
  | Nil => None
  | D0 (D0 _ | D1 _ | D2 _ | D3 _ | D4 _ | D5 _ | D6 _ | D7 _ | D8 _ | D9 _) => None
  | _ => Some (JNum (Z.of_int (if neg then Neg u else Pos u)), rest)
  end.

Section Parser.

(** How the parser adds a member to the object it is building. *)
Variable oset : string -> json -> members -> members.

Fixpoint parse_value (fuel : nat) (s : string) : option (json * string) :=
  match fuel with
  | O => None
  | S f =>
      match skip_ws s with
      | EmptyString => None
      | String c r =>
          if Ascii.eqb c "n" then
            match strip_prefix "ull" r with Some r' => Some (JNull, r') | None => None end
          else if Ascii.eqb c "t" then
            match strip_prefix "rue" r with Some r' => Some (JBool true, r') | None => None end
          else if Ascii.eqb c "f" then
            match strip_prefix "alse" r with Some r' => Some (JBool false, r') | None => None end
          else if Ascii.eqb c dquote then
            match parse_string_body r with
            | Some (t, r') => Some (JStr t, r')
            | None => None
            end
          else if Ascii.eqb c "[" then
            match skip_ws r with
            | String c' r' =>
                if Ascii.eqb c' "]" then Some (JArr [], r')
                else match parse_elems f r with
                     | Some (l, r'') => Some (JArr l, r'')
                     | None => None
                     end
            | EmptyString => None
            end
          else if Ascii.eqb c "{" then
            match skip_ws r with
            | String c' r' =>
                if Ascii.eqb c' "}" then Some (JObj [], r')
                else match parse_members f r [] with
                     | Some (m, r'') => Some (JObj m, r'')
                     | None => None
                     end
            | EmptyString => None
            end
          else parse_number (String c r)
      end
  end
with parse_elems (fuel : nat) (s : string) : option (list json * string) :=
  match fuel with
  | O => None
  | S f =>
      match parse_value f s with
      | Some (v, r) =>
          match skip_ws r with
          | String c r' =>
              if Ascii.eqb c "," then
                match parse_elems f r' with
                | Some (l, r'') => Some (v :: l, r'')
                | None => None
                end
              else if Ascii.eqb c "]" then Some ([v], r')
              else None
          | EmptyString => None
          end
      | None => None
      end
  end
with parse_members (fuel : nat) (s : string) (acc : members) : option (members * string) :=
  match fuel with
  | O => None
  | S f =>
      match skip_ws s with
      | String c r =>
          if Ascii.eqb c dquote then
            match parse_string_body r with
            | Some (k, r1) =>
                match skip_ws r1 with
                | String c2 r2 =>
                    if Ascii.eqb c2 ":" then
                      match parse_value f r2 with
                      | Some (v, r3) =>
                          match skip_ws r3 with
                          | String c3 r4 =>
                              if Ascii.eqb c3 "," then parse_members f r4 (oset k v acc)
                              else if Ascii.eqb c3 "}" then Some (oset k v acc, r4)
                              else None
                          | EmptyString => None
                          end
                      | None => None
                      end
                    else None
                | EmptyString => None
                end
            | None => None
            end
          else None
      | EmptyString => None
      end
  end.

(** A whole text: one value, white space around it allowed, nothing else. *)
Definition parse_text (s : string) : option json :=
  match parse_value (S (String.length s)) s with
  | Some (v, r) => match skip_ws r with EmptyString => Some v | String _ _ => None end
  | None => None
  end.

End Parser.

(** [json.loads(s)] of Python on the texts of the fragment: [None] stands
    for [JSONDecodeError].  The interpreter's own limits (it gives up with
    [RecursionError] on a nesting near its recursion limit, and with
    [ValueError] on an integer of more than 4300 digits) are not part of
    it. *)
Definition json_loads : string -> option json := parse_text py_set.

(** The value of a JSON text that stands as an expression in JavaScript
    source. *)
Definition js_eval_literal : string -> option json := parse_text js_literal_set.

(** *** The grammar of JSON *)

(** The container a text is in. *)
Inductive container : Type := InArray | InObject.

(** Where a reader of a JSON text stands between two characters. *)
Inductive place : Type :=
| AtValue                       (* a value must begin *)
| AtFirstElement                (* after [: a value, or ] *)
| AtFirstKey                    (* after {: a key, or } *)
| AtKey                         (* after a comma in an object: a key *)
| AtColon                       (* after a key *)
| AfterValue                    (* after a value: a comma, a closing bracket, the end *)
| InString (key : bool)         (* in a string literal, a key or a value *)
| InEscape (key : bool)         (* after a backslash *)
| InHex (key : bool) (more : nat)  (* in a u escape, so many hex digits to come *)
| AfterMinus
| AfterZero                     (* after the 0 that is the whole integer part *)
| InInteger
| AfterPoint
| InFraction
| AfterExponentMark
| AfterExponentSign
| InExponent
| InLiteral (rest : string).    (* in true, false or null, these characters to come *)

Definition is_exponent_mark (c : ascii) : bool := Ascii.eqb c "e" || Ascii.eqb c "E".

(** After a value, at the character [c]. *)
Definition after_value (stack : list container) (c : ascii)
    : option (place * list container) :=
  if is_ws c then Some (AfterValue, stack)
  else match stack with
       | InArray :: outer =>
           if Ascii.eqb c "," then Some (AtValue, stack)
           else if Ascii.eqb c "]" then Some (AfterValue, outer)
           else None
       | InObject :: outer =>
           if Ascii.eqb c "," then Some (AtKey, stack)
           else if Ascii.eqb c "}" then Some (AfterValue, outer)
           else None
       | [] => None
       end.

(** Where a value must begin, at the character [c], which is no white
    space. *)
Definition begin_value (stack : list container) (c : ascii)
    : option (place * list container) :=
  if Ascii.eqb c dquote then Some (InString false, stack)
  else if Ascii.eqb c "-" then Some (AfterMinus, stack)
  else if Ascii.eqb c "0" then Some (AfterZero, stack)
  else if is_digit c then Some (InInteger, stack)
  else if Ascii.eqb c "[" then Some (AtFirstElement, InArray :: stack)
  else if Ascii.eqb c "{" then Some (AtFirstKey, InObject :: stack)
  else if Ascii.eqb c "t" then Some (InLiteral "rue", stack)
  else if Ascii.eqb c "f" then Some (InLiteral "alse", stack)
  else if Ascii.eqb c "n" then Some (InLiteral "ull", stack)
  else None.

Definition grammar_step (p : place) (stack : list container) (c : ascii)
    : option (place * list container) :=
  match p with
  | AtValue => if is_ws c then Some (AtValue, stack) else begin_value stack c
  | AtFirstElement =>
      if is_ws c then Some (AtFirstElement, stack)
      else if Ascii.eqb c "]" then Some (AfterValue, tail stack)
      else begin_value stack c
  | AtFirstKey =>
      if is_ws c then Some (AtFirstKey, stack)
      else if Ascii.eqb c "}" then Some (AfterValue, tail stack)
      else if Ascii.eqb c dquote then Some (InString true, stack)
      else None
  | AtKey =>
      if is_ws c then Some (AtKey, stack)
      else if Ascii.eqb c dquote then Some (InString true, stack)
      else None
  | AtColon =>
      if is_ws c then Some (AtColon, stack)
      else if Ascii.eqb c ":" then Some (AtValue, stack)
      else None
  | AfterValue => after_value stack c
  | InString key =>
      if Ascii.eqb c dquote then Some (if key then AtColon else AfterValue, stack)
      else if Ascii.eqb c backslash then Some (InEscape key, stack)
      else if code c <? 32 then None
      else Some (InString key, stack)
  | InEscape key =>
      if Ascii.eqb c "u" then Some (InHex key 4, stack)
      else if Ascii.eqb c dquote || Ascii.eqb c backslash || Ascii.eqb c "/"
              || Ascii.eqb c "b" || Ascii.eqb c "f" || Ascii.eqb c "n"
              || Ascii.eqb c "r" || Ascii.eqb c "t"
      then Some (InString key, stack)
      else None
  | InHex key more =>
      match hex_value c with
      | Some _ => Some (if more <=? 1 then InString key else InHex key (more - 1), stack)
      | None => None
      end
  | AfterMinus =>
      if Ascii.eqb c "0" then Some (AfterZero, stack)
      else if is_digit c then Some (InInteger, stack)
      else None
  | AfterZero =>
      if Ascii.eqb c "." then Some (AfterPoint, stack)
      else if is_exponent_mark c then Some (AfterExponentMark, stack)
      else after_value stack c
  | InInteger =>
      if is_digit c then Some (InInteger, stack)
      else if Ascii.eqb c "." then Some (AfterPoint, stack)
      else if is_exponent_mark c then Some (AfterExponentMark, stack)
      else after_value stack c
  | AfterPoint => if is_digit c then Some (InFraction, stack) else None
  | InFraction =>
      if is_digit c then Some (InFraction, stack)
      else if is_exponent_mark c then Some (AfterExponentMark, stack)
      else after_value stack c
  | AfterExponentMark =>
      if Ascii.eqb c "+" || Ascii.eqb c "-" then Some (AfterExponentSign, stack)
      else if is_digit c then Some (InExponent, stack)
      else None
  | AfterExponentSign => if is_digit c then Some (InExponent, stack) else None
  | InExponent =>
      if is_digit c then Some (InExponent, stack) else after_value stack c
  | InLiteral rest =>
      match rest with
      | String x rest' =>
          if Ascii.eqb c x
          then Some (match rest' with
                     | EmptyString => AfterValue
                     | _ => InLiteral rest'
                     end, stack)
          else None
      | EmptyString => None
      end
  end.

(** Whether a text may end here. *)
Definition complete (p : place) (stack : list container) : bool :=
  match stack, p with
  | [], (AfterValue | AfterZero | InInteger | InFraction | InExponent) => true
  | _, _ => false
  end.

Fixpoint grammar_from (p : place) (stack : list container) (s : string) : bool :=
  match s with
  | EmptyString => complete p stack
  | String c r =>
      match grammar_step p stack c with
      | Some (p', stack') => grammar_from p' stack' r
      | None => false
      end
  end.

(** Whether [s] is a JSON text: one value, white space around it allowed. *)
Definition json_grammar (s : string) : bool := grammar_from AtValue [] s.

(** *** [JSON.parse] *)

(** How deep the containers of [v] are nested. *)
Fixpoint depth (v : json) : nat :=
  match v with
  | JArr l => S (fold_right (fun x n => Nat.max (depth x) n) 0 l)
  | JObj m => S (fold_right (fun kv n => Nat.max (depth (snd kv)) n) 0 m)
  | _ => 0
  end.

(** Integers that a JavaScript number holds exactly. *)
Fixpoint safe_integers (v : json) : bool :=
  match v with
  | JNum n => (Z.abs n <=? 9007199254740991)%Z
  | JArr l => forallb safe_integers l
  | JObj m => forallb (fun kv => safe_integers (snd kv)) m
  | _ => true
  end.

Definition is_ascii (c : ascii) : bool := code c <? 128.

Definition ascii_text (s : string) : bool := all_chars is_ascii s.

(** Every string and every key of [v] is ASCII text. *)
Fixpoint ascii_value (v : json) : bool :=
  match v with
  | JStr s => ascii_text s
  | JArr l => forallb ascii_value l
  | JObj m => forallb (fun kv => ascii_text (fst kv) && ascii_value (snd kv)) m
  | _ => true
  end.

(** A nesting that [JSON.stringify] of V8 and [json.loads] of CPython both
    manage with their default stacks (CPython gives up near 1000 levels). *)
Definition depth_read : nat := 500.

(** The values that JavaScript and Python hold as [json] has them: ASCII
    strings, integers that a JavaScript number holds exactly, a modest
    nesting. *)
Definition modelled (v : json) : bool :=
  ascii_value v && safe_integers v && (depth v <=? depth_read).

(** What [JSON.parse] makes of a text. *)
Inductive reading : Type :=
| Parsed (v : json)   (* the value of the text *)
| NotJson             (* SyntaxError: the text is no JSON text *)
| Beyond.             (* a JSON text whose value [json] does not hold as JavaScript
                         does: a number with a fraction or an exponent or beyond
                         2^53, a character or an escape beyond ASCII, a deep
                         nesting *)

(** [JSON.parse(s)] of JavaScript. *)
Definition JSON_parse (s : string) : reading :=
  match parse_text js_set s with
  | Some v => if modelled v then Parsed v else Beyond
  | None => if json_grammar s then Beyond else NotJson
  end.

(** *** Values that a parser rebuilds as they are *)

(** The object a parser ends with when it meets the members [m] in turn. *)
Definition rebuild (oset : string -> json -> members -> members) (m : members) : members :=
  fold_left (fun acc kv => oset (fst kv) (snd kv) acc) m [].

(** Every object of [v], at any depth, is rebuilt as it is. *)
Fixpoint stable (oset : string -> json -> members -> members) (v : json) : Prop :=
  match v with
  | JArr l => fold_right (fun x P => stable oset x /\ P) True l
  | JObj m => rebuild oset m = m /\ fold_right (fun kv P => stable oset (snd kv) /\ P) True m
  | _ => True
  end.

(** No key occurs twice in an object of [v]: what every Python dict satisfies. *)
Fixpoint distinct_keys (v : json) : Prop :=
  match v with
  | JArr l => fold_right (fun x P => distinct_keys x /\ P) True l
  | JObj m => NoDup (keys m) /\ fold_right (fun kv P => distinct_keys (snd kv) /\ P) True m
  | _ => True
  end.

(** A key that a JavaScript object keeps where it was added: no array index,
    and not [__proto__]. *)
Definition plain_key (k : string) : bool :=
  negb (String.eqb k "__proto__")
  && match is_array_index k with Some _ => false | None => true end.

(** Every key of every object of [v] is plain. *)
Fixpoint plain_keys (v : json) : bool :=
  match v with
  | JArr l => forallb plain_keys l
  | JObj m => forallb (fun kv => plain_key (fst kv) && plain_keys (snd kv)) m
  | _ => true
  end.

(** A bound on the fuel [parse_value] needs for the text of [v]. *)
Fixpoint weight (v : json) : nat :=
  match v with
  | JArr l => S (fold_right (fun x n => S (weight x + n)) 0 l)
  | JObj m => S (fold_right (fun kv n => S (weight (snd kv) + n)) 0 m)
  | _ => 1
  end.

End Json.
Export Json.

(** ** The bridge: [call_mcp_tool] and the Node script it stages *)

Module Bridge.

(** *** Python outcomes *)

Inductive exn_class : Type :=
| TimeoutExpired      (* subprocess.TimeoutExpired *)
| JSONDecodeError
| TypeError
| AttributeError
| KeyError
| IndexError
| ValueError
| ZeroDivisionError
| OSError
| FileNotFoundError.

(** An exception with the text [str(e)] gives for it. *)
Record exn := { exn_class_of : exn_class; exn_msg : string }.

Inductive result (A : Type) : Type :=
| Ok (a : A)
| Raise (e : exn).
Arguments Ok {A} a.
Arguments Raise {A} e.

(** A value of Python's [Any]: one that [json] can encode, or an object of
    some other type (a set, bytes, a datetime, ...), of which only the name
    of the type is kept. *)
Inductive pyany : Type :=
| Py (v : json)
| PyOther (type_name : string).

(** A [Dict[str, Any]]. *)
Definition pydict := list (string * pyany).

(** [json.dumps(params)]: raises [TypeError] at the first value it cannot
    encode. *)
Fixpoint encodable (d : pydict) : result members :=
  match d with
  | [] => Ok []
  | (k, Py v) :: d' =>
      match encodable d' with
      | Ok m => Ok ((k, v) :: m)
      | Raise e => Raise e
      end
  | (k, PyOther t) :: _ =>
      Raise {| exn_class_of := TypeError;
               exn_msg := "Object of type " +:+ t +:+ " is not JSON serializable" |}
  end.

Definition dumps_params (d : pydict) : result string :=
  match encodable d with
  | Ok m => Ok (json_dumps (JObj m))
  | Raise e => Raise e
  end.

(** *** The staged script *)

(** The three values that the f-string of lines 29-77 interpolates. *)
Record script := {
  s_server_path : string;   (* {mcp_server_path} *)
  s_tool_name : string;     (* {tool_name} *)
  s_arguments : string      (* {json.dumps(params)} *)
}.

(** The text of the script: [script_content] of the source, with the doubled
    braces and backslashes of the f-string resolved. *)
Definition script_content (s : script) : string :=
"
const { spawn } = require('child_process');

const serverProcess = spawn('node', ['" +:+ s_server_path s +:+ "/index.js'], {
    stdio: ['pipe', 'pipe', 'pipe']
});

const request = {
    jsonrpc: '2.0',
    id: 1,
    method: 'tools/call',
    params: {
        name: '" +:+ s_tool_name s +:+ "',
        arguments: " +:+ s_arguments s +:+ "
    }
};

serverProcess.stdin.write(JSON.stringify(request) + '\n');
serverProcess.stdin.end();

let output = '';
serverProcess.stdout.on('data', (data) => {
    output += data.toString();
});

serverProcess.stderr.on('data', (data) => {
    console.error('MCP Error:', data.toString());
});

serverProcess.on('close', (code) => {
    try {
        const lines = output.split('\n').filter(line => line.trim());
        for (const line of lines) {
            try {
                const parsed = JSON.parse(line);
                if (parsed.result) {
                    console.log(JSON.stringify(parsed.result, null, 2));
                    return;
                }
            } catch (e) {
                // Not JSON, continue
            }
        }
        console.log(JSON.stringify({ error: 'No valid response found', raw_output: output }, null, 2));
    } catch (error) {
        console.log(JSON.stringify({ error: error.message, raw_output: output }, null, 2));
    }
});
".

(** *** Files and processes *)

Inductive proc : Type :=
| NodeScript (script_path : string)   (* node <script_path>, started by subprocess.run *)
| McpServer (entry : string).         (* node <entry>, started by the script's spawn *)

#[global] Instance proc_eq_dec : EqDecision proc.
Proof. solve_decision. Defined.

Inductive event : Type :=
| Created (path : string) (s : script)   (* a file holding the script appears *)
| Unlinked (path : string)               (* os.unlink *)
| Spawned (p : proc)
| Wrote (p : proc) (data : string)       (* data written to the standard input of p *)
| Closed (p : proc)                      (* the standard input of p is closed *)
| Exited (p : proc) (code : Z)
| Killed (p : proc).

(** The files that exist after a trace, starting from none. *)
Fixpoint files_after (tr : list event) (fs : gmap string script) : gmap string script :=
  match tr with
  | [] => fs
  | Created path s :: tr' => files_after tr' (<[path := s]> fs)
  | Unlinked path :: tr' => files_after tr' (delete path fs)
  | _ :: tr' => files_after tr'  fs
  end.

Definition files (tr : list event) : gmap string script := files_after tr ∅.

(** Whether [p] is running after a trace. *)
Fixpoint alive_after (tr : list event) (p : proc) (now : bool) : bool :=
  match tr with
  | [] => now
  | Spawned q :: tr' => alive_after tr' p (if decide (q = p) then true else now)
  | Exited q _ :: tr' => alive_after tr' p (if decide (q = p) then false else now)
  | Killed q :: tr' => alive_after tr' p (if decide (q = p) then false else now)
  | _ :: tr' => alive_after tr' p now
  end.

Definition alive (tr : list event) (p : proc) : bool := alive_after tr p false.

(** What reached the standard input of [p], in order: the data written, and
    [None] for the close. *)
Fixpoint stdin_of (tr : list event) (p : proc) : list (option string) :=
  match tr with
  | [] => []
  | Wrote q data :: tr' => if decide (q = p) then Some data :: stdin_of tr' p else stdin_of tr' p
  | Closed q :: tr' => if decide (q = p) then None :: stdin_of tr' p else stdin_of tr' p
  | _ :: tr' => stdin_of tr' p
  end.

(** How long a process runs, in seconds, and the code it exits with. *)
Inductive lifetime : Type :=
| ExitsAfter (secs : N) (code : Z)
| NeverExits.

(** What a process does once launched: the events it causes as it starts,
    how long it runs, the events of its last moment, and what it has written
    to its standard output and error by then. *)
Record behaviour := {
  b_started : list event;
  b_life : lifetime;
  b_finished : list event;
  b_stdout : string;
  b_stderr : string
}.

(** *** What Node does with the script *)

(** The MCP server, as seen from outside: what it answers, given its entry
    point and what it reads on its standard input. *)
Record reply := {
  r_stdout : string;
  r_stderr : string;
  r_life : lifetime
}.

Definition server := string -> string -> reply.

(** The value of a single-quoted string literal of JavaScript, given the
    characters between the quotes. *)
Inductive js_lit : Type :=
| Denotes (s : string)
| Unterminated      (* a raw line break: SyntaxError *)
| Unmodelled.       (* a quote that ends the literal early, or an escape not modelled *)

Definition js_escape (e : ascii) : option ascii :=
  if Ascii.eqb e "n" then Some LF
  else if Ascii.eqb e "t" then Some TAB
  else if Ascii.eqb e "r" then Some CR
  else if Ascii.eqb e "b" then Some "008"%char
  else if Ascii.eqb e "f" then Some "012"%char
  else if Ascii.eqb e "v" then Some "011"%char
  else if is_digit e || Ascii.eqb e "x" || Ascii.eqb e "u"
          || Ascii.eqb e LF || Ascii.eqb e CR then None
  else Some e.

Definition lit_cons (c : ascii) (l : js_lit) : js_lit :=
  match l with
  | Denotes s => Denotes (String c s)
  | other => other
  end.

Fixpoint js_single_quoted (s : string) : js_lit :=
  match s with
  | EmptyString => Denotes EmptyString
  | String c r =>
      if Ascii.eqb c "'" then Unmodelled
      else if Ascii.eqb c LF || Ascii.eqb c CR then Unterminated
      else if Ascii.eqb c backslash then
        match r with
        | EmptyString => Unmodelled
        | String e r' =>
            match js_escape e with
            | Some x => lit_cons x (js_single_quoted r')
            | None => Unmodelled
            end
        end
      else lit_cons c (js_single_quoted r)
  end.

(** [request] of the script (lines 36-44). *)
Definition request (name : string) (arguments : json) : json :=
  JObj [("jsonrpc", JStr "2.0");
        ("id", JNum 1);
        ("method", JStr "tools/call");
        ("params", JObj [("name", JStr name); ("arguments", arguments)])].

(** [JSON.stringify(request) + '\n'] (line 46). *)
Definition request_line (name : string) (arguments : json) : string :=
  JSON_stringify (request name arguments) +:+ nl.

(** White space and line terminators of JavaScript among the 8-bit
    characters: what [trim] removes. *)
Definition js_space (c : ascii) : bool :=
  ((9 <=? code c) && (code c <=? 13)) || (code c =? 32) || (code c =? 160).

(** [line.trim()] as a condition: whether anything is left. *)
Definition trims_to_nothing (line : string) : bool := all_chars js_space line.

(** Truthiness in JavaScript. *)
Definition js_truthy (v : json) : bool :=
  match v with
  | JNull => false
  | JBool b => b
  | JNum n => negb (n =? 0)%Z
  | JStr s => negb (String.eqb s "")
  | JArr _ => true
  | JObj _ => true
  end.

(** [parsed.result] when it is truthy.  On [null] the access throws, which
    the inner [catch] swallows; on a string, number, boolean or array there
    is no such property. *)
Definition truthy_result (parsed : json) : option json :=
  match parsed with
  | JObj m =>
      match lookup "result" m with
      | Some r => if js_truthy r then Some r else None
      | None => None
      end
  | _ => None
  end.

(** How the [for] loop of lines 61-71 ends. *)
Inductive scan : Type :=
| Found (r : json)   (* at a line that parses and has a truthy [result] *)
| NotFound           (* past the last line *)
| Unread.            (* at a line that [JSON_parse] leaves open *)

(** The [for] loop of lines 61-71: the result of the first line that parses
    and has a truthy [result]. *)
Fixpoint first_result (lines : list string) : scan :=
  match lines with
  | [] => NotFound
  | line :: rest =>
      match JSON_parse line with
      | Parsed parsed =>
          match truthy_result parsed with
          | Some r => Found r
          | None => first_result rest
          end
      | NotJson => first_result rest
      | Beyond => Unread
      end
  end.

(** [output.split('\n').filter(line => line.trim())] (line 60). *)
Definition output_lines (output : string) : list string :=
  List.filter (fun line => negb (trims_to_nothing line)) (split_on LF output).

Definition no_valid_response (output : string) : json :=
  JObj [("error", JStr "No valid response found"); ("raw_output", JStr output)].

(** The [stderr] handler (lines 54-56), the server's standard error taken as
    one chunk. *)
Definition on_stderr (err : string) : string :=
  match err with
  | EmptyString => EmptyString
  | _ => "MCP Error: " +:+ err +:+ nl
  end.

(** What is outside the script: the server, the report Node prints for a
    script it cannot compile, what Node does with a script whose
    interpolated text is not covered by [js_single_quoted] and
    [js_eval_literal], and what the [close] handler prints for an output
    that [JSON_parse] leaves open or that is not ASCII text. *)
Record node_world := {
  w_server : server;
  w_syntax_report : string;
  w_other : script -> behaviour;
  w_unread : string -> string
}.

(** What the [close] handler prints (lines 58-76). *)
Definition on_close (w : node_world) (output : string) : string :=
  match first_result (output_lines output) with
  | Found r => JSON_stringify_2 r +:+ nl
  | NotFound =>
      if ascii_text output then JSON_stringify_2 (no_valid_response output) +:+ nl
      else w_unread w output
  | Unread => w_unread w output
  end.

(** Node on a script that does not compile: nothing runs, exit code 1. *)
Definition syntax_failure (w : node_world) : behaviour :=
  {| b_started := []; b_life := ExitsAfter 0 1; b_finished := [];
     b_stdout := ""; b_stderr := w_syntax_report w |}.

(** The script at work: it starts the server, sends it the request and
    closes its input, collects its output, and answers when the server's
    streams close.  The server's exit code is passed to the handler, which
    does not look at it; the script itself exits with 0. *)
Definition serve (w : node_world) (entry name : string) (arguments : json) : behaviour :=
  let srv := McpServer entry in
  let line := request_line name arguments in
  let r := w_server w entry line in
  {| b_started := [Spawned srv; Wrote srv line; Closed srv];
     b_life := match r_life r with
               | ExitsAfter t _ => ExitsAfter t 0
               | NeverExits => NeverExits
               end;
     b_finished := match r_life r with
                   | ExitsAfter _ code => [Exited srv code]
                   | NeverExits => []
                   end;
     b_stdout := on_close w (r_stdout r);
     b_stderr := on_stderr (r_stderr r) |}.

Definition run_script (w : node_world) (s : script) : behaviour :=
  match js_single_quoted (s_server_path s +:+ "/index.js") with
  | Denotes entry =>
      match js_single_quoted (s_tool_name s) with
      | Denotes name =>
          match js_eval_literal (s_arguments s) with
          | Some arguments => serve w entry name arguments
          | None => w_other w s
          end
      | Unterminated => syntax_failure w
      | Unmodelled => w_other w s
      end
  | Unterminated => syntax_failure w
  | Unmodelled => w_other w s
  end.

(** *** The Python side *)

(** Whether a command can be launched, and what it then does. *)
Inductive launch : Type :=
| Launched (b : behaviour)
| NotLaunched (e : exn).

(** What [call_mcp_tool] asks of the operating system. *)
Record os := {
  getenv : string -> option string;
  (** [tempfile.NamedTemporaryFile(mode='w', suffix='.js', delete=False)]
      and the write: the name of the new file, or the error raised. *)
  named_temporary_file : result string;
  (** Launching [node <script_path>] on a file that holds the script. *)
  exec_node : string -> script -> launch
}.

Record completed_process := {
  returncode : Z;
  stdout : string;
  stderr : string
}.

Definition timeout_expired : exn :=
  {| exn_class_of := TimeoutExpired; exn_msg := "Command timed out" |}.

(** [subprocess.run(['node', script_path], capture_output=True, text=True,
    timeout=t)]: the child is launched; when it has not finished after [t]
    seconds it is killed and waited for, and [TimeoutExpired] is raised. *)
Definition subprocess_run (o : os) (script_path : string) (s : script) (t : N)
    : result completed_process * list event :=
  match exec_node o script_path s with
  | NotLaunched e => (Raise e, [])
  | Launched b =>
      let p := NodeScript script_path in
      match b_life b with
      | ExitsAfter secs code =>
          if (secs <=? t)%N then
            (Ok {| returncode := code; stdout := b_stdout b; stderr := b_stderr b |},
             Spawned p :: b_started b ++ b_finished b ++ [Exited p code])
          else (Raise timeout_expired, Spawned p :: b_started b ++ [Killed p])
      | NeverExits => (Raise timeout_expired, Spawned p :: b_started b ++ [Killed p])
      end
  end.

Definition default_server_path : string :=
  "/Users/barryvelasquez/projects/simple_task_mcp/mcp_server/build".

(** The two [except] clauses of lines 104-107. *)
Definition handle (e : exn) : json :=
  match exn_class_of e with
  | TimeoutExpired => JObj [("error", JStr "MCP call timed out")]
  | _ => JObj [("error", JStr ("Unexpected error: " +:+ exn_msg e))]
  end.

(** Lines 96-102. *)
Definition interpret (r : completed_process) : json :=
  if (returncode r =? 0)%Z then
    match json_loads (stdout r) with
    | Some v => v
    | None => JObj [("error", JStr "Failed to parse MCP response");
                    ("raw_output", JStr (stdout r))]
    end
  else JObj [("error", JStr ("MCP call failed: " +:+ stderr r));
             ("return_code", JNum (returncode r))].

(** Line 26. *)
Definition mcp_server_path (o : os) : string :=
  match getenv o "MCP_SERVER_PATH" with
  | Some p => p
  | None => default_server_path
  end.

(** The script that the f-string of lines 29-77 describes. *)
Definition stage (o : os) (tool_name arguments : string) : script :=
  {| s_server_path := mcp_server_path o;
     s_tool_name := tool_name;
     s_arguments := arguments |}.

(** [call_mcp_tool(tool_name, params)]: what it returns or raises, and the
    trace of what it did to files and processes.  The f-string is evaluated
    before the [try], so an exception of [json.dumps] is not caught. *)
Definition call_mcp_tool (o : os) (tool_name : string) (params : pydict)
    : result json * list event :=
  match dumps_params params with
  | Raise e => (Raise e, [])
  | Ok arguments =>
      let s := stage o tool_name arguments in
      match named_temporary_file o with
      | Raise e => (Ok (handle e), [])
      | Ok script_path =>
          let tr := [Created script_path s] in
          match subprocess_run o script_path s 30 with
          | (Raise e, tr') => (Ok (handle e), tr ++ tr')
          | (Ok r, tr') => (Ok (interpret r), tr ++ tr' ++ [Unlinked script_path])
          end
      end
  end.

(** The operating system in which [node] is installed (or not) and runs the
    script as [run_script] says. *)
Record world := {
  env_MCP_SERVER_PATH : option string;
  temp_file : result string;
  node_missing : option exn;     (* what launching node raises, if it cannot be launched *)
  node : node_world
}.

Definition os_of (w : world) : os :=
  {| getenv := fun name =>
       if String.eqb name "MCP_SERVER_PATH" then env_MCP_SERVER_PATH w else None;
     named_temporary_file := temp_file w;
     exec_node := fun _ s =>
       match node_missing w with
       | Some e => NotLaunched e
       | None => Launched (run_script (node w) s)
       end |}.

Definition server_path (w : world) : string :=
  match env_MCP_SERVER_PATH w with
  | Some p => p
  | None => default_server_path
  end.

(** The file the script asks Node to run as the server. *)
Definition entry_point (w : world) : string := server_path w +:+ "/index.js".

(** *** Conditions under which the model says what the script does *)

(** Text that stands for itself between single quotes in JavaScript source:
    no apostrophe, no backslash, no line break. *)
Definition plain_char (c : ascii) : bool :=
  negb (Ascii.eqb c "'" || Ascii.eqb c backslash || Ascii.eqb c LF || Ascii.eqb c CR).

Definition plain_text (s : string) : bool := all_chars plain_char s.

(** The call gets as far as running the script on the arguments [m], with
    the temporary file at [path]: [node] can be launched, the file can be
    written, the path of the server and the name of the tool are plain ASCII
    text, and [params] is a dict that [json] encodes as [m], with plain
    ASCII keys, ASCII strings and integers that JavaScript keeps. *)
Record staged (w : world) (tool_name : string) (params : pydict)
    (path : string) (m : members) : Prop := {
  st_node : node_missing w = None;
  st_file : temp_file w = Ok path;
  st_path : plain_text (server_path w) = true;
  st_tool : plain_text tool_name = true;
  st_params : encodable params = Ok m;
  st_distinct : distinct_keys (JObj m);
  st_plain : plain_keys (JObj m) = true;
  st_safe : safe_integers (JObj m) = true;
  st_ascii : ascii_text (server_path w) && ascii_text tool_name && ascii_value (JObj m) = true
}.

(** A dict with a key [error] whose value is a string. *)
Definition is_error_mapping (v : json) : Prop :=
  exists m msg, v = JObj m /\ lookup "error" m = Some (JStr msg).

(** What the server answers to the call, when [params] can be encoded. *)
Definition reply_of (w : world) (tool_name : string) (params : pydict) : option reply :=
  match encodable params with
  | Ok m => Some (w_server (node w) (entry_point w) (request_line tool_name (JObj m)))
  | Raise _ => None
  end.

(** The process outlives the timeout of [t] seconds. *)
Definition overruns (l : lifetime) (t : N) : Prop :=
  match l with
  | ExitsAfter secs _ => (t < secs)%N
  | NeverExits => True
  end.

(** [s.startswith(p)]. *)
Fixpoint has_prefix (p s : string) : bool :=
  match p, s with
  | EmptyString, _ => true
  | String a p', String b s' => Ascii.eqb a b && has_prefix p' s'
  | String _ _, EmptyString => false
  end.

(** [needle in hay] on Python strings. *)
Fixpoint contains (needle hay : string) : bool :=
  has_prefix needle hay
  || match hay with
     | EmptyString => false
     | String _ hay' => contains needle hay'
     end.

(** The script that [call_mcp_tool] stages in the world [w]. *)
Definition staged_script (w : world) (tool_name : string) (m : members) : script :=
  stage (os_of w) tool_name (json_dumps (JObj m)).

(** A line the loop passes over: it is no JSON text, or it parses to a
    value without a truthy [result]. *)
Definition passed_over (line : string) : Prop :=
  JSON_parse line = NotJson
  ∨ ∃ parsed, JSON_parse line = Parsed parsed ∧ truthy_result parsed = None.

Definition no_line_feed (s : string) : bool :=
  all_chars (λ c, negb (Ascii.eqb c LF)) s.

End Bridge.
Export Bridge.

(** ** Scenarios *)

Module Scenario.

Definition idle : behaviour :=
  {| b_started := []; b_life := NeverExits; b_finished := [];
     b_stdout := ""; b_stderr := "" |}.

(** A world in which the server writes [out] and [err] whatever it is asked,
    and lives as [life] says. *)
Definition stub_world (out err : string) (life : lifetime) : world :=
  {| env_MCP_SERVER_PATH := Some "/srv/mcp";
     temp_file := Ok "/tmp/tmpk3v9x1.js";
     node_missing := None;
     node := {| w_server := fun _ _ => {| r_stdout := out; r_stderr := err; r_life := life |};
                w_syntax_report := "SyntaxError: Invalid or unexpected token";
                w_other := fun _ => idle;
                w_unread := fun _ => "" |} |}.

Definition overview_params : pydict :=
  [("limit", Py (JNum 100)); ("offset", Py (JNum 0))].

Definition overview_members : members :=
  [("limit", JNum 100); ("offset", JNum 0)].



(** One response with a result. *)
Definition one_result : string :=
  dq "{'jsonrpc':'2.0','id':1,'result':{'content':[{'type':'text','text':'done'}]}}" +:+ nl.

(** An operating system in which the launched process exits at once with
    code 1, having written [boom] to its standard error and a result to its
    standard output. *)
Definition crashing_os : os :=
  {| getenv := λ _, None;
     named_temporary_file := Ok "/tmp/tmpk3v9x1.js";
     exec_node := λ _ _,
       Launched {| b_started := []; b_life := ExitsAfter 0 1; b_finished := [];
                   b_stdout := one_result; b_stderr := "boom" |} |}.




(** An operating system in which the launched process never ends. *)
Definition hanging_os : os :=
  {| getenv := λ _, None;
     named_temporary_file := Ok "/tmp/tmpk3v9x1.js";
     exec_node := λ _ _, Launched idle |}.

End Scenario.

(** ** Python operations on values of unknown type *)

Module Py.

(** What the tools need of the Python runtime and is not modelled in detail:
    the text of the exceptions the interpreter raises, [str.title], and the
    formatting of a float with one decimal. *)
Record runtime := {
  message_of : exn_class -> string;
  title : string -> string;
  format_1f : Q -> string
}.

#[global] Instance result_ret : MRet result := fun _ a => Ok a.
#[global] Instance result_bind : MBind result := fun _ _ f m =>
  match m with
  | Ok a => f a
  | Raise e => Raise e
  end.

Section Operations.

Variable rt : runtime.

Definition raise {A : Type} (c : exn_class) : result A :=
  Raise {| exn_class_of := c; exn_msg := message_of rt c |}.

(** Truthiness in Python. *)
Definition truthy (v : json) : bool :=
  match v with
  | JNull => false
  | JBool b => b
  | JNum n => negb (n =? 0)%Z
  | JStr s => negb (String.eqb s "")
  | JArr l => match l with [] => false | _ => true end
  | JObj m => match m with [] => false | _ => true end
  end.

(** [a or b] *)
Definition or_else (a b : json) : json := if truthy a then a else b.

(** [v == s] for a string [s]. *)
Definition eq_str (v : json) (s : string) : bool :=
  match v with
  | JStr t => String.eqb t s
  | _ => false
  end.

(** [needle in v] for a string [needle]. *)
Definition contains_str (needle : string) (v : json) : result bool :=
  match v with
  | JObj m => Ok (has_key needle m)
  | JArr l => Ok (existsb (fun x => eq_str x needle) l)
  | JStr s => Ok (contains needle s)
  | _ => raise TypeError
  end.

(** [v.get(k, d)] *)
Definition get (v : json) (k : string) (d : json) : result json :=
  match v with
  | JObj m => Ok (match lookup k m with Some x => x | None => d end)
  | _ => raise AttributeError
  end.

(** [v[k]] for a string [k]. *)
Definition item (v : json) (k : string) : result json :=
  match v with
  | JObj m => match lookup k m with Some x => Ok x | None => raise KeyError end
  | _ => raise TypeError
  end.

Fixpoint nth_char (s : string) (i : nat) : option ascii :=
  match s, i with
  | EmptyString, _ => None
  | String c _, O => Some c
  | String _ r, S j => nth_char r j
  end.

(** [v[0]] *)
Definition first (v : json) : result json :=
  match v with
  | JArr l => match l with x :: _ => Ok x | [] => raise IndexError end
  | JStr s => match s with String c _ => Ok (JStr (str1 c)) | EmptyString => raise IndexError end
  | JObj _ => raise KeyError
  | _ => raise TypeError
  end.

(** [len(v)] *)
Definition len (v : json) : result Z :=
  match v with
  | JArr l => Ok (Z.of_nat (length l))
  | JStr s => Ok (Z.of_nat (String.length s))
  | JObj m => Ok (Z.of_nat (length m))
  | _ => raise TypeError
  end.

Fixpoint chars (s : string) : list json :=
  match s with
  | EmptyString => []
  | String c r => JStr (str1 c) :: chars r
  end.

(** What [for x in v] goes through. *)
Definition iter (v : json) : result (list json) :=
  match v with
  | JArr l => Ok l
  | JStr s => Ok (chars s)
  | JObj m => Ok (map (fun kv => JStr (fst kv)) m)
  | _ => raise TypeError
  end.

Fixpoint prefix (n : nat) (s : string) : string :=
  match n, s with
  | O, _ => EmptyString
  | S n', String c r => String c (prefix n' r)
  | S _, EmptyString => EmptyString
  end.

(** [v[:n]] *)
Definition slice_to (n : nat) (v : json) : result json :=
  match v with
  | JStr s => Ok (JStr (prefix n s))
  | JArr l => Ok (JArr (firstn n l))
  | _ => raise TypeError
  end.

(** A method of [str] called on [v]: [AttributeError] unless [v] is a
    string. *)
Definition as_str (v : json) : result string :=
  match v with
  | JStr s => Ok s
  | _ => raise AttributeError
  end.

(** [s.replace('_', ' ')] *)
Fixpoint underscores_to_spaces (s : string) : string :=
  match s with
  | EmptyString => EmptyString
  | String c r => String (if Ascii.eqb c "_" then " "%char else c) (underscores_to_spaces r)
  end.

(** White space in the sense of [str.strip], among the 8-bit characters. *)
Definition py_space (c : ascii) : bool :=
  ((9 <=? code c) && (code c <=? 13)) || ((28 <=? code c) && (code c <=? 32))
  || (code c =? 133) || (code c =? 160).

Fixpoint lstrip (s : string) : string :=
  match s with
  | String c r => if py_space c then lstrip r else s
  | EmptyString => s
  end.

Fixpoint rstrip (s : string) : string :=
  match s with
  | EmptyString => EmptyString
  | String c r =>
      match rstrip r with
      | EmptyString => if py_space c then EmptyString else str1 c
      | r' => String c r'
      end
  end.

(** [s.strip()] *)
Definition strip (s : string) : string := rstrip (lstrip s).

(** *** [str(v)] and [repr(v)] *)

Definition hex2 (c : ascii) : string :=
  String backslash (String "x" (String (hex_digit (code c / 16))
    (String (hex_digit (code c mod 16)) EmptyString))).

Definition printable (c : ascii) : bool :=
  ((32 <=? code c) && (code c <=? 126))
  || ((161 <=? code c) && negb (code c =? 173)).

Definition repr_char (q c : ascii) : string :=
  if Ascii.eqb c q || Ascii.eqb c backslash then String backslash (str1 c)
  else if Ascii.eqb c TAB then String backslash "t"
  else if Ascii.eqb c LF then String backslash "n"
  else if Ascii.eqb c CR then String backslash "r"
  else if printable c then str1 c
  else hex2 c.

Fixpoint has_char (c : ascii) (s : string) : bool :=
  match s with
  | EmptyString => false
  | String a r => Ascii.eqb a c || has_char c r
  end.

(** [repr(s)]: single quotes, unless [s] has an apostrophe and no quotation
    mark. *)
Definition repr_str (s : string) : string :=
  let q := if has_char "'" s && negb (has_char dquote s) then dquote else "'"%char in
  String q (escape (repr_char q) s +:+ str1 q).

Fixpoint repr (v : json) : string :=
  match v with
  | JNull => "None"
  | JBool true => "True"
  | JBool false => "False"
  | JNum n => string_of_Z n
  | JStr s => repr_str s
  | JArr l => "[" +:+ join ", " (map repr l) +:+ "]"
  | JObj m => "{" +:+ join ", " (map (fun kv => repr_str (fst kv) +:+ ": " +:+ repr (snd kv)) m) +:+ "}"
  end.

(** [str(v)], which is what an f-string writes for [{v}]. *)
Definition str (v : json) : string :=
  match v with
  | JStr s => s
  | _ => repr v
  end.

(** *** Dicts keyed by values *)

(** Values that can be keys of a dict. *)
Definition hashable (v : json) : bool :=
  match v with
  | JArr _ | JObj _ => false
  | _ => true
  end.

Definition as_number (v : json) : option Z :=
  match v with
  | JNum n => Some n
  | JBool b => Some (if b then 1 else 0)%Z
  | _ => None
  end.

(** Equality of keys: [True == 1] and [False == 0]. *)
Definition key_eqb (a b : json) : bool :=
  match a, b with
  | JNull, JNull => true
  | JStr s, JStr t => String.eqb s t
  | _, _ =>
      match as_number a, as_number b with
      | Some x, Some y => (x =? y)%Z
      | _, _ => false
      end
  end.

Fixpoint find_key {A : Type} (k : json) (d : list (json * A)) : option A :=
  match d with
  | [] => None
  | (k', x) :: d' => if key_eqb k k' then Some x else find_key k d'
  end.

(** [d[k] = x]: an existing key keeps its place and its first spelling. *)
Fixpoint set_key {A : Type} (k : json) (x : A) (d : list (json * A)) : list (json * A) :=
  match d with
  | [] => [(k, x)]
  | (k', x') :: d' => if key_eqb k k' then (k', x) :: d' else (k', x') :: set_key k x d'
  end.

(** [counts[k] = counts.get(k, 0) + 1] *)
Definition bump (k : json) (counts : list (json * Z)) : result (list (json * Z)) :=
  if hashable k then
    Ok (set_key k (match find_key k counts with Some n => n + 1 | None => 1 end)%Z counts)
  else raise TypeError.

(** *** [sorted] *)

(** Keys that [<] compares: strings with strings, numbers with numbers. *)
Definition key_leb (a b : json) : option bool :=
  match a, b with
  | JStr s, JStr t => Some (String.leb s t)
  | _, _ =>
      match as_number a, as_number b with
      | Some x, Some y => Some (x <=? y)%Z
      | _, _ => None
      end
  end.

Fixpoint insert_sorted {A : Type} (x : json * A) (l : list (json * A))
    : result (list (json * A)) :=
  match l with
  | [] => Ok [x]
  | y :: l' =>
      match key_leb (fst x) (fst y) with
      | Some true => Ok (x :: l)
      | Some false =>
          match insert_sorted x l' with
          | Ok r => Ok (y :: r)
          | Raise e => Raise e
          end
      | None => raise TypeError
      end
  end.

(** [sorted(d.items())] for a dict [d], whose keys are distinct: by key;
    [TypeError] when two keys cannot be compared. *)
Fixpoint sorted_items {A : Type} (d : list (json * A)) : result (list (json * A)) :=
  match d with
  | [] => Ok []
  | x :: d' =>
      match sorted_items d' with
      | Ok r => insert_sorted x r
      | Raise e => Raise e
      end
  end.

(** [for x in l: ...] with an accumulator, stopping at the first exception. *)
Fixpoint for_each {A S : Type} (step : S -> A -> result S) (l : list A) (s : S) : result S :=
  match l with
  | [] => Ok s
  | x :: l' =>
      match step s x with
      | Ok s' => for_each step l' s'
      | Raise e => Raise e
      end
  end.

(** [a / b] on integers. *)
Definition truediv (a b : Z) : result Q :=
  match b with
  | Z0 => raise ZeroDivisionError
  | Zpos p => Ok (a # p)
  | Zneg p => Ok ((- a) # p)
  end.

End Operations.

End Py.

(** ** The report tools *)

Module Tools.

Import Py.

(** The separator that every tool joins its lines with: the source writes
    it with a doubled backslash in an ordinary string literal, so it is the
    two characters backslash and n. *)
Definition line_separator : string := String backslash "n".

(** [try: body except Exception as e: return prefix + str(e)] *)
Definition catch (prefix : string) (body : Bridge.result string) : Bridge.result string :=
  match body with
  | Ok s => Ok s
  | Raise e => Ok (prefix +:+ exn_msg e)
  end.

(** [if project_name:] for the optional argument, [None] by default. *)
Definition given (project_name : option string) : option string :=
  match project_name with
  | Some p => if String.eqb p "" then None else Some p
  | None => None
  end.

(** [params["project_name"] = project_name] when a project is given. *)
Definition with_project (params : pydict) (project_name : option string) : pydict :=
  match given project_name with
  | Some p => params ++ [("project_name", Py (JStr p))]
  | None => params
  end.

Section Tools.

Variable rt : runtime.

(** [call_mcp_tool] in the environment at hand: what it returns or raises
    for a tool name and params. *)
Variable mcp : string -> pydict -> Bridge.result json.

(** *** [switch_project] (lines 110-128) *)

Definition switch_project_body (project_name : string) : Bridge.result string :=
  result ← mcp "simpletask_switch_project" [("project_identifier", Py (JStr project_name))];
  failed ← contains_str rt "error" result;
  if failed : bool then
    e ← item rt result "error";
    Ok ("Error switching to project: " +:+ str e)
  else Ok ("✅ Switched to project: " +:+ project_name).

Definition switch_project (project_name : string) : Bridge.result string :=
  catch "Error switching to project: " (switch_project_body project_name).

(** The three tools that switch first (lines 396-399, 507-510, 572-575). *)
Definition switch_first (project_name : option string) (rest : Bridge.result string)
    : Bridge.result string :=
  match given project_name with
  | Some p =>
      switch_result ← switch_project p;
      if contains "Error" switch_result
      then Ok ("Project switch failed: " +:+ switch_result)
      else rest
  | None => rest
  end.

(** The response format of lines 156-167, 246-256 and 325-335: the text of
    the first content item. *)
Definition content_text (data : json) (nothing : string)
    (k : json -> Bridge.result string) : Bridge.result string :=
  has ← contains_str rt "content" data;
  if has : bool then
    c ← item rt data "content";
    n ← len rt c;
    if (0 <? n)%Z then
      c' ← item rt data "content";
      x ← first rt c';
      content ← get rt x "text" (JStr "");
      k content
    else Ok nothing
  else Ok nothing.

(** [json.loads(content)]; [None] stands for [JSONDecodeError]. *)
Definition loads (content : json) : Bridge.result (option json) :=
  match content with
  | JStr s => Ok (json_loads s)
  | _ => Py.raise rt TypeError
  end.

(** [f"...{content[:200]}..."] in the handler of [JSONDecodeError]. *)
Definition parse_error (prefix : string) (content : json) : Bridge.result string :=
  shown ← slice_to rt 200 content;
  Ok (prefix +:+ str shown +:+ "...").

(** *** [get_simple_task_overview] (lines 131-217) *)

(** [(count / len(items)) * 100 if items else 0] (lines 191 and 200) *)
Definition percentage (count : Z) (items : json) : Bridge.result Q :=
  if truthy items then
    n ← len rt items;
    q ← truediv rt count n;
    Ok (q * 100)%Q
  else Ok 0%Q.

(** Lines 173-178. *)
Definition count_task (counts : list (json * Z) * list (json * Z)) (task : json)
    : Bridge.result (list (json * Z) * list (json * Z)) :=
  status ← get rt task "status" (JStr "unknown");
  priority ← get rt task "priority" (JStr "unknown");
  status_counts ← bump rt status (fst counts);
  priority_counts ← bump rt priority (snd counts);
  Ok (status_counts, priority_counts).

(** Lines 190-192. *)
Definition status_line (items : json) (overview : list string) (entry : json * Z)
    : Bridge.result (list string) :=
  p ← percentage (snd entry) items;
  s ← as_str rt (fst entry);
  Ok (overview ++ ["- **" +:+ title rt (underscores_to_spaces s) +:+ "**: "
                   +:+ string_of_Z (snd entry) +:+ " (" +:+ format_1f rt p +:+ "%)"]).

(** Lines 199-201. *)
Definition priority_line (items : json) (overview : list string) (entry : json * Z)
    : Bridge.result (list string) :=
  p ← percentage (snd entry) items;
  s ← as_str rt (fst entry);
  Ok (overview ++ ["- **" +:+ title rt s +:+ "**: "
                   +:+ string_of_Z (snd entry) +:+ " (" +:+ format_1f rt p +:+ "%)"]).

(** [[t for t in items if t.get("priority") == "high"]] (line 204) *)
Definition keep_high (kept : list json) (t : json) : Bridge.result (list json) :=
  p ← get rt t "priority" JNull;
  Ok (if eq_str p "high" then kept ++ [t] else kept).

(** Lines 210-212. *)
Definition high_priority_line (overview : list string) (task : json)
    : Bridge.result (list string) :=
  status ← get rt task "status" (JStr "unknown");
  s ← as_str rt status;
  t ← get rt task "title" (JStr "Untitled");
  Ok (overview ++ ["- [" +:+ title rt (underscores_to_spaces s) +:+ "] **" +:+ str t +:+ "**"]).

(** Lines 169-214: from the decoded items to the report. *)
Definition overview_report (project_name : option string) (items total : json)
    : Bridge.result string :=
  tasks ← iter rt items;
  counts ← for_each count_task tasks ([], []);
  let overview :=
    ["# Simple Task Overview";
     "**Total Tasks**: " +:+ str total;
     "**Project**: " +:+ match given project_name with Some p => p | None => "Default Project" end;
     "**Data Source**: aitistra.com API";
     "";
     "## Status Distribution:"] in
  by_status ← sorted_items rt (fst counts);
  overview ← for_each (status_line items) by_status overview;
  let overview := overview ++ [""; "## Priority Distribution:"] in
  by_priority ← sorted_items rt (snd counts);
  overview ← for_each (priority_line items) by_priority overview;
  tasks' ← iter rt items;
  high ← for_each keep_high tasks' [];
  let high_priority_tasks := firstn 5 high in
  overview ←
    match high_priority_tasks with
    | [] => Ok overview
    | _ => for_each high_priority_line high_priority_tasks
             (overview ++ [""; "## Recent High Priority Tasks:"])
    end;
  Ok (join line_separator overview).

Definition get_simple_task_overview_body (project_name : option string) : Bridge.result string :=
  let params :=
    with_project [("limit", Py (JNum 100)); ("offset", Py (JNum 0));
                  ("include_full_data", Py (JBool false))] project_name in
  summary_data ← mcp "simpletask_get_tasks_summary" params;
  failed ← contains_str rt "error" summary_data;
  if failed : bool then
    e ← item rt summary_data "error";
    Ok ("Error getting tasks: " +:+ str e)
  else
    content_text summary_data "No task data received from MCP server" (fun content =>
      decoded ← loads content;
      match decoded with
      | None => parse_error "Error parsing task data: " content
      | Some task_data =>
          items ← get rt task_data "items" (JArr []);
          n ← len rt items;
          total ← get rt task_data "total_count" (JNum n);
          overview_report project_name items total
      end).

Definition get_simple_task_overview (project_name : option string) : Bridge.result string :=
  catch "Error analyzing tasks: " (get_simple_task_overview_body project_name).

(** *** [get_blocked_tasks] (lines 220-296) *)

(** [created_at[:10] if created_at else 'Unknown'] (line 278) *)
Definition created_or_unknown (created_at : json) : Bridge.result string :=
  if truthy created_at then
    d ← slice_to rt 10 created_at;
    Ok (str d)
  else Ok "Unknown".

(** The body of the loop of lines 267-291, on the task numbered [i]. *)
Definition blocked_task (state : Z * list string) (task : json)
    : Bridge.result (Z * list string) :=
  let i := fst state in
  let result := snd state in
  title ← get rt task "title" (JStr "Untitled");
  priority ← get rt task "priority" (JStr "unknown");
  priority ← as_str rt priority;
  let priority := Py.title rt priority in
  assigned_to ← get rt task "assigned_to" JNull;
  let assigned := or_else assigned_to (JStr "Unassigned") in
  dependencies ← get rt task "depends_on" (JArr []);
  created_at ← get rt task "created_at" (JStr "");
  created ← created_or_unknown created_at;
  let result := result ++
    ["## " +:+ string_of_Z i +:+ ". " +:+ str title;
     "- **Priority**: " +:+ priority;
     "- **Assigned to**: " +:+ str assigned;
     "- **Created**: " +:+ created] in
  result ←
    (if truthy dependencies then
       n ← len rt dependencies;
       Ok (result ++ ["- **Depends on**: " +:+ string_of_Z n +:+ " task(s)"])
     else Ok result);
  description ← get rt task "description" (JStr "");
  description ← as_str rt description;
  let description := strip description in
  let result :=
    if String.eqb description "" then result
    else
      let description :=
        if 200 <? String.length description
        then prefix 200 description +:+ "..." else description in
      result ++ ["- **Description**: " +:+ description] in
  Ok ((i + 1)%Z, result ++ [""]).

Definition blocked_report (items : json) : Bridge.result string :=
  if negb (truthy items) then Ok "✅ No blocked tasks found!"
  else
    n ← len rt items;
    let result :=
      ["# Blocked Tasks (" +:+ string_of_Z n +:+ " found)";
       "**Data Source**: aitistra.com API";
       ""] in
    tasks ← iter rt items;
    final ← for_each blocked_task tasks (1%Z, result);
    Ok (join line_separator (snd final)).

Definition get_blocked_tasks_body (project_name : option string) : Bridge.result string :=
  let params :=
    with_project [("status", Py (JStr "blocked")); ("limit", Py (JNum 50));
                  ("offset", Py (JNum 0)); ("include_full_data", Py (JBool true))]
      project_name in
  blocked_data ← mcp "simpletask_get_tasks_by_status" params;
  failed ← contains_str rt "error" blocked_data;
  if failed : bool then
    e ← item rt blocked_data "error";
    Ok ("Error getting blocked tasks: " +:+ str e)
  else
    content_text blocked_data "No blocked tasks data received from MCP server" (fun content =>
      decoded ← loads content;
      match decoded with
      | None => parse_error "Error parsing blocked tasks data: " content
      | Some task_data =>
          items ← get rt task_data "items" (JArr []);
          blocked_report items
      end).

Definition get_blocked_tasks (project_name : option string) : Bridge.result string :=
  catch "Error analyzing blocked tasks: " (get_blocked_tasks_body project_name).

(** *** [get_high_priority_tasks] (lines 299-382) *)

(** Lines 342-346. *)
Definition group_task (by_status : list (json * list json)) (task : json)
    : Bridge.result (list (json * list json)) :=
  status ← get rt task "status" (JStr "unknown");
  if hashable status then
    Ok (set_key status
          (match find_key status by_status with Some l => l | None => [] end ++ [task])
          by_status)
  else Py.raise rt TypeError.

(** Lines 367-375. *)
Definition high_priority_task (result : list string) (task : json) : Bridge.result (list string) :=
  title ← get rt task "title" (JStr "Untitled");
  assigned_to ← get rt task "assigned_to" JNull;
  let assigned := or_else assigned_to (JStr "Unassigned") in
  created_at ← get rt task "created_at" (JStr "");
  task_id ← get rt task "id" (JStr "unknown");
  let result := result ++
    ["- **" +:+ str title +:+ "** (ID: " +:+ str task_id
     +:+ ", Assigned: " +:+ str assigned +:+ ")"] in
  if truthy created_at then
    d ← slice_to rt 10 created_at;
    Ok (result ++ ["  Created: " +:+ str d])
  else Ok result.

Definition status_order : list string :=
  ["blocked"; "todo"; "in_progress"; "review"; "completed"].

(** Lines 357-377: one status of [status_order]. *)
Definition status_section (by_status : list (json * list json)) (result : list string)
    (status : string) : Bridge.result (list string) :=
  match find_key (JStr status) by_status with
  | None => Ok result
  | Some tasks =>
      let result := result ++
        ["## " +:+ Py.title rt (underscores_to_spaces status) +:+ " ("
         +:+ string_of_Z (Z.of_nat (length tasks)) +:+ ")"; ""] in
      result ← for_each high_priority_task tasks result;
      Ok (result ++ [""])
  end.

Definition high_priority_report (items : json) : Bridge.result string :=
  if negb (truthy items) then Ok "No high priority tasks found."
  else
    tasks ← iter rt items;
    by_status ← for_each group_task tasks [];
    n ← len rt items;
    let result :=
      ["# High Priority Tasks (" +:+ string_of_Z n +:+ " found)";
       "**Data Source**: aitistra.com API";
       ""] in
    result ← for_each (status_section by_status) status_order result;
    Ok (join line_separator result).

Definition get_high_priority_tasks_body (project_name : option string) : Bridge.result string :=
  let params :=
    with_project [("priority", Py (JStr "high")); ("limit", Py (JNum 25));
                  ("offset", Py (JNum 0)); ("include_full_data", Py (JBool true))]
      project_name in
  high_priority_data ← mcp "simpletask_get_tasks_by_priority" params;
  failed ← contains_str rt "error" high_priority_data;
  if failed : bool then
    e ← item rt high_priority_data "error";
    Ok ("Error getting high priority tasks: " +:+ str e)
  else
    content_text high_priority_data "No high priority tasks data received from MCP server"
      (fun content =>
        decoded ← loads content;
        match decoded with
        | None => parse_error "Error parsing high priority tasks data: " content
        | Some task_data =>
            items ← get rt task_data "items" (JArr []);
            high_priority_report items
        end).

Definition get_high_priority_tasks (project_name : option string) : Bridge.result string :=
  catch "Error analyzing high priority tasks: " (get_high_priority_tasks_body project_name).

(** *** [analyze_team_workload] (lines 385-492) *)

(** The counters of one team member (lines 430-437). *)
Definition load := list (string * Z).

Definition new_load : load :=
  [("total", 0%Z); ("high", 0%Z); ("blocked", 0%Z); ("in_progress", 0%Z);
   ("completed", 0%Z); ("todo", 0%Z)].

Fixpoint counter (k : string) (l : load) : Z :=
  match l with
  | [] => 0%Z
  | (k', n) :: l' => if String.eqb k k' then n else counter k l'
  end.

(** [load[k] += 1] for a key that is there. *)
Fixpoint increment (k : string) (l : load) : load :=
  match l with
  | [] => []
  | (k', n) :: l' => if String.eqb k k' then (k', (n + 1)%Z) :: l' else (k', n) :: increment k l'
  end.

Definition has_counter (k : string) (l : load) : bool :=
  existsb (fun kn => String.eqb k (fst kn)) l.

(** Lines 423-448: one task. *)
Definition assign_task (state : list (json * load) * Z) (task : json)
    : Bridge.result (list (json * load) * Z) :=
  let workload := fst state in
  let unassigned_count := snd state in
  assigned ← get rt task "assigned_to" JNull;
  if negb (truthy assigned) then Ok (workload, (unassigned_count + 1)%Z)
  else if negb (hashable assigned) then Py.raise rt TypeError
  else
    let mine := match find_key assigned workload with Some l => l | None => new_load end in
    let mine := increment "total" mine in
    priority ← get rt task "priority" JNull;
    let mine := if eq_str priority "high" then increment "high" mine else mine in
    status ← get rt task "status" (JStr "unknown");
    if negb (hashable status) then Py.raise rt TypeError
    else
      let mine :=
        match status with
        | JStr s => if has_counter s mine then increment s mine else mine
        | _ => mine
        end in
      Ok (set_key assigned mine workload, unassigned_count).

(** [sorted(workload.items(), key=lambda x: x[1]["total"], reverse=True)]:
    by falling total, members with equal totals in their order of first
    appearance. *)
Fixpoint insert_by_total (x : json * load) (l : list (json * load)) : list (json * load) :=
  match l with
  | [] => [x]
  | y :: l' =>
      if (counter "total" (snd x) <=? counter "total" (snd y))%Z
      then y :: insert_by_total x l'
      else x :: l
  end.

Definition sorted_by_total (workload : list (json * load)) : list (json * load) :=
  fold_left (fun sorted x => insert_by_total x sorted) workload [].

(** [member.split('@')[0].title() if '@' in member else member] (line 465) *)
Definition display_name (member : json) : Bridge.result string :=
  at_sign ← contains_str rt "@" member;
  if at_sign : bool then
    m ← as_str rt member;
    Ok (Py.title rt (match split_on "@" m with p :: _ => p | [] => EmptyString end))
  else Ok (str member).

(** Lines 463-487: one team member. *)
Definition member_lines (result : list string) (entry : json * load) : Bridge.result (list string) :=
  let member := fst entry in
  let load := snd entry in
  name ← display_name member;
  let result := result ++
    ["### " +:+ name;
     "- **Email**: " +:+ str member;
     "- **Total Tasks**: " +:+ string_of_Z (counter "total" load);
     "- **High Priority**: " +:+ string_of_Z (counter "high" load);
     "- **Blocked**: " +:+ string_of_Z (counter "blocked" load);
     "- **In Progress**: " +:+ string_of_Z (counter "in_progress" load);
     "- **Completed**: " +:+ string_of_Z (counter "completed" load);
     "- **Todo**: " +:+ string_of_Z (counter "todo" load);
     ""] in
  let result :=
    if (10 <? counter "total" load)%Z then
      result ++ ["  ⚠️  **High workload** - Consider redistributing tasks"]
    else if (2 <? counter "blocked" load)%Z then
      result ++ ["  🚧 **Multiple blockers** - Needs support unblocking tasks"]
    else if (3 <? counter "high" load)%Z then
      result ++ ["  🔥 **Many high-priority tasks** - May need prioritization help"]
    else result in
  Ok (result ++ [""]).

(** Lines 418-489: the report, once [items] is known to be truthy. *)
Definition workload_report (items : json) : Bridge.result string :=
  total_tasks ← len rt items;
  tasks ← iter rt items;
  state ← for_each assign_task tasks ([], 0%Z);
  let workload := fst state in
  let unassigned_count := snd state in
  share ← truediv rt unassigned_count total_tasks;
  let result :=
    ["# Team Workload Analysis";
     "**Total Active Tasks**: " +:+ string_of_Z total_tasks;
     "**Unassigned Tasks**: " +:+ string_of_Z unassigned_count +:+ " ("
       +:+ format_1f rt (share * 100)%Q +:+ "%)";
     "**Data Source**: aitistra.com API";
     "";
     "## Individual Workloads:";
     ""] in
  result ← for_each member_lines (sorted_by_total workload) result;
  Ok (join line_separator result).

Definition analyze_team_workload_body (project_name : option string) : Bridge.result string :=
  switch_first project_name (
    let params := [("limit", Py (JNum 200)); ("offset", Py (JNum 0));
                   ("include_full_data", Py (JBool true))] in
    tasks_data ← mcp "simpletask_get_tasks" params;
    failed ← contains_str rt "error" tasks_data;
    if failed : bool then
      e ← item rt tasks_data "error";
      Ok ("Error getting tasks: " +:+ str e)
    else
      items ← get rt tasks_data "items" (JArr []);
      if negb (truthy items) then Ok "No tasks found for workload analysis."
      else workload_report items).

Definition analyze_team_workload (project_name : option string) : Bridge.result string :=
  catch "Error analyzing workload: " (analyze_team_workload_body project_name).

(** *** [search_tasks] (lines 495-558) *)

(** Lines 539-553. *)
Definition search_hit (state : Z * list string) (task : json) : Bridge.result (Z * list string) :=
  let i := fst state in
  title ← get rt task "title" (JStr "Untitled");
  status ← get rt task "status" (JStr "unknown");
  status ← as_str rt status;
  priority ← get rt task "priority" (JStr "unknown");
  priority ← as_str rt priority;
  assigned_to ← get rt task "assigned_to" JNull;
  let assigned := or_else assigned_to (JStr "Unassigned") in
  task_id ← get rt task "id" (JStr "unknown");
  Ok ((i + 1)%Z,
      snd state ++
      ["## " +:+ string_of_Z i +:+ ". " +:+ str title;
       "- **Status**: " +:+ Py.title rt status;
       "- **Priority**: " +:+ Py.title rt priority;
       "- **Assigned**: " +:+ str assigned;
       "- **ID**: " +:+ str task_id;
       ""]).

Definition search_tasks_body (query : string) (project_name : option string)
    : Bridge.result string :=
  switch_first project_name (
    let params := [("query", Py (JStr query)); ("limit", Py (JNum 25));
                   ("offset", Py (JNum 0)); ("include_full_data", Py (JBool false))] in
    search_data ← mcp "simpletask_search_tasks" params;
    failed ← contains_str rt "error" search_data;
    if failed : bool then
      e ← item rt search_data "error";
      Ok ("Error searching tasks: " +:+ str e)
    else
      items ← get rt search_data "items" (JArr []);
      total ← get rt search_data "total_count" (JNum 0);
      if negb (truthy items) then Ok ("No tasks found matching '" +:+ query +:+ "'")
      else
        n ← len rt items;
        let result :=
          ["# Search Results for '" +:+ query +:+ "'";
           "**Found**: " +:+ str total +:+ " tasks";
           "**Showing**: " +:+ string_of_Z n +:+ " results";
           "**Data Source**: aitistra.com API";
           ""] in
        tasks ← iter rt items;
        final ← for_each search_hit tasks (1%Z, result);
        Ok (join line_separator (snd final))).

Definition search_tasks (query : string) (project_name : option string) : Bridge.result string :=
  catch "Error searching tasks: " (search_tasks_body query project_name).

(** *** [get_project_info] (lines 561-615) *)

(** Lines 599-610. *)
Definition project_lines (project_name : option string) (result : list string)
    (project : json) : Bridge.result (list string) :=
  name ← get rt project "name" (JStr "Unknown");
  project_name_key ← get rt project "projectName" (JStr "unknown");
  description ← get rt project "description" (JStr "No description");
  let is_current :=
    match given project_name with
    | Some p => eq_str project_name_key p
    | None => false
    end in
  Ok (result ++
      ["### " +:+ str name +:+ " " +:+ (if is_current then "**[CURRENT]**" else "");
       "- **Project Key**: " +:+ str project_name_key;
       "- **Description**: " +:+ str description;
       ""]).

Definition get_project_info_body (project_name : option string) : Bridge.result string :=
  switch_first project_name (
    project_data ← mcp "simpletask_get_project_info" [];
    failed ← contains_str rt "error" project_data;
    if failed : bool then
      e ← item rt project_data "error";
      Ok ("Error getting project info: " +:+ str e)
    else
      projects_data ← mcp "simpletask_list_projects" [];
      let result := ["# Project Information"; "**Data Source**: aitistra.com API"; ""] in
      listing_failed ← contains_str rt "error" projects_data;
      result ←
        (if listing_failed : bool then Ok result
         else
           let projects := projects_data in
           n ← len rt projects;
           let result := result ++
             ["## Available Projects (" +:+ string_of_Z n +:+ " total):"; ""] in
           all ← iter rt projects;
           for_each (project_lines project_name) all result);
      Ok (join line_separator result)).

Definition get_project_info (project_name : option string) : Bridge.result string :=
  catch "Error getting project info: " (get_project_info_body project_name).

(** *** Calling the tools *)

Inductive tool : Type :=
| SwitchProject
| GetSimpleTaskOverview
| GetBlockedTasks
| GetHighPriorityTasks
| AnalyzeTeamWorkload
| SearchTasks
| GetProjectInfo.

(** What a signature cannot bind raises [TypeError] in the caller. *)
Definition cannot_bind : Bridge.result string := Py.raise rt TypeError.

(** A call of [f] with positional string arguments, bound as the [def] lines say:
    [switch_project(project_name)], [search_tasks(query, project_name=None)],
    and [f(project_name=None)] for the others. *)
Definition invoke (f : tool) (args : list string) : Bridge.result string :=
  match f, args with
  | SwitchProject, [p] => switch_project p
  | GetSimpleTaskOverview, [] => get_simple_task_overview None
  | GetSimpleTaskOverview, [p] => get_simple_task_overview (Some p)
  | GetBlockedTasks, [] => get_blocked_tasks None
  | GetBlockedTasks, [p] => get_blocked_tasks (Some p)
  | GetHighPriorityTasks, [] => get_high_priority_tasks None
  | GetHighPriorityTasks, [p] => get_high_priority_tasks (Some p)
  | AnalyzeTeamWorkload, [] => analyze_team_workload None
  | AnalyzeTeamWorkload, [p] => analyze_team_workload (Some p)
  | SearchTasks, [q] => search_tasks q None
  | SearchTasks, [q; p] => search_tasks q (Some p)
  | GetProjectInfo, [] => get_project_info None
  | GetProjectInfo, [p] => get_project_info (Some p)
  | _, _ => cannot_bind
  end.

(** What [get_simple_task_overview] asks of the bridge. *)
Definition summary_request (project_name : option string) : pydict :=
  with_project [("limit", Py (JNum 100)); ("offset", Py (JNum 0));
                ("include_full_data", Py (JBool false))] project_name.

(** The computation ends in a [ZeroDivisionError]. *)
Definition zero_division {A : Type} (r : result A) : Prop :=
  ∃ e, r = Raise e ∧ exn_class_of e = ZeroDivisionError.

End Tools.

(** The numbers of positional arguments a tool accepts. *)
Definition accepts (f : tool) (n : nat) : bool :=
  match f with
  | SwitchProject => n =? 1
  | SearchTasks => (n =? 1) || (n =? 2)
  | _ => n <=? 1
  end.

(** The bridge [mcp], except that the tool [name] is answered by [answer]. *)
Definition answering (mcp : string → pydict → result json) (name : string)
    (answer : json) : string → pydict → result json :=
  λ tool_name params, if String.eqb tool_name name then Ok answer else mcp tool_name params.

End Tools.

(** ** Sums over the tables of the reports *)

Module Tally.

Import Tools.

(** The sum of the counts of a distribution. *)
Definition tally (counts : list (json * Z)) : Z :=
  fold_right (λ kn n, snd kn + n)%Z 0%Z counts.

(** The tasks assigned to the members of a workload, all told. *)
Definition assigned_total (workload : list (json * load)) : Z :=
  fold_right (λ kl n, counter "total" (snd kl) + n)%Z 0%Z workload.

End Tally.

(** ** A runtime and bridges for the scenarios *)

Module Sample.

Import Py Tools.

Definition is_lower (c : ascii) : bool := (97 <=? code c) && (code c <=? 122).
Definition is_upper (c : ascii) : bool := (65 <=? code c) && (code c <=? 90).

(** [str.title] on ASCII text: a letter is upper case after a character
    that is no letter, lower case after a letter. *)
Fixpoint title_from (after_letter : bool) (s : string) : string :=
  match s with
  | EmptyString => EmptyString
  | String c r =>
      if is_lower c then
        String (if after_letter then c else ascii_of_nat (code c - 32)) (title_from true r)
      else if is_upper c then
        String (if after_letter then ascii_of_nat (code c + 32) else c) (title_from true r)
      else String c (title_from false r)
  end.

(** One decimal, the nearest, ties to the even digit, for a value that is
    not negative. *)
Definition one_decimal (q : Q) : string :=
  let n := (Qnum q * 10)%Z in
  let d := Z.pos (Qden q) in
  let t := (n / d)%Z in
  let r := (n mod d)%Z in
  let t := if (d <? 2 * r)%Z then (t + 1)%Z
           else if (d =? 2 * r)%Z then (if Z.even t then t else t + 1)%Z
           else t in
  string_of_Z (t / 10) +:+ "." +:+ string_of_Z (t mod 10).

Definition messages (c : exn_class) : string :=
  match c with
  | TimeoutExpired => "Command timed out"
  | JSONDecodeError => "Expecting value: line 1 column 1 (char 0)"
  | TypeError => "unsupported operand"
  | AttributeError => "object has no attribute"
  | KeyError => "key"
  | IndexError => "index out of range"
  | ValueError => "invalid value"
  | ZeroDivisionError => "division by zero"
  | OSError => "[Errno 5] Input/output error"
  | FileNotFoundError => "[Errno 2] No such file or directory"
  end.

Definition cpython : Py.runtime :=
  {| message_of := messages; title := title_from false; format_1f := one_decimal |}.

(** The real bridge in a world. *)
Definition bridge (w : world) : string -> pydict -> result json :=
  fun tool_name params => fst (call_mcp_tool (os_of w) tool_name params).

(** The response of the specification's end-to-end scenario: one content
    item whose text is the JSON text of no items and a total of 0. *)
Definition empty_summary_text : string := dq "{'items':[],'total_count':0}".

Definition empty_summary : json :=
  JObj [("content", JArr [JObj [("text", JStr empty_summary_text)]])].

(** The bridge's result is a dict without [error] whose first content item
    has that text. *)
Definition empty_summary_received (summary_data : json) : Prop :=
  ∃ (m first : members) (others : list json),
    summary_data = JObj m
    ∧ lookup "error" m = None
    ∧ lookup "content" m = Some (JArr (JObj first :: others))
    ∧ lookup "text" first = Some (JStr empty_summary_text).

(** What the server of that scenario writes. *)
Definition empty_summary_response : string :=
  JSON_stringify (JObj [("jsonrpc", JStr "2.0"); ("id", JNum 1); ("result", empty_summary)])
  +:+ nl.


(** A bridge whose project info names a project and whose listing fails. *)
Definition listing_fails : string → pydict → result json :=
  λ tool_name _,
    if String.eqb tool_name "simpletask_list_projects"
    then Ok (JObj [("error", JStr "MCP call timed out")])
    else Ok (JObj [("name", JStr "Alpha"); ("projectName", JStr "alpha")]).

(** Two projects, the second without a name. *)
Definition two_projects : list json :=
  [JObj [("name", JStr "Alpha"); ("projectName", JStr "alpha");
         ("description", JStr "The first")];
   JObj [("projectName", JStr "beta")]].

End Sample.

(** ** The interactive selection of a project ([real_agent.py], lines 273-326) *)

Module Agent.

Import Py.

(** What the program writes to the terminal: a line of [print], or the
    prompt of [input]. *)
Inductive console : Type :=
| Printed (line : string)
| Prompted (prompt : string).

(** What the user does at a prompt: a line and the return key, or an
    interrupt. *)
Inductive keyed : Type :=
| Line (s : string)
| Interrupt.

(** How [select_project] ends. *)
Inductive selection : Type :=
| Selected (project_name : json)   (* the value returned; [JNull] for [None] *)
| EndOfInput                       (* EOFError out of [input] *)
| Failed (e : exn).                (* another exception, not caught *)

(** [c.lower()] for an 8-bit character. *)
Definition lower_char (c : ascii) : ascii :=
  let n := code c in
  if ((65 <=? n) && (n <=? 90)) || ((192 <=? n) && (n <=? 222) && negb (n =? 215))
  then ascii_of_nat (n + 32) else c.

Fixpoint lower (s : string) : string :=
  match s with
  | EmptyString => EmptyString
  | String c r => String (lower_char c) (lower r)
  end.

(** The digits of [int(s)], with the underscores that may stand between two
    of them. *)
Fixpoint digits_value (acc : Z) (after_digit : bool) (s : string) : option Z :=
  match s with
  | EmptyString => if after_digit then Some acc else None
  | String c r =>
      if is_digit c then digits_value (acc * 10 + Z.of_nat (code c - 48))%Z true r
      else if Ascii.eqb c "_" && after_digit then digits_value acc false r
      else None
  end.

(** The number of digits of a text, its underscores not counted. *)
Fixpoint digit_count (s : string) : nat :=
  match s with
  | EmptyString => 0
  | String c r => (if is_digit c then 1 else 0) + digit_count r
  end.

(** [int(s)]: [None] stands for [ValueError].  [max_str_digits] is the limit
    of the interpreter on the digits of a decimal text
    ([sys.get_int_max_str_digits()]: 4300 unless it was set, 0 for no limit
    and in the versions without one); it is looked at for more than 640
    digits only. *)
Definition py_int (max_str_digits : nat) (s : string) : option Z :=
  let number r :=
    match digits_value 0 false r with
    | Some n =>
        if (640 <? digit_count r) && (0 <? max_str_digits)
           && (max_str_digits <? digit_count r)
        then None else Some n
    | None => None
    end in
  match strip s with
  | String "+" r => number r
  | String "-" r => option_map Z.opp (number r)
  | r => number r
  end.

Section Agent.

Variable rt : runtime.
Variable max_str_digits : nat.

(** [get_available_projects()] (lines 273-284), given what opening and
    reading the file gives. *)
Definition get_available_projects (file : result string) : json * list console :=
  match file with
  | Ok text =>
      match json_loads text with
      | Some projects => (projects, [])
      | None =>
          (JArr [], [Printed ("❌ Error reading projects.json: "
                               +:+ message_of rt JSONDecodeError)])
      end
  | Raise e => (JArr [], [Printed ("❌ Error reading projects.json: " +:+ exn_msg e)])
  end.

(** The loop of lines 297-304, from the project numbered [i]. *)
Fixpoint list_projects (i : Z) (projects : list json) (out : list console)
    : option exn * list console :=
  match projects with
  | [] => (None, out)
  | project :: rest =>
      match get rt project "name" (JStr "Unknown") with
      | Raise e => (Some e, out)
      | Ok name =>
          match get rt project "projectName" (JStr "unknown") with
          | Raise e => (Some e, out)
          | Ok project_name =>
              match get rt project "description" (JStr "No description") with
              | Raise e => (Some e, out)
              | Ok description =>
                  list_projects (i + 1) rest
                    (out ++ [Printed (string_of_Z i +:+ ". " +:+ str name);
                             Printed ("   Key: " +:+ str project_name);
                             Printed ("   Description: " +:+ str description);
                             Printed ""])
              end
          end
      end
  end.

Definition prompt (projects : list json) : console :=
  Prompted ("Select project (1-" +:+ string_of_Z (Z.of_nat (length projects))
            +:+ ") or 'all' for default: ").

(** The loop of lines 306-326, on what the user does at the prompts. *)
Fixpoint choose (projects : list json) (keys : list keyed) (out : list console)
    : selection * list console :=
  match keys with
  | [] => (EndOfInput, out ++ [prompt projects])
  | Interrupt :: _ =>
      (Selected JNull, out ++ [prompt projects; Printed (nl +:+ "👋 Goodbye!")])
  | Line typed :: keys' =>
      let out := out ++ [prompt projects] in
      let choice := lower (strip typed) in
      if String.eqb choice "all" || String.eqb choice "" then (Selected JNull, out)
      else
        match py_int max_str_digits choice with
        | None => choose projects keys' (out ++ [Printed "Please enter a valid number or 'all'"])
        | Some choice_num =>
            if (1 <=? choice_num)%Z && (choice_num <=? Z.of_nat (length projects))%Z then
              match nth_error projects (Z.to_nat (choice_num - 1)) with
              | None => (Failed {| exn_class_of := IndexError;
                                   exn_msg := message_of rt IndexError |}, out)
              | Some selected_project =>
                  match get rt selected_project "projectName" JNull with
                  | Raise e => (Failed e, out)
                  | Ok project_name =>
                      match get rt selected_project "name" JNull with
                      | Raise e => (Failed e, out)
                      | Ok name =>
                          (Selected project_name,
                           out ++ [Printed ("✅ Selected: " +:+ str name +:+ " ("
                                            +:+ str project_name +:+ ")")])
                      end
                  end
              end
            else
              choose projects keys'
                (out ++ [Printed ("Please enter a number between 1 and "
                                  +:+ string_of_Z (Z.of_nat (length projects)))])
        end
  end.

(** Lines 291-326: [select_project] once the projects are loaded. *)
Definition select_among (projects : json) (keys : list keyed) (out : list console)
    : selection * list console :=
  if negb (truthy projects)
  then (Selected JNull, out ++ [Printed "❌ No projects found in projects.json"])
  else
    let out := out ++ [Printed "🎯 Available Projects:";
                       Printed "=================================================="] in
    match iter rt projects with
    | Raise e => (Failed e, out)
    | Ok all =>
        match list_projects 1 all out with
        | (Some e, out) => (Failed e, out)
        | (None, out) => choose all keys out
        end
    end.

(** [select_project()] (lines 287-326). *)
Definition select_project (file : result string) (keys : list keyed)
    : selection * list console :=
  let (projects, out) := get_available_projects file in
  select_among projects keys out.

End Agent.

End Agent.

(** ** The specification's statements, as it words them *)

Module Stated.







(** C3 as stated: when the timeout strikes, the call returns the timeout
    error and no process that it caused is running afterwards. *)
Definition C3_as_stated (w : world) (tool_name : string) (params : pydict) : Prop :=
  ∀ reply,
    reply_of w tool_name params = Some reply → overruns (r_life reply) 30 →
    fst (call_mcp_tool (os_of w) tool_name params)
    = Ok (JObj [("error", JStr "MCP call timed out")])
    ∧ ∀ p, alive (snd (call_mcp_tool (os_of w) tool_name params)) p = false.



(** C9 as stated: whatever the tool name and the params, the call returns a
    value. *)
Definition C9_as_stated (o : os) (tool_name : string) (params : pydict) : Prop :=
  ∃ v, fst (call_mcp_tool o tool_name params) = Ok v.

End Stated.

(** * Verification *)

#[local] Arguments String.append !s1 s2 : simpl nomatch.
#[local] Set Warnings "-clear-no-such-hyp".

(** ** Facts about strings *)

Module CharFacts.

Lemma app_nil_r (s : string) : s +:+ "" = s.
Proof. induction s as [|c s IH]; simpl; [done | by rewrite IH]. Qed.

Lemma app_assoc (a b c : string) : (a +:+ b) +:+ c = a +:+ (b +:+ c).
Proof. induction a as [|x a IH]; simpl; [done | by rewrite IH]. Qed.

Lemma length_app (a b : string) :
  String.length (a +:+ b) = String.length a + String.length b.
Proof. induction a as [|x a IH]; simpl; [done | by rewrite IH]. Qed.

(** The first character of a text is no digit. *)
Definition no_digit_head (s : string) : Prop :=
  match s with
  | String c _ => digit_of c = None
  | EmptyString => True
  end.

(** The first character of a text exists and is no white space. *)
Definition solid_head (s : string) : Prop :=
  match s with
  | String c _ => is_ws c = false
  | EmptyString => False
  end.

Lemma skip_ws_solid (s : string) : solid_head s → skip_ws s = s.
Proof. destruct s as [|c s]; simpl; [done | by intros ->]. Qed.

Lemma skip_ws_app (w s : string) :
  all_chars is_ws w = true → skip_ws (w +:+ s) = skip_ws s.
Proof.
  induction w as [|c w IH]; simpl; [done |].
  intros [Hc Hw]%andb_true_iff. rewrite Hc. by apply IH.
Qed.

Lemma all_ws_spaces (n : nat) : all_chars is_ws (spaces n) = true.
Proof. induction n as [|n IH]; simpl; [done | exact IH]. Qed.

Lemma all_ws_nl_spaces (n : nat) : all_chars is_ws (nl +:+ spaces n) = true.
Proof. simpl. apply all_ws_spaces. Qed.

Lemma strip_prefix_app (p s : string) : strip_prefix p (p +:+ s) = Some s.
Proof.
  induction p as [|c p IH]; simpl; [done |]. by rewrite Ascii.eqb_refl.
Qed.

Lemma scan_uint_digits (u : uint) (rest : string) :
  no_digit_head rest →
  scan_uint (NilEmpty.string_of_uint u +:+ rest) = (u, rest).
Proof.
  intros Hrest. induction u as [|u IH|u IH|u IH|u IH|u IH|u IH|u IH|u IH|u IH|u IH];
    simpl; try (by rewrite IH).
  destruct rest as [|c r]; simpl in *; [done | by rewrite Hrest].
Qed.

Lemma hex_value_digit (n : nat) : n < 16 → hex_value (hex_digit n) = Some n.
Proof.
  intros Hn. do 16 (destruct n as [|n]; [reflexivity |]). lia.
Qed.

End CharFacts.
Export CharFacts.

(** ** Facts about the serialisers and the parser *)

Module JsonFacts.

(** *** Numbers *)

Lemma to_uint_head (p : positive) (d : uint) : Pos.to_uint p ≠ D0 d.
Proof.
  intros E.
  assert (Hn : N.to_uint (Pos.of_uint (Pos.to_uint p)) = unorm (Pos.to_uint p))
    by apply DecimalPos.Unsigned.to_of.
  rewrite DecimalPos.Unsigned.of_to in Hn. simpl in Hn.
  rewrite E in Hn. unfold unorm in Hn.
  destruct (nzhead (D0 d)) eqn:Hz; try (by destruct (nzhead_nonzero _ _ Hz));
    try discriminate Hn.
  apply (DecimalPos.Unsigned.to_uint_nonzero p). rewrite E. exact Hn.
Qed.

Lemma digit_head_not_minus (u : uint) (rest : string) :
  u ≠ Nil →
  ∃ c r, NilEmpty.string_of_uint u +:+ rest = String c r ∧ Ascii.eqb c "-" = false.
Proof. destruct u; intros H; try done; simpl; eauto. Qed.

Lemma parse_number_pos (p : positive) (rest : string) :
  no_digit_head rest →
  parse_number (NilEmpty.string_of_uint (Pos.to_uint p) +:+ rest)
  = Some (JNum (Z.pos p), rest).
Proof.
  intros Hrest. unfold parse_number.
  destruct (digit_head_not_minus (Pos.to_uint p) rest) as (c & r & E & Hc);
    [apply DecimalPos.Unsigned.to_uint_nonnil |].
  rewrite E, Hc, <- E, scan_uint_digits by done.
  pose proof (DecimalZ.of_to (Z.pos p)) as Hz. simpl in Hz.
  pose proof (to_uint_head p) as Hh.
  pose proof (DecimalPos.Unsigned.to_uint_nonnil p) as Hnil.
  destruct (Pos.to_uint p) as [|u|u|u|u|u|u|u|u|u|u]; try done;
    try (by rewrite <- Hz).
  by destruct (Hh u).
Qed.

Lemma parse_number_neg (p : positive) (rest : string) :
  no_digit_head rest →
  parse_number (String "-" (NilEmpty.string_of_uint (Pos.to_uint p) +:+ rest))
  = Some (JNum (Z.neg p), rest).
Proof.
  intros Hrest. unfold parse_number. simpl.
  rewrite scan_uint_digits by done.
  pose proof (DecimalZ.of_to (Z.neg p)) as Hz. simpl in Hz.
  pose proof (to_uint_head p) as Hh.
  pose proof (DecimalPos.Unsigned.to_uint_nonnil p) as Hnil.
  destruct (Pos.to_uint p) as [|u|u|u|u|u|u|u|u|u|u]; try done;
    try (by rewrite <- Hz).
  by destruct (Hh u).
Qed.

Lemma string_of_Z_pos (p : positive) :
  string_of_Z (Z.pos p) = NilEmpty.string_of_uint (Pos.to_uint p).
Proof.
  unfold string_of_Z. simpl. unfold NilZero.string_of_uint.
  pose proof (DecimalPos.Unsigned.to_uint_nonnil p). by destruct (Pos.to_uint p).
Qed.

Lemma string_of_Z_neg (p : positive) :
  string_of_Z (Z.neg p) = String "-" (NilEmpty.string_of_uint (Pos.to_uint p)).
Proof.
  unfold string_of_Z. simpl. unfold NilZero.string_of_uint.
  pose proof (DecimalPos.Unsigned.to_uint_nonnil p). by destruct (Pos.to_uint p).
Qed.

(** What [parse_number] makes of the digits of [n]. *)
Lemma parse_number_Z (n : Z) (rest : string) :
  no_digit_head rest →
  parse_number (string_of_Z n +:+ rest) = Some (JNum n, rest).
Proof.
  intros Hrest. destruct n as [|p|p].
  - unfold parse_number. destruct rest as [|c r]; simpl in *; [done |].
    by rewrite Hrest.
  - rewrite string_of_Z_pos. by apply parse_number_pos.
  - rewrite string_of_Z_neg. by apply parse_number_neg.
Qed.

(** The digits of a number begin with a digit or a minus sign. *)
Definition number_head (c : ascii) : bool := is_digit c || Ascii.eqb c "-".

Lemma uint_head (u : uint) (rest : string) :
  u ≠ Nil →
  ∃ c r, NilEmpty.string_of_uint u +:+ rest = String c r ∧ is_digit c = true.
Proof. destruct u; intros H; try done; simpl; eauto. Qed.

Lemma string_of_Z_head (n : Z) (rest : string) :
  ∃ c r, string_of_Z n +:+ rest = String c r ∧ number_head c = true.
Proof.
  destruct n as [|p|p].
  - by exists "0"%char, rest.
  - rewrite string_of_Z_pos.
    destruct (uint_head (Pos.to_uint p) rest) as (c & r & E & Hc);
      [apply DecimalPos.Unsigned.to_uint_nonnil |].
    exists c, r. split; [done |]. unfold number_head. by rewrite Hc.
  - rewrite string_of_Z_neg. by exists "-"%char, (NilEmpty.string_of_uint (Pos.to_uint p) +:+ rest).
Qed.

(** *** String literals *)

(** Reading back one character as [JSON.stringify] writes it. *)
Lemma parse_js_char (c : ascii) (t : string) :
  parse_string_body (js_char c +:+ t)
  = match parse_string_body t with
    | Some (x, rest) => Some (String c x, rest)
    | None => None
    end.
Proof. destruct c as [[|] [|] [|] [|] [|] [|] [|] [|]]; reflexivity. Qed.

(** Reading back one character as [json.dumps] writes it. *)
Lemma parse_py_char (c : ascii) (t : string) :
  parse_string_body (py_char c +:+ t)
  = match parse_string_body t with
    | Some (x, rest) => Some (String c x, rest)
    | None => None
    end.
Proof. destruct c as [[|] [|] [|] [|] [|] [|] [|] [|]]; reflexivity. Qed.

(** A way of writing characters that [parse_string_body] reads back. *)
Definition readable (f : ascii → string) : Prop :=
  ∀ c t, parse_string_body (f c +:+ t)
         = match parse_string_body t with
           | Some (x, rest) => Some (String c x, rest)
           | None => None
           end.

Lemma parse_escape (f : ascii → string) (s rest : string) :
  readable f →
  parse_string_body (escape f s +:+ String dquote rest) = Some (s, rest).
Proof.
  intros Hf. induction s as [|c s IH]; simpl; [done |].
  by rewrite app_assoc, Hf, IH.
Qed.

(** *** Induction on values *)

Lemma json_ind' (P : json → Prop) :
  P JNull → (∀ b, P (JBool b)) → (∀ n, P (JNum n)) → (∀ s, P (JStr s)) →
  (∀ l, Forall P l → P (JArr l)) →
  (∀ m, Forall (λ kv, P (snd kv)) m → P (JObj m)) →
  ∀ v, P v.
Proof.
  intros Hnull Hbool Hnum Hstr Harr Hobj.
  fix IH 1. intros [ |b|n|s|l|m].
  - exact Hnull.
  - apply Hbool.
  - apply Hnum.
  - apply Hstr.
  - apply Harr. induction l as [|x l IHl]; constructor; [apply IH | exact IHl].
  - apply Hobj. induction m as [|[k x] m IHm]; constructor; [apply IH | exact IHm].
Qed.

(** *** The parser reads back what the serialisers write *)

(** White space where the parser skips it, characters it reads back. *)
Record layout_ok (L : layout) : Prop := {
  ok_open : ∀ d, all_chars is_ws (lay_open L d) = true;
  ok_sep : ∀ d, all_chars is_ws (lay_sep L d) = true;
  ok_close : ∀ d, all_chars is_ws (lay_close L d) = true;
  ok_colon : all_chars is_ws (lay_colon L) = true;
  ok_char : readable (lay_char L)
}.


Lemma indent2_ok : layout_ok indent2.
Proof.
  split; try done; try (intros d; apply all_ws_nl_spaces). exact parse_js_char.
Qed.

Lemma python_ok : layout_ok python.
Proof. split; try done. exact parse_py_char. Qed.

Section RoundTrip.

Variable oset : string → json → members → members.
Variable L : layout.
Hypothesis HL : layout_ok L.

Lemma parse_value_ws (fuel : nat) (w s : string) :
  all_chars is_ws w = true →
  parse_value oset fuel (w +:+ s) = parse_value oset fuel s.
Proof. intros Hw. destruct fuel; simpl; [done |]. by rewrite skip_ws_app. Qed.

Lemma parse_members_ws (fuel : nat) (w s : string) (acc : members) :
  all_chars is_ws w = true →
  parse_members oset fuel (w +:+ s) acc = parse_members oset fuel s acc.
Proof. intros Hw. destruct fuel; simpl; [done |]. by rewrite skip_ws_app. Qed.

(** A text that begins with white space and a closing bracket, or with a
    comma. *)
Lemma close_head (w : string) (c : ascii) (rest : string) :
  all_chars is_ws w = true → digit_of c = None →
  no_digit_head (w +:+ String c rest).
Proof.
  intros Hw Hc. destruct w as [|x w]; simpl; [done |].
  simpl in Hw. apply andb_true_iff in Hw as [Hx _].
  unfold is_ws in Hx.
  repeat (apply orb_true_iff in Hx as [Hx | Hx]);
    apply Ascii.eqb_eq in Hx; by subst x.
Qed.

Lemma items_head (pr : json → string) (d : nat) (xs : list json) (rest : string) :
  no_digit_head
    (items_with pr (lay_sep L (S d)) (lay_close L d +:+ "]") xs +:+ rest).
Proof.
  destruct xs as [|y l]; simpl; [| done].
  rewrite app_assoc. apply close_head; [apply HL | done].
Qed.

Lemma members_head (pr : json → string) (d : nat) (xs : members) (rest : string) :
  no_digit_head
    (members_with pr L (lay_sep L (S d)) (lay_close L d +:+ "}") xs +:+ rest).
Proof.
  destruct xs as [|y l]; simpl; [| done].
  rewrite app_assoc. apply close_head; [apply HL | done].
Qed.

(** The claim of the round trip for one value. *)
Definition reads_back (v : json) : Prop :=
  stable oset v → ∀ d fuel rest,
    weight v ≤ fuel → no_digit_head rest →
    parse_value oset fuel (print L d v +:+ rest) = Some (v, rest).

Lemma parse_value_number (fuel : nat) (c : ascii) (r : string) :
  number_head c = true →
  parse_value oset (S fuel) (String c r) = parse_number (String c r).
Proof.
  intros Hc. simpl.
  assert (Hws : is_ws c = false).
  { destruct (is_ws c) eqn:E; [| done]. unfold is_ws in E.
    repeat (apply orb_true_iff in E as [E | E]);
      apply Ascii.eqb_eq in E; by subst c. }
  rewrite Hws.
  repeat match goal with
  | |- context [Ascii.eqb c ?x] =>
      destruct (Ascii.eqb_spec c x) as [-> |]; [by vm_compute in Hc |]
  end.
  done.
Qed.

Lemma parse_elems_items (d : nat) (xs : list json) :
  Forall reads_back xs →
  ∀ x fuel w rest,
    reads_back x → stable oset x →
    fold_right (λ y P, stable oset y ∧ P) True xs →
    all_chars is_ws w = true →
    fold_right (λ y n, S (weight y + n)) 0 (x :: xs) ≤ fuel →
    parse_elems oset fuel
      (w +:+ print L (S d) x +:+
       items_with (print L (S d)) (lay_sep L (S d)) (lay_close L d +:+ "]") xs +:+ rest)
    = Some (x :: xs, rest).
Proof.
  induction 1 as [|y l Hy Hl IH]; intros x fuel w rest Hx Sx Sxs Hw Hfuel;
    (destruct fuel as [|f]; [simpl in Hfuel; lia |]); simpl in Hfuel.
  - simpl. rewrite parse_value_ws by done.
    rewrite app_assoc, Hx; [| done | lia | apply close_head; [apply HL | done]].
    by rewrite skip_ws_app by apply HL.
  - cbn [parse_elems]. rewrite parse_value_ws by done.
    cbn [items_with]. rewrite !app_assoc.
    rewrite Hx; [| done | lia | done].
    cbn [skip_ws String.append is_ws]. simpl.
    destruct Sxs as [Sy Sl].
    rewrite IH; [done | done | done | done | apply HL | simpl; lia].
Qed.

Lemma parse_quote (k rest : string) :
  parse_string_body (escape (lay_char L) k +:+ str1 dquote +:+ rest) = Some (k, rest).
Proof. apply parse_escape, HL. Qed.

(** One member: its key, the colon, its value; then what follows decides. *)
Lemma parse_member_step (d f : nat) (w : string) (k : string) (x : json)
    (T : string) (acc : members) :
  all_chars is_ws w = true → reads_back x → stable oset x → weight x ≤ f →
  no_digit_head T →
  parse_members oset (S f) (w +:+ member_with (print L (S d)) L (k, x) +:+ T) acc
  = match skip_ws T with
    | String c r =>
        if Ascii.eqb c "," then parse_members oset f r (oset k x acc)
        else if Ascii.eqb c "}" then Some (oset k x acc, r)
        else None
    | EmptyString => None
    end.
Proof.
  intros Hw Hx Sx Hf HT.
  rewrite parse_members_ws by done.
  unfold member_with, quote. cbn [fst snd].
  cbn [parse_members String.append skip_ws]. simpl.
  rewrite !app_assoc, parse_quote. simpl. rewrite !app_assoc.
  rewrite parse_value_ws by apply HL.
  by rewrite Hx.
Qed.

Lemma parse_members_items (d : nat) (xs : members) :
  Forall (λ kv, reads_back (snd kv)) xs →
  ∀ kv fuel w rest acc,
    reads_back (snd kv) → stable oset (snd kv) →
    fold_right (λ y P, stable oset (snd y) ∧ P) True xs →
    all_chars is_ws w = true →
    fold_right (λ y n, S (weight (snd y) + n)) 0 (kv :: xs) ≤ fuel →
    parse_members oset fuel
      (w +:+ member_with (print L (S d)) L kv +:+
       members_with (print L (S d)) L (lay_sep L (S d)) (lay_close L d +:+ "}") xs +:+ rest)
      acc
    = Some (fold_left (λ a y, oset (fst y) (snd y) a) (kv :: xs) acc, rest).
Proof.
  induction 1 as [|y l Hy Hl IH]; intros [k x] fuel w rest acc Hx Sx Sxs Hw Hfuel;
    (destruct fuel as [|f]; [simpl in Hfuel; lia |]); simpl in Hfuel, Hx, Sx.
  - rewrite <- app_assoc, app_assoc.
    rewrite parse_member_step; [| done | done | done | lia | apply members_head].
    cbn [members_with]. rewrite app_assoc.
    by rewrite skip_ws_app by apply HL.
  - rewrite <- app_assoc, app_assoc.
    rewrite parse_member_step; [| done | done | done | lia | apply members_head].
    cbn [members_with]. rewrite !app_assoc. cbn [String.append skip_ws].
    change (is_ws ",") with false. cbv iota.
    change (Ascii.eqb "," ",") with true. cbv iota.
    destruct Sxs as [Sy Sl].
    rewrite IH; [done | done | done | done | apply HL | simpl; lia].
Qed.

(** The text of a value begins with a character that is no white space and
    closes no container. *)
Definition opens_value (c : ascii) : Prop :=
  is_ws c = false ∧ Ascii.eqb c "]" = false ∧ Ascii.eqb c "}" = false.

Lemma number_head_opens (c : ascii) : number_head c = true → opens_value c.
Proof.
  intros Hc. repeat split.
  - destruct (is_ws c) eqn:E; [| done]. unfold is_ws in E.
    repeat (apply orb_true_iff in E as [E | E]);
      apply Ascii.eqb_eq in E; by subst c.
  - destruct (Ascii.eqb_spec c "]") as [-> |]; [by vm_compute in Hc | done].
  - destruct (Ascii.eqb_spec c "}") as [-> |]; [by vm_compute in Hc | done].
Qed.

Lemma print_head (d : nat) (v : json) (rest : string) :
  ∃ c r, print L d v +:+ rest = String c r ∧ opens_value c.
Proof.
  destruct v as [ |[|]|n|s|[|x xs]|[|kv xs]]; simpl; try (by eexists _, _).
  destruct (string_of_Z_head n rest) as (c & r & E & Hc).
  exists c, r. split; [done | by apply number_head_opens].
Qed.

Lemma skip_to_value (d : nat) (w : string) (v : json) (rest : string) :
  all_chars is_ws w = true →
  ∃ c r, skip_ws (w +:+ print L d v +:+ rest) = String c r ∧ opens_value c.
Proof.
  intros Hw. rewrite skip_ws_app by done.
  destruct (print_head d v rest) as (c & r & E & Hc).
  exists c, r. rewrite E. split; [| done].
  apply skip_ws_solid. simpl. apply Hc.
Qed.

Lemma parse_value_obj (f : nat) (T : string) :
  parse_value oset (S f) (String "{" T)
  = match skip_ws T with
    | String c r =>
        if Ascii.eqb c "}" then Some (JObj [], r)
        else match parse_members oset f T [] with
             | Some (m, r') => Some (JObj m, r')
             | None => None
             end
    | EmptyString => None
    end.
Proof. reflexivity. Qed.

Lemma skip_to_member (pr : json → string) (w : string) (kv : string * json) (T : string) :
  all_chars is_ws w = true →
  ∃ r, skip_ws (w +:+ member_with pr L kv +:+ T) = String dquote r.
Proof.
  intros Hw. rewrite skip_ws_app by done.
  unfold member_with, quote. simpl. eauto.
Qed.

(** What a serialiser writes is read back as the value it stood for, with
    the text that followed left over. *)
Theorem parse_print (v : json) : reads_back v.
Proof.
  induction v as [ |b|n|s|l Hl|m Hm] using json_ind';
    intros Sv d fuel rest Hfuel Hrest;
    (destruct fuel as [|f]; [simpl in Hfuel; lia |]).
  - done.
  - by destruct b.
  - cbn [print].
    destruct (string_of_Z_head n rest) as (c & r & E & Hc).
    rewrite E, parse_value_number, <- E by done.
    by apply parse_number_Z.
  - cbn [print]. unfold quote. simpl.
    by rewrite app_assoc, parse_quote.
  - destruct l as [|x xs]; [done |].
    cbn [print]. rewrite !app_assoc.
    cbn [parse_value String.append skip_ws]. simpl.
    destruct Sv as [Sx Sxs]. apply Forall_cons in Hl as [Hx Hxs].
    destruct (skip_to_value (S d) (lay_open L (S d)) x
      (items_with (print L (S d)) (lay_sep L (S d)) (lay_close L d +:+ "]") xs +:+ rest))
      as (c & r & -> & _ & -> & _); [apply HL |].
    rewrite (parse_elems_items d xs Hxs x f (lay_open L (S d)) rest);
      [done | done | done | done | apply HL | simpl in Hfuel |- *; lia].
  - destruct m as [|[k x] xs]; [done |].
    cbn [print]. rewrite !app_assoc. cbn [String.append].
    rewrite parse_value_obj.
    destruct Sv as [Sm [Sx Sxs]]. apply Forall_cons in Hm as [Hx Hxs].
    destruct (skip_to_member (print L (S d)) (lay_open L (S d)) (k, x)
      (members_with (print L (S d)) L (lay_sep L (S d)) (lay_close L d +:+ "}") xs +:+ rest))
      as (r & ->); [apply HL |].
    change (Ascii.eqb dquote "}") with false. cbv iota.
    rewrite (parse_members_items d xs Hxs (k, x) f (lay_open L (S d)) rest []);
      [| done | done | done | apply HL | simpl in Hfuel |- *; lia].
    unfold rebuild in Sm. by rewrite Sm.
Qed.

Ltac len := repeat (progress (rewrite ?length_app; cbn [String.length])).

Lemma length_items (pr : json → string) (sep close : string) (xs : list json) :
  Forall (λ y, weight y ≤ String.length (pr y)) xs →
  fold_right (λ y n, S (weight y + n)) 0 xs + String.length close
  ≤ String.length (items_with pr sep close xs).
Proof.
  induction 1 as [|y l Hy Hl IH]; simpl; [lia |].
  len. lia.
Qed.

Lemma length_members (pr : json → string) (sep close : string) (xs : members) :
  Forall (λ y, weight (snd y) ≤ String.length (pr (snd y))) xs →
  fold_right (λ y n, S (weight (snd y) + n)) 0 xs + String.length close
  ≤ String.length (members_with pr L sep close xs).
Proof.
  induction 1 as [|y l Hy Hl IH]; simpl; [lia |].
  unfold member_with. len. lia.
Qed.

(** The fuel that [parse_text] gives is enough for a serialised value. *)
Lemma weight_le_length (v : json) : ∀ d, weight v ≤ String.length (print L d v).
Proof.
  induction v as [ |b|n|s|l Hl|m Hm] using json_ind'; intros d.
  - simpl. lia.
  - destruct b; simpl; lia.
  - destruct (string_of_Z_head n "") as (c & r & E & _).
    rewrite app_nil_r in E. cbn [print]. rewrite E. simpl. lia.
  - simpl. lia.
  - destruct l as [|x xs]; [simpl; lia |].
    apply Forall_cons in Hl as [Hx Hxs].
    cbn [print weight fold_right]. len.
    pose proof (Hx (S d)).
    pose proof (length_items (print L (S d)) (lay_sep L (S d)) (lay_close L d +:+ "]") xs) as Hi.
    cbn [String.length].
    assert (Forall (λ y, weight y ≤ String.length (print L (S d) y)) xs) as Hall
      by (eapply Forall_impl; [exact Hxs | intros y Hy; apply Hy]).
    specialize (Hi Hall). rewrite length_app in Hi. simpl in Hi. lia.
  - destruct m as [|[k x] xs]; [simpl; lia |].
    apply Forall_cons in Hm as [Hx Hxs]. simpl in Hx.
    cbn [print weight fold_right snd]. unfold member_with at 1.
    len. cbn [snd].
    pose proof (Hx (S d)).
    pose proof (length_members (print L (S d)) (lay_sep L (S d)) (lay_close L d +:+ "}") xs) as Hi.
    cbn [String.length].
    assert (Forall (λ y, weight (snd y) ≤ String.length (print L (S d) (snd y))) xs) as Hall
      by (eapply Forall_impl; [exact Hxs | intros y Hy; apply Hy]).
    specialize (Hi Hall). rewrite length_app in Hi. simpl in Hi. lia.
Qed.

Lemma ws_no_digit (w : string) : all_chars is_ws w = true → no_digit_head w.
Proof.
  destruct w as [|x w]; simpl; [done |].
  intros [Hx _]%andb_true_iff. unfold is_ws in Hx.
  repeat (apply orb_true_iff in Hx as [Hx | Hx]);
    apply Ascii.eqb_eq in Hx; by subst x.
Qed.

Lemma skip_all_ws (w : string) : all_chars is_ws w = true → skip_ws w = "".
Proof.
  induction w as [|x w IH]; simpl; [done |].
  intros [Hx Hw]%andb_true_iff. rewrite Hx. by apply IH.
Qed.

(** A whole text: the serialised value, with white space after it. *)
Theorem parse_text_print (v : json) (w : string) :
  stable oset v → all_chars is_ws w = true →
  parse_text oset (print L 0 v +:+ w) = Some v.
Proof.
  intros Sv Hw. unfold parse_text.
  rewrite parse_print; [| done | | by apply ws_no_digit].
  - by rewrite skip_all_ws.
  - rewrite length_app. pose proof (weight_le_length v 0). lia.
Qed.

End RoundTrip.

(** *** Objects that are rebuilt as they are *)

Lemma all_Forall {A} (Q : A → Prop) (l : list A) :
  fold_right (λ x P, Q x ∧ P) True l ↔ Forall Q l.
Proof.
  induction l as [|x l IH]; simpl; [by split; [constructor |] |].
  rewrite IH. split; [intros []; by constructor | by inversion 1].
Qed.

Lemma lookup_None (k : string) (m : members) :
  lookup k m = None ↔ k ∉ keys m.
Proof.
  induction m as [|[k' v] m IH]; simpl; [set_solver |].
  destruct (String.eqb_spec k k') as [-> | Hne]; [set_solver |].
  rewrite IH. set_solver.
Qed.

Lemma has_key_false (k : string) (m : members) :
  has_key k m = false ↔ k ∉ keys m.
Proof. unfold has_key. rewrite <- lookup_None. by destruct (lookup k m). Qed.

Lemma py_set_fresh (k : string) (v : json) (m : members) :
  k ∉ keys m → py_set k v m = m ++ [(k, v)].
Proof.
  induction m as [|[k' v'] m IH]; simpl; [done |].
  intros Hk. destruct (String.eqb_spec k k') as [-> | Hne]; [set_solver |].
  rewrite IH; [done | set_solver].
Qed.

Lemma js_set_fresh (k : string) (v : json) (m : members) :
  k ∉ keys m → is_array_index k = None → js_set k v m = m ++ [(k, v)].
Proof.
  intros Hk Hi. unfold js_set.
  by rewrite (proj2 (has_key_false k m) Hk), Hi.
Qed.

Lemma js_literal_set_fresh (k : string) (v : json) (m : members) :
  k ∉ keys m → plain_key k = true → js_literal_set k v m = m ++ [(k, v)].
Proof.
  unfold plain_key, js_literal_set. intros Hk [Hp Hi]%andb_true_iff.
  apply negb_true_iff in Hp. rewrite Hp.
  apply js_set_fresh; [done | by destruct (is_array_index k)].
Qed.

(** A way of adding members that puts a new key last. *)
Definition appends (oset : string → json → members → members)
    (ok : string → Prop) : Prop :=
  ∀ k v m, ok k → k ∉ keys m → oset k v m = m ++ [(k, v)].

Lemma rebuild_appends oset ok (m acc : members) :
  appends oset ok → Forall ok (keys m) → NoDup (keys acc ++ keys m) →
  fold_left (λ a kv, oset (fst kv) (snd kv) a) m acc = acc ++ m.
Proof.
  intros Hap. revert acc.
  induction m as [|[k v] m IH]; simpl; intros acc Hok Hnd;
    [by rewrite List.app_nil_r |].
  apply Forall_cons in Hok as [Hk Hok].
  rewrite Hap; [| done |].
  - rewrite IH; [by rewrite <- List.app_assoc | done |].
    unfold keys in *. rewrite map_app. simpl. by rewrite <- List.app_assoc.
  - apply NoDup_app in Hnd as (_ & Hd & _). intros Hin. apply (Hd _ Hin). set_solver.
Qed.

Lemma stable_appends oset (ok : string → Prop) (good : json → Prop) :
  appends oset ok →
  (∀ l, good (JArr l) → Forall good l) →
  (∀ m, good (JObj m) →
        NoDup (keys m) ∧ Forall ok (keys m) ∧ Forall (λ kv, good (snd kv)) m) →
  ∀ v, good v → stable oset v.
Proof.
  intros Hap Harr Hobj v.
  induction v as [ | | | |l Hl|m Hm] using json_ind'; intros Hv; simpl; try done.
  - apply all_Forall. apply Harr in Hv.
    rewrite Forall_forall in *. naive_solver.
  - apply Hobj in Hv as (Hnd & Hok & Hv). split.
    + unfold rebuild. by rewrite (rebuild_appends oset ok m []).
    + apply all_Forall. rewrite Forall_forall in *. naive_solver.
Qed.

(** The object of a Python dict is rebuilt by [json.loads] as it is. *)
Lemma stable_py (v : json) : distinct_keys v → stable py_set v.
Proof.
  apply (stable_appends py_set (λ _, True) distinct_keys).
  - intros k x m _ Hk. by apply py_set_fresh.
  - intros l Hl. by apply all_Forall.
  - intros m [Hnd Hm]. repeat split; [done | by apply Forall_forall |].
    by apply all_Forall in Hm.
Qed.

Lemma plain_keys_obj (m : members) :
  plain_keys (JObj m) = true →
  Forall (λ k, plain_key k = true) (keys m)
  ∧ Forall (λ kv, plain_keys (snd kv) = true) m.
Proof.
  simpl. rewrite forallb_forall, !Forall_forall. intros H. split.
  - intros k [[k' x] [-> Hin]]%list_elem_of_fmap.
    apply list_elem_of_In, H in Hin. by apply andb_true_iff in Hin as [? _].
  - intros kv Hin. apply list_elem_of_In, H in Hin. by apply andb_true_iff in Hin as [_ ?].
Qed.

(** A value with distinct, plain keys is rebuilt as it is by JavaScript,
    from a JSON text and from the same text as an object literal. *)
Lemma stable_js_literal (v : json) :
  distinct_keys v → plain_keys v = true → stable js_literal_set v.
Proof.
  intros Hd Hp.
  apply (stable_appends js_literal_set (λ k, plain_key k = true)
           (λ v, distinct_keys v ∧ plain_keys v = true)); [| | | done].
  - intros k x m Hk Hnew. by apply js_literal_set_fresh.
  - intros l [Hl Hpl]. simpl in Hpl. apply all_Forall in Hl.
    rewrite forallb_forall in Hpl. rewrite Forall_forall in *.
    intros y Hy. split; [by apply Hl | by apply Hpl, list_elem_of_In].
  - intros m [[Hnd Hm] Hpm]. apply plain_keys_obj in Hpm as [Hk Hv].
    apply all_Forall in Hm. repeat split; [done | done |].
    rewrite Forall_forall in *. naive_solver.
Qed.


(** *** What the parser builds has distinct keys *)

Lemma distinct_obj (m : members) :
  distinct_keys (JObj m) ↔ NoDup (keys m) ∧ Forall (λ kv, distinct_keys (snd kv)) m.
Proof. simpl. by rewrite all_Forall. Qed.

Lemma py_set_elem (k : string) (v : json) (m : members) (x : string * json) :
  x ∈ py_set k v m → x = (k, v) ∨ x ∈ m.
Proof.
  induction m as [|[k' v'] m IH]; simpl; [set_solver |].
  destruct (String.eqb k k'); set_solver.
Qed.

Lemma py_set_keys (k : string) (v : json) (m : members) :
  k ∈ keys m → keys (py_set k v m) = keys m.
Proof.
  induction m as [|[k' v'] m IH]; simpl; [set_solver |].
  destruct (String.eqb_spec k k') as [-> | Hne]; simpl; [done |].
  intros Hk. f_equal. apply IH. set_solver.
Qed.

Lemma js_insert_elem (n : N) (k : string) (v : json) (m : members) (x : string * json) :
  x ∈ js_insert_index n k v m → x = (k, v) ∨ x ∈ m.
Proof.
  induction m as [|[k' v'] m IH]; simpl; [set_solver |].
  destruct (is_array_index k') as [n' |]; [| set_solver].
  destruct (n <? n')%N; set_solver.
Qed.

Lemma js_insert_keys (n : N) (k : string) (v : json) (m : members) :
  keys (js_insert_index n k v m) ≡ₚ k :: keys m.
Proof.
  induction m as [|[k' v'] m IH]; simpl; [done |].
  destruct (is_array_index k') as [n' |]; [| done].
  destruct (n <? n')%N; simpl; [done |].
  rewrite IH. apply perm_swap.
Qed.

(** A way of adding members that keeps the keys of an object distinct. *)
Definition keeps_distinct (oset : string → json → members → members) : Prop :=
  ∀ k v m, distinct_keys v → distinct_keys (JObj m) → distinct_keys (JObj (oset k v m)).

Lemma py_set_keeps : keeps_distinct py_set.
Proof.
  intros k v m Hv [Hnd Hm]%distinct_obj. apply distinct_obj.
  destruct (decide (k ∈ keys m)) as [Hin | Hout].
  - rewrite py_set_keys by done. split; [done |].
    rewrite Forall_forall in *. intros x [-> | Hx]%py_set_elem; auto.
  - rewrite py_set_fresh by done. split.
    + unfold keys in *. rewrite map_app. simpl. apply NoDup_app.
      split; [done |]. split; [set_solver | apply NoDup_singleton].
    + apply Forall_app. split; [done | by repeat constructor].
Qed.

Lemma js_set_keeps : keeps_distinct js_set.
Proof.
  intros k v m Hv Hm. unfold js_set.
  destruct (has_key k m) eqn:Hk; [by apply py_set_keeps |].
  apply has_key_false in Hk. apply distinct_obj in Hm as [Hnd Hm].
  apply distinct_obj.
  destruct (is_array_index k) as [n |].
  - split.
    + rewrite js_insert_keys. by constructor.
    + rewrite Forall_forall in *. intros x [-> | Hx]%js_insert_elem; auto.
  - split.
    + unfold keys in *. rewrite map_app. simpl. apply NoDup_app.
      split; [done |]. split; [set_solver | apply NoDup_singleton].
    + apply Forall_app. split; [done | by repeat constructor].
Qed.

Lemma js_literal_set_keeps : keeps_distinct js_literal_set.
Proof.
  intros k v m Hv Hm. unfold js_literal_set.
  destruct (String.eqb k "__proto__"); [done | by apply js_set_keeps].
Qed.

Section ParserInvariant.

Variable oset : string → json → members → members.
Hypothesis Hkeep : keeps_distinct oset.

Lemma parse_number_distinct (s : string) (v : json) (r : string) :
  parse_number s = Some (v, r) → distinct_keys v.
Proof.
  unfold parse_number. repeat case_match; intros; by simplify_eq.
Qed.

Lemma parse_distinct_all (fuel : nat) :
  (∀ s v r, parse_value oset fuel s = Some (v, r) → distinct_keys v)
  ∧ (∀ s l r, parse_elems oset fuel s = Some (l, r) → Forall distinct_keys l)
  ∧ (∀ s acc m r, distinct_keys (JObj acc) →
       parse_members oset fuel s acc = Some (m, r) → distinct_keys (JObj m)).
Proof.
  induction fuel as [|f (IHv & IHe & IHm)]; [by split; [| split] |].
  split; [| split].
  - intros ? ? ?. cbn [parse_value].
    repeat case_match; intros; simplify_eq; try done;
      try (by eapply parse_number_distinct).
    + simpl. apply all_Forall. by eapply IHe.
    + apply distinct_obj. split; constructor.
    + eapply IHm; [| done]. apply distinct_obj. split; constructor.
  - intros ? ? ?. cbn [parse_elems].
    repeat case_match; intros; simplify_eq; repeat constructor; eauto.
  - intros ? ? ? ? Hacc. cbn [parse_members].
    repeat case_match; intros; simplify_eq; eauto.
Qed.

(** Every object in a parsed value has distinct keys. *)
Lemma parse_text_distinct (s : string) (v : json) :
  parse_text oset s = Some v → distinct_keys v.
Proof.
  unfold parse_text. repeat case_match; intros; simplify_eq.
  by eapply (proj1 (parse_distinct_all _)).
Qed.

End ParserInvariant.

End JsonFacts.
Export JsonFacts.

(** ** Facts about the bridge *)

Module BridgeFacts.

(** What [JSON.stringify(v, null, 2)] prints and [console.log] ends with a
    line feed, [json.loads] reads back. *)
Lemma loads_stringify_2 (v : json) :
  distinct_keys v → json_loads (JSON_stringify_2 v +:+ nl) = Some v.
Proof.
  intros Hv. apply (parse_text_print py_set indent2 indent2_ok);
    [by apply stable_py | done].
Qed.

(** What [json.dumps] writes into the script, JavaScript evaluates to the
    same value. *)
Lemma eval_dumps (v : json) :
  distinct_keys v → plain_keys v = true →
  js_eval_literal (json_dumps v) = Some v.
Proof.
  intros Hd Hp. unfold js_eval_literal, json_dumps.
  rewrite <- (app_nil_r (print python 0 v)).
  apply (parse_text_print js_literal_set python python_ok);
    [by apply stable_js_literal | done].
Qed.




Lemma lit_plain (s : string) : plain_text s = true → js_single_quoted s = Denotes s.
Proof.
  induction s as [|c s IH]; simpl; [done |].
  intros [Hc Hs]%andb_true_iff. unfold plain_char in Hc.
  apply negb_true_iff in Hc.
  repeat (apply orb_false_iff in Hc as [Hc ?]).
  rewrite Hc. simpl.
  replace (Ascii.eqb c LF || Ascii.eqb c CR) with false
    by (symmetry; apply orb_false_iff; done).
  replace (Ascii.eqb c backslash) with false by done.
  by rewrite IH.
Qed.

Lemma plain_text_app (a b : string) :
  plain_text (a +:+ b) = plain_text a && plain_text b.
Proof.
  unfold plain_text. induction a as [|c a IH]; simpl; [done |].
  by rewrite IH, andb_assoc.
Qed.

Lemma lookup_distinct (k : string) (m : members) (r : json) :
  distinct_keys (JObj m) → lookup k m = Some r → distinct_keys r.
Proof.
  intros [_ Hm]%distinct_obj. induction m as [|[k' v] m IH]; simpl; [done |].
  apply Forall_cons in Hm as [Hv Hm].
  destruct (String.eqb k k'); [by intros [= <-] | by apply IH].
Qed.

Lemma truthy_result_distinct (parsed r : json) :
  distinct_keys parsed → truthy_result parsed = Some r → distinct_keys r.
Proof.
  destruct parsed as [ | | | | |m]; simpl; try done.
  intros Hm. destruct (lookup "result" m) as [x|] eqn:E; [| done].
  destruct (js_truthy x); [| done]. intros [= <-]. by eapply lookup_distinct.
Qed.

(** What [JSON.parse] reads is a value of the fragment, with distinct
    keys. *)
Lemma JSON_parse_parsed (line : string) (v : json) :
  JSON_parse line = Parsed v →
  parse_text js_set line = Some v ∧ modelled v = true ∧ distinct_keys v.
Proof.
  unfold JSON_parse. destruct (parse_text js_set line) as [x|] eqn:E.
  - destruct (modelled x) eqn:Hm; [| done]. intros [= <-].
    repeat split; try done. by eapply parse_text_distinct; [apply js_set_keeps |].
  - by destruct (json_grammar line).
Qed.

Lemma first_result_distinct (lines : list string) (r : json) :
  first_result lines = Found r → distinct_keys r.
Proof.
  induction lines as [|line rest IH]; simpl; [done |].
  destruct (JSON_parse line) as [parsed| |] eqn:E; [| done | done].
  destruct (truthy_result parsed) as [x|] eqn:T; [| done].
  intros [= <-]. eapply truthy_result_distinct; [| done].
  by apply JSON_parse_parsed in E as (_ & _ & ?).
Qed.

(** Python reads from the script's output the result the script found. *)
Lemma loads_found (w : node_world) (output : string) (r : json) :
  first_result (output_lines output) = Found r →
  json_loads (on_close w output) = Some r.
Proof.
  intros E. unfold on_close. rewrite E.
  apply loads_stringify_2. by eapply first_result_distinct.
Qed.


Lemma encodable_dumps (params : pydict) (m : members) :
  encodable params = Ok m → dumps_params params = Ok (json_dumps (JObj m)).
Proof. unfold dumps_params. by intros ->. Qed.

Lemma server_path_os_of (w : world) : mcp_server_path (os_of w) = server_path w.
Proof. done. Qed.

Lemma run_staged (w : world) (tool_name : string) (params : pydict)
    (path : string) (m : members) :
  staged w tool_name params path m →
  run_script (node w) (staged_script w tool_name m)
  = serve (node w) (entry_point w) tool_name (JObj m).
Proof.
  intros [? ? Hp Ht ? Hd Hk ? ?]. unfold run_script, staged_script, stage.
  cbn [s_server_path s_tool_name s_arguments]. rewrite server_path_os_of.
  rewrite lit_plain by (rewrite plain_text_app, Hp; done).
  rewrite lit_plain by done.
  by rewrite eval_dumps.
Qed.


(** The whole call when the server has not closed its streams by the
    timeout. *)
Lemma call_overrun (w : world) (tool_name : string) (params : pydict)
    (path : string) (m : members) :
  staged w tool_name params path m →
  let srv := McpServer (entry_point w) in
  let line := request_line tool_name (JObj m) in
  let r := w_server (node w) (entry_point w) line in
  overruns (r_life r) 30 →
  call_mcp_tool (os_of w) tool_name params
  = (Ok (JObj [("error", JStr "MCP call timed out")]),
     [Created path (staged_script w tool_name m);
      Spawned (NodeScript path);
      Spawned srv; Wrote srv line; Closed srv;
      Killed (NodeScript path)]).
Proof.
  intros Hst srv line r Hover.
  pose proof (run_staged _ _ _ _ _ Hst) as Hrun.
  destruct Hst as [Hn Hf Hp Ht He Hd Hk Hs Ha].
  unfold call_mcp_tool. rewrite (encodable_dumps _ _ He).
  cbn [named_temporary_file os_of]. rewrite Hf.
  unfold subprocess_run. cbn [exec_node os_of]. rewrite Hn.
  fold (os_of w). fold (staged_script w tool_name m). rewrite Hrun.
  unfold serve. cbn [b_life b_started b_finished b_stdout b_stderr].
  fold line. fold r.
  destruct (r_life r) as [secs code|]; simpl in Hover; [| done].
  apply N.leb_gt in Hover. by rewrite Hover.
Qed.

(** *** The scan *)

(** A line that [trim] empties is no JSON text, so the [filter] of line 60
    removes nothing that the loop could have used. *)
Lemma js_space_not_ws (c : ascii) :
  js_space c = true → is_ws c = false →
  c = "011"%char ∨ c = "012"%char ∨ c = "160"%char.
Proof.
  destruct c as [[|] [|] [|] [|] [|] [|] [|] [|]]; vm_compute; intros; try done; auto.
Qed.

Lemma blank_not_parsed (line : string) :
  trims_to_nothing line = true → parse_text js_set line = None.
Proof.
  intros Hb. unfold parse_text.
  assert (Hv : parse_value js_set (S (String.length line)) line = None); [| by rewrite Hv].
  generalize (String.length line). intros f. cbn [parse_value].
  induction line as [|c line IH]; [done |].
  simpl in Hb. apply andb_true_iff in Hb as [Hc Hl]. cbn [skip_ws].
  destruct (is_ws c) eqn:Hws; [by apply IH |].
  destruct (js_space_not_ws c Hc Hws) as [-> | [-> | ->]]; reflexivity.
Qed.

Lemma blank_no_grammar (line : string) :
  trims_to_nothing line = true → json_grammar line = false.
Proof.
  unfold json_grammar. induction line as [|c line IH]; [done |].
  intros [Hc Hl]%andb_true_iff. cbn [grammar_from grammar_step].
  destruct (is_ws c) eqn:Hws; [by apply IH |].
  destruct (js_space_not_ws c Hc Hws) as [-> | [-> | ->]]; reflexivity.
Qed.

Lemma blank_not_json (line : string) :
  trims_to_nothing line = true → JSON_parse line = NotJson.
Proof.
  intros Hb. unfold JSON_parse.
  by rewrite (blank_not_parsed line Hb), (blank_no_grammar line Hb).
Qed.

Lemma first_result_filter (lines : list string) :
  first_result (List.filter (λ line, negb (trims_to_nothing line)) lines)
  = first_result lines.
Proof.
  induction lines as [|line rest IH]; [done |].
  cbn [List.filter].
  destruct (trims_to_nothing line) eqn:Hb; simpl.
  - by rewrite (blank_not_json line Hb).
  - by rewrite IH.
Qed.

Lemma first_result_output (output : string) :
  first_result (output_lines output) = first_result (split_on LF output).
Proof. apply first_result_filter. Qed.

Lemma first_result_found (pre post : list string) (line : string)
    (m : members) (r : json) :
  Forall passed_over pre →
  JSON_parse line = Parsed (JObj m) → lookup "result" m = Some r → js_truthy r = true →
  first_result (pre ++ line :: post) = Found r.
Proof.
  intros Hpre Hline Hr Ht.
  induction Hpre as [|l pre Hl Hpre IH]; simpl.
  - by rewrite Hline; simpl; rewrite Hr, Ht.
  - destruct Hl as [-> | (p & -> & ->)]; done.
Qed.


(** *** Lines *)










(** *** The Python function, whatever the launched process does *)

Lemma call_completed (o : os) (tool_name : string) (params : pydict) (m : members)
    (path : string) (b : behaviour) (secs : N) (code : Z) :
  encodable params = Ok m → named_temporary_file o = Ok path →
  exec_node o path (stage o tool_name (json_dumps (JObj m))) = Launched b →
  b_life b = ExitsAfter secs code → (secs <= 30)%N →
  call_mcp_tool o tool_name params
  = (Ok (interpret {| returncode := code; stdout := b_stdout b; stderr := b_stderr b |}),
     [Created path (stage o tool_name (json_dumps (JObj m)))]
     ++ (Spawned (NodeScript path) :: b_started b ++ b_finished b
         ++ [Exited (NodeScript path) code])
     ++ [Unlinked path]).
Proof.
  intros He Hf Hx Hlife Hsecs.
  unfold call_mcp_tool. rewrite (encodable_dumps _ _ He), Hf.
  unfold subprocess_run. rewrite Hx, Hlife.
  apply N.leb_le in Hsecs. by rewrite Hsecs.
Qed.

Lemma call_timed_out (o : os) (tool_name : string) (params : pydict) (m : members)
    (path : string) (b : behaviour) :
  encodable params = Ok m → named_temporary_file o = Ok path →
  exec_node o path (stage o tool_name (json_dumps (JObj m))) = Launched b →
  overruns (b_life b) 30 →
  call_mcp_tool o tool_name params
  = (Ok (JObj [("error", JStr "MCP call timed out")]),
     [Created path (stage o tool_name (json_dumps (JObj m)))]
     ++ (Spawned (NodeScript path) :: b_started b ++ [Killed (NodeScript path)])).
Proof.
  intros He Hf Hx Hover.
  unfold call_mcp_tool. rewrite (encodable_dumps _ _ He), Hf.
  unfold subprocess_run. rewrite Hx.
  destruct (b_life b) as [secs code|]; simpl in Hover; [| done].
  apply N.leb_gt in Hover. by rewrite Hover.
Qed.

Lemma call_not_launched (o : os) (tool_name : string) (params : pydict) (m : members)
    (path : string) (e : exn) :
  encodable params = Ok m → named_temporary_file o = Ok path →
  exec_node o path (stage o tool_name (json_dumps (JObj m))) = NotLaunched e →
  call_mcp_tool o tool_name params
  = (Ok (handle e), [Created path (stage o tool_name (json_dumps (JObj m)))]).
Proof.
  intros He Hf Hx.
  unfold call_mcp_tool. rewrite (encodable_dumps _ _ He), Hf.
  unfold subprocess_run. by rewrite Hx.
Qed.

(** The call when the launched process is the script at work and the server
    closes its streams within the timeout. *)
Lemma call_of_serve (o : os) (tool_name : string) (params : pydict) (m : members)
    (path : string) (nw : node_world) (entry name : string) (arguments : json)
    (secs : N) (code : Z) :
  encodable params = Ok m → named_temporary_file o = Ok path →
  exec_node o path (stage o tool_name (json_dumps (JObj m)))
  = Launched (serve nw entry name arguments) →
  let reply := w_server nw entry (request_line name arguments) in
  r_life reply = ExitsAfter secs code → (secs <= 30)%N →
  fst (call_mcp_tool o tool_name params)
  = Ok (match json_loads (on_close nw (r_stdout reply)) with
        | Some v => v
        | None => JObj [("error", JStr "Failed to parse MCP response");
                        ("raw_output", JStr (on_close nw (r_stdout reply)))]
        end).
Proof.
  intros He Hf Hx reply Hlife Hsecs.
  rewrite (call_completed o tool_name params m path (serve nw entry name arguments) secs 0);
    try done.
  unfold serve. cbn [b_life]. fold reply. by rewrite Hlife.
Qed.

Lemma handle_error (e : exn) : is_error_mapping (handle e).
Proof. unfold handle. destruct (exn_class_of e); by eexists _, _. Qed.

Lemma lifetime_cases (l : lifetime) :
  (∃ secs code, l = ExitsAfter secs code ∧ (secs <= 30)%N) ∨ overruns l 30.
Proof.
  destruct l as [secs code|]; [| by right].
  destruct (N.le_gt_cases secs 30); [left; eauto | by right].
Qed.

(** *** Traces *)

Lemma alive_after_app (tr1 tr2 : list event) (p : proc) (now : bool) :
  alive_after (tr1 ++ tr2) p now = alive_after tr2 p (alive_after tr1 p now).
Proof.
  revert now. induction tr1 as [|ev tr1 IH]; intros now; [done |].
  destruct ev; simpl; apply IH.
Qed.

Lemma files_after_app (tr1 tr2 : list event) (fs : gmap string script) :
  files_after (tr1 ++ tr2) fs = files_after tr2 (files_after tr1 fs).
Proof.
  revert fs. induction tr1 as [|ev tr1 IH]; intros fs; [done |].
  destruct ev; simpl; apply IH.
Qed.

(** Once [subprocess.run] has returned, the temporary file is gone. *)
Lemma file_removed_after_return (o : os) (tool_name : string) (params : pydict)
    (m : members) (path : string) (b : behaviour) (secs : N) (code : Z) :
  encodable params = Ok m → named_temporary_file o = Ok path →
  exec_node o path (stage o tool_name (json_dumps (JObj m))) = Launched b →
  b_life b = ExitsAfter secs code → (secs <= 30)%N →
  files (snd (call_mcp_tool o tool_name params)) !! path = None.
Proof.
  intros He Hf Hx Hlife Hsecs.
  rewrite (call_completed o tool_name params m path b secs code) by done.
  cbn [snd]. unfold files. rewrite !files_after_app. simpl.
  apply lookup_delete_eq.
Qed.

End BridgeFacts.
Export BridgeFacts.

(** ** The bridge: what holds of [call_mcp_tool] *)

Import Scenario.

#[local] Ltac staged_here :=
  split; [reflexivity | reflexivity | reflexivity | reflexivity | reflexivity
         | repeat split; repeat constructor; set_solver | reflexivity | reflexivity
         | reflexivity].

Lemma staged_overview (out err : string) (life : lifetime) :
  staged (stub_world out err life) "get_overview" overview_params
    "/tmp/tmpk3v9x1.js" overview_members.
Proof. staged_here. Defined.







(** C3 (as amended).  When the Node process that [call_mcp_tool] launches has
    not exited after 30 seconds, the call returns the dict with [error] set
    to [MCP call timed out], and that process is killed: it is not running
    afterwards.  Any other process is left as the script left it: what the
    script started and had not seen exit is still running. *)
Theorem C3_timeout_kills_the_script_only (o : os) (tool_name : string)
    (params : pydict) (m : members) (path : string) (b : behaviour) :
  encodable params = Ok m → named_temporary_file o = Ok path →
  exec_node o path (stage o tool_name (json_dumps (JObj m))) = Launched b →
  overruns (b_life b) 30 →
  fst (call_mcp_tool o tool_name params) = Ok (JObj [("error", JStr "MCP call timed out")])
  ∧ alive (snd (call_mcp_tool o tool_name params)) (NodeScript path) = false
  ∧ ∀ p, p ≠ NodeScript path →
      alive (snd (call_mcp_tool o tool_name params)) p = alive (b_started b) p.
Proof.
  intros He Hf Hx Hover.
  rewrite (call_timed_out o tool_name params m path b) by done.
  cbn [fst snd]. split; [done |]. unfold alive. split.
  - change (Spawned (NodeScript path) :: b_started b ++ [Killed (NodeScript path)])
      with ((Spawned (NodeScript path) :: b_started b) ++ [Killed (NodeScript path)]).
    rewrite !alive_after_app. simpl. by rewrite decide_True.
  - intros p Hp. simpl. rewrite decide_False by done.
    rewrite alive_after_app. simpl. by rewrite decide_False.
Qed.

Lemma C3_timeout_kills_the_script_only_witness :
  let w := stub_world "" "" NeverExits in
  let tr := snd (call_mcp_tool (os_of w) "get_overview" overview_params) in
  fst (call_mcp_tool (os_of w) "get_overview" overview_params)
  = Ok (JObj [("error", JStr "MCP call timed out")])
  ∧ alive tr (NodeScript "/tmp/tmpk3v9x1.js") = false
  ∧ alive tr (McpServer "/srv/mcp/index.js") = true.
Proof.
  intros w tr.
  destruct (C3_timeout_kills_the_script_only (os_of w) "get_overview" overview_params
              overview_members "/tmp/tmpk3v9x1.js"
              (run_script (node w)
                 (stage (os_of w) "get_overview" (json_dumps (JObj overview_members)))))
    as (Hv & Hnode & Hothers).
  - reflexivity.
  - reflexivity.
  - reflexivity.
  - vm_compute. exact I.
  - split; [exact Hv |]. split; [exact Hnode |].
    unfold tr. rewrite Hothers by discriminate. vm_compute. reflexivity.
Defined.

(** C3 as stated fails: the server does not exit; the call kills the Node
    process it launched and returns, and the server that the script started
    is still running. *)
Lemma C3_server_left_running :
  ¬ Stated.C3_as_stated (stub_world "" "" NeverExits) "get_overview" overview_params.
Proof.
  intros H. destruct (H _ eq_refl I) as [_ Hall].
  specialize (Hall (McpServer "/srv/mcp/index.js")).
  vm_compute in Hall. discriminate Hall.
Qed.

(** C4, at the inputs where the code fails it.  After a call that ends in
    the timeout, and after a call in which [node] cannot be launched, the
    temporary file is still there: [os.unlink] stands after
    [subprocess.run] inside the [try], and no [finally] repeats it. *)
Theorem C4_temp_file_left_behind :
  let hangs := stub_world "" "" NeverExits in
  let no_node :=
    {| env_MCP_SERVER_PATH := None; temp_file := Ok "/tmp/tmpk3v9x1.js";
       node_missing := Some {| exn_class_of := FileNotFoundError;
                               exn_msg := "[Errno 2] No such file or directory: 'node'" |};
       node := node hangs |} in
  (fst (call_mcp_tool (os_of hangs) "get_overview" overview_params)
   = Ok (JObj [("error", JStr "MCP call timed out")])
   ∧ files (snd (call_mcp_tool (os_of hangs) "get_overview" overview_params))
       !! "/tmp/tmpk3v9x1.js"
     = Some (stage (os_of hangs) "get_overview" (json_dumps (JObj overview_members))))
  ∧ (fst (call_mcp_tool (os_of no_node) "get_overview" overview_params)
     = Ok (JObj [("error",
                  JStr "Unexpected error: [Errno 2] No such file or directory: 'node'")])
     ∧ files (snd (call_mcp_tool (os_of no_node) "get_overview" overview_params))
         !! "/tmp/tmpk3v9x1.js"
       = Some (stage (os_of no_node) "get_overview" (json_dumps (JObj overview_members)))).
Proof.
  intros hangs no_node. split.
  - rewrite (call_overrun hangs "get_overview" overview_params
               "/tmp/tmpk3v9x1.js" overview_members (staged_overview _ _ _) I).
    split; [reflexivity |]. cbn [snd]. unfold files. simpl.
    apply lookup_insert_eq.
  - rewrite (call_not_launched (os_of no_node) "get_overview" overview_params
               overview_members "/tmp/tmpk3v9x1.js"
               {| exn_class_of := FileNotFoundError;
                  exn_msg := "[Errno 2] No such file or directory: 'node'" |})
      by reflexivity.
    split; [reflexivity |]. cbn [snd]. unfold files. simpl.
    apply lookup_insert_eq.
Qed.







(** C9 (as amended).  When [params] is a dict that [json] can encode, the
    call raises nothing: it returns a value, and that value is a dict with a
    string under [error] unless the launched process exited with code 0
    within the timeout and wrote a JSON text, in which case it is the value
    of that text. *)
Theorem C9_no_exception_when_encodable (o : os) (tool_name : string)
    (params : pydict) (m : members) :
  encodable params = Ok m →
  ∃ v, fst (call_mcp_tool o tool_name params) = Ok v
       ∧ (is_error_mapping v
          ∨ ∃ path b secs,
              named_temporary_file o = Ok path
              ∧ exec_node o path (stage o tool_name (json_dumps (JObj m))) = Launched b
              ∧ b_life b = ExitsAfter secs 0 ∧ (secs <= 30)%N
              ∧ json_loads (b_stdout b) = Some v).
Proof.
  intros He.
  destruct (named_temporary_file o) as [path|e] eqn:Hf.
  2:{ exists (handle e). unfold call_mcp_tool.
      rewrite (encodable_dumps _ _ He), Hf. split; [done | left; apply handle_error]. }
  destruct (exec_node o path (stage o tool_name (json_dumps (JObj m)))) as [b|e] eqn:Hx.
  2:{ exists (handle e). rewrite (call_not_launched o tool_name params m path e) by done.
      split; [done | left; apply handle_error]. }
  destruct (lifetime_cases (b_life b)) as [(secs & code & Hlife & Hsecs) | Hover].
  2:{ eexists. rewrite (call_timed_out o tool_name params m path b) by done.
      split; [done | left; by eexists _, _]. }
  eexists. rewrite (call_completed o tool_name params m path b secs code) by done.
  split; [done |]. unfold interpret. cbn [returncode stdout stderr].
  destruct (Z.eqb_spec code 0) as [-> | Hcode]; [| left; by eexists _, _].
  destruct (json_loads (b_stdout b)) as [v|] eqn:Hv; [| left; by eexists _, _].
  right. by exists path, b, secs.
Qed.

Lemma C9_no_exception_when_encodable_witness :
  ∃ v, fst (call_mcp_tool crashing_os "get_overview" overview_params) = Ok v
       ∧ is_error_mapping v.
Proof.
  destruct (C9_no_exception_when_encodable crashing_os "get_overview" overview_params
              overview_members eq_refl) as (v & Hv & Hcases).
  exists v. split; [exact Hv |].
  destruct Hcases as [Herr | (path & b & secs & _ & Hx & Hlife & _)]; [exact Herr |].
  injection Hx as <-. discriminate Hlife.
Defined.

(** C9 as stated fails: a set among the params makes [json.dumps] raise
    [TypeError] while the f-string is built, before the [try] is entered. *)
Lemma C9_unencodable_params_raise :
  ¬ Stated.C9_as_stated (os_of (stub_world one_result "" (ExitsAfter 1 0)))
      "get_overview" [("limit", Py (JNum 100)); ("tags", PyOther "set")].
Proof. intros [v Hv]. vm_compute in Hv. discriminate Hv. Qed.

(** ** The report tools *)

Module ToolFacts.

Import Py Tools Sample.

(** A [try] whose handler returns a string lets no exception out. *)
Lemma catch_returns (prefix : string) (body : result string) :
  ∃ s, catch prefix body = Ok s.
Proof. destruct body as [s|e]; simpl; eauto. Qed.

Section WithBridge.

Variable rt : runtime.
Variable mcp : string → pydict → result json.

Lemma switch_project_returns (p : string) : ∃ s, switch_project rt mcp p = Ok s.
Proof. apply catch_returns. Qed.

(** *** The overview of an empty project *)

Lemma for_each_nil {A S : Type} (step : S → A → result S) (s : S) :
  for_each step [] s = Ok s.
Proof. done. Qed.

(** The report for no items and a total of 0. *)
Lemma overview_report_empty (project_name : option string) :
  overview_report rt project_name (JArr []) (JNum 0)
  = Ok (join line_separator
          ["# Simple Task Overview";
           "**Total Tasks**: 0";
           "**Project**: " +:+ match given project_name with
                               | Some p => p
                               | None => "Default Project"
                               end;
           "**Data Source**: aitistra.com API";
           "";
           "## Status Distribution:";
           "";
           "## Priority Distribution:"]).
Proof. reflexivity. Qed.

Lemma overview_of_empty_summary (project_name : option string) (summary_data : json) :
  mcp "simpletask_get_tasks_summary" (summary_request project_name) = Ok summary_data →
  empty_summary_received summary_data →
  get_simple_task_overview rt mcp project_name
  = overview_report rt project_name (JArr []) (JNum 0).
Proof.
  intros Hmcp (m & fm & others & -> & Herr & Hcontent & Htext).
  unfold get_simple_task_overview, get_simple_task_overview_body.
  fold (summary_request project_name). rewrite Hmcp.
  cbn [mbind result_bind contains_str]. unfold has_key. rewrite Herr.
  unfold content_text. cbn [mbind result_bind contains_str item]. unfold has_key.
  rewrite Hcontent. cbn [mbind result_bind len length first get Z.ltb Z.of_nat].
  simpl Z.ltb. cbv iota. cbn [mbind result_bind first get]. rewrite Htext.
  cbn [loads mbind result_bind].
  change (json_loads empty_summary_text)
    with (Some (JObj [("items", JArr []); ("total_count", JNum 0)])).
  cbn [get mbind result_bind lookup].
  rewrite overview_report_empty. reflexivity.
Qed.

(** *** No division by zero *)

Lemma nz_ok {A : Type} (a : A) : ¬ zero_division (Ok a).
Proof. by intros (e & ? & _). Qed.

Lemma nz_raise {A : Type} (c : exn_class) :
  c ≠ ZeroDivisionError → ¬ zero_division (Py.raise rt c : result A).
Proof. intros Hc (e & [= <-] & He). by apply Hc. Qed.

Lemma nz_bind {A B : Type} (m : result A) (f : A → result B) :
  ¬ zero_division m → (∀ a, m = Ok a → ¬ zero_division (f a)) →
  ¬ zero_division (m ≫= f).
Proof.
  intros Hm Hf. destruct m as [a|e]; simpl; [by apply Hf |].
  intros (e' & [= <-] & He). apply Hm. by exists e.
Qed.

Lemma nz_if {A : Type} (c : bool) (x y : result A) :
  ¬ zero_division x → ¬ zero_division y → ¬ zero_division (if c then x else y).
Proof. by destruct c. Qed.

Lemma nz_for_each {A S : Type} (step : S → A → result S) (l : list A) (s : S) :
  (∀ s x, ¬ zero_division (step s x)) → ¬ zero_division (for_each step l s).
Proof.
  intros Hstep. revert s. induction l as [|x l IH]; intros s; simpl; [apply nz_ok |].
  specialize (Hstep s x). destruct (step s x) as [s'|e]; [apply IH | done].
Qed.

Lemma nz_catch (prefix : string) (body : result string) :
  ¬ zero_division (catch prefix body).
Proof. destruct (catch_returns prefix body) as [s ->]. apply nz_ok. Qed.

#[local] Ltac nz_prim :=
  intros; match goal with
  | |- ¬ zero_division (match ?v with _ => _ end) => destruct v
  end; try apply nz_ok; try (by apply nz_raise).

Lemma nz_contains_str (k : string) (v : json) : ¬ zero_division (contains_str rt k v).
Proof. unfold contains_str. nz_prim. Qed.

Lemma nz_get (v : json) (k : string) (d : json) : ¬ zero_division (get rt v k d).
Proof. unfold get. nz_prim. Qed.

Lemma nz_item (v : json) (k : string) : ¬ zero_division (item rt v k).
Proof. unfold item. nz_prim. nz_prim. Qed.

Lemma nz_first (v : json) : ¬ zero_division (first rt v).
Proof. unfold first. nz_prim; nz_prim. Qed.

Lemma nz_len (v : json) : ¬ zero_division (len rt v).
Proof. unfold len. nz_prim. Qed.

Lemma nz_iter (v : json) : ¬ zero_division (iter rt v).
Proof. unfold iter. nz_prim. Qed.

Lemma nz_slice_to (n : nat) (v : json) : ¬ zero_division (slice_to rt n v).
Proof. unfold slice_to. nz_prim. Qed.

Lemma nz_as_str (v : json) : ¬ zero_division (as_str rt v).
Proof. unfold as_str. nz_prim. Qed.

Lemma nz_loads (v : json) : ¬ zero_division (loads rt v).
Proof. unfold loads. nz_prim. Qed.

Lemma nz_bump (k : json) (c : list (json * Z)) : ¬ zero_division (bump rt k c).
Proof. unfold bump. apply nz_if; [apply nz_ok | by apply nz_raise]. Qed.

Lemma nz_insert_sorted {A : Type} (x : json * A) (l : list (json * A)) :
  ¬ zero_division (insert_sorted rt x l).
Proof.
  induction l as [|y l IH]; simpl; [apply nz_ok |].
  destruct (key_leb (fst x) (fst y)) as [[|]|]; [apply nz_ok | | by apply nz_raise].
  destruct (insert_sorted rt x l); [apply nz_ok | done].
Qed.

Lemma nz_sorted_items {A : Type} (d : list (json * A)) :
  ¬ zero_division (sorted_items rt d).
Proof.
  induction d as [|x d IH]; simpl; [apply nz_ok |].
  destruct (sorted_items rt d); [apply nz_insert_sorted | done].
Qed.

Lemma nz_truediv (a b : Z) : b ≠ 0%Z → ¬ zero_division (truediv rt a b).
Proof. intros Hb. destruct b; [done | apply nz_ok | apply nz_ok]. Qed.

(** The length of a truthy value, when it has one, is positive. *)
Lemma len_truthy (items : json) (n : Z) :
  truthy items = true → len rt items = Ok n → (0 < n)%Z.
Proof.
  destruct items as [ | | |s|l|m]; simpl; try done.
  - destruct s; [done |]. intros _ [= <-]. simpl. lia.
  - destruct l; [done |]. intros _ [= <-]. simpl. lia.
  - destruct m; [done |]. intros _ [= <-]. simpl. lia.
Qed.

(** The guard of lines 191 and 200 keeps the division away from zero. *)
Lemma nz_percentage (count : Z) (items : json) :
  ¬ zero_division (percentage rt count items).
Proof.
  unfold percentage. destruct (truthy items) eqn:Ht; [| apply nz_ok].
  apply nz_bind; [apply nz_len |]. intros n Hn.
  apply nz_bind; [| intros; apply nz_ok].
  apply nz_truediv. pose proof (len_truthy items n Ht Hn). lia.
Qed.

Lemma percentage_of_nothing (count : Z) (items : json) :
  truthy items = false → percentage rt count items = Ok 0%Q.
Proof. unfold percentage. by intros ->. Qed.

#[local] Ltac nz :=
  repeat first
    [ apply nz_ok
    | apply nz_catch
    | apply nz_contains_str | apply nz_get | apply nz_item | apply nz_first
    | apply nz_len | apply nz_iter | apply nz_slice_to | apply nz_as_str
    | apply nz_loads | apply nz_bump | apply nz_sorted_items | apply nz_percentage
    | by apply nz_raise
    | apply nz_for_each; intros
    | apply nz_bind; [| intros ? ?]
    | apply nz_if
    | match goal with
      | |- ¬ zero_division (match ?x with _ => _ end) => destruct x
      end ].

Lemma nz_overview_report (project_name : option string) (items total : json) :
  ¬ zero_division (overview_report rt project_name items total).
Proof.
  unfold overview_report, status_line, priority_line, count_task, keep_high,
    high_priority_line. nz.
Qed.

Hypothesis mcp_nz : ∀ name params, ¬ zero_division (mcp name params).

Lemma nz_overview_body (project_name : option string) :
  ¬ zero_division (get_simple_task_overview_body rt mcp project_name).
Proof.
  unfold get_simple_task_overview_body, content_text, parse_error.
  apply nz_bind; [apply mcp_nz | intros summary_data _].
  nz; apply nz_overview_report.
Qed.

(** After the early return of line 416 the divisor of line 453 is the
    length of a truthy value. *)
Lemma nz_workload_report (items : json) :
  truthy items = true → ¬ zero_division (workload_report rt items).
Proof.
  intros Ht. unfold workload_report.
  apply nz_bind; [apply nz_len | intros total_tasks Hlen].
  apply nz_bind; [apply nz_iter | intros tasks _].
  apply nz_bind.
  { apply nz_for_each. intros st task. unfold assign_task. nz. }
  intros state _. apply nz_bind.
  { apply nz_truediv. pose proof (len_truthy items total_tasks Ht Hlen). lia. }
  intros share _. apply nz_bind; [| intros; apply nz_ok].
  apply nz_for_each. intros lines entry. unfold member_lines, display_name. nz.
Qed.

Lemma nz_switch_first (project_name : option string) (rest : result string) :
  ¬ zero_division rest → ¬ zero_division (switch_first rt mcp project_name rest).
Proof.
  intros Hrest. unfold switch_first. destruct (given project_name) as [p|]; [| done].
  destruct (switch_project_returns p) as [s ->]. simpl.
  by destruct (contains "Error" s); [apply nz_ok |].
Qed.

Lemma nz_workload_body (project_name : option string) :
  ¬ zero_division (analyze_team_workload_body rt mcp project_name).
Proof.
  unfold analyze_team_workload_body. apply nz_switch_first.
  apply nz_bind; [apply mcp_nz | intros tasks_data _].
  apply nz_bind; [apply nz_contains_str | intros failed _].
  destruct failed; [nz |].
  apply nz_bind; [apply nz_get | intros items _].
  destruct (truthy items) eqn:Ht; simpl; [by apply nz_workload_report | apply nz_ok].
Qed.

End WithBridge.

End ToolFacts.

Import Py Tools ToolFacts Sample.



(** C8, where the code fails it.  When the bridge, asked for the summary of
    the tasks, returns the result of the specification's scenario (a dict
    without [error] whose first content item has for text the JSON text of
    no items and a total of 0), the overview reports [**Total Tasks**: 0],
    but what it returns does not begin with a line [# Simple Task Overview]:
    line 214 joins the lines of the report with a backslash and the letter
    n, not with a line feed, so the heading is followed by these two
    characters. *)
Theorem C8_overview_is_one_line (rt : runtime) (mcp : string → pydict → result json)
    (project_name : option string) (summary_data : json) :
  mcp "simpletask_get_tasks_summary" (summary_request project_name) = Ok summary_data →
  empty_summary_received summary_data →
  ∃ rest,
    get_simple_task_overview rt mcp project_name
    = Ok ("# Simple Task Overview" +:+ String backslash "n" +:+ "**Total Tasks**: 0"
          +:+ String backslash "n" +:+ rest)
    ∧ has_prefix ("# Simple Task Overview" +:+ nl)
        ("# Simple Task Overview" +:+ String backslash "n" +:+ "**Total Tasks**: 0"
         +:+ String backslash "n" +:+ rest) = false.
Proof.
  intros Hmcp Hsum.
  rewrite (overview_of_empty_summary rt mcp project_name summary_data Hmcp Hsum).
  rewrite overview_report_empty. eexists. split; reflexivity.
Qed.

Lemma C8_overview_is_one_line_witness :
  ∃ rest,
    get_simple_task_overview cpython
      (bridge (stub_world empty_summary_response "" (ExitsAfter 1 0))) None
    = Ok ("# Simple Task Overview" +:+ String backslash "n" +:+ "**Total Tasks**: 0"
          +:+ String backslash "n" +:+ rest)
    ∧ has_prefix ("# Simple Task Overview" +:+ nl)
        ("# Simple Task Overview" +:+ String backslash "n" +:+ "**Total Tasks**: 0"
         +:+ String backslash "n" +:+ rest) = false.
Proof.
  apply (C8_overview_is_one_line cpython
           (bridge (stub_world empty_summary_response "" (ExitsAfter 1 0)))
           None empty_summary).
  - vm_compute. reflexivity.
  - exists [("content", JArr [JObj [("text", JStr empty_summary_text)]])],
      [("text", JStr empty_summary_text)], [].
    repeat split; reflexivity.
Defined.

(** C10.  No percentage divides by zero.  In [get_simple_task_overview] the
    expression of lines 191 and 200 never ends in [ZeroDivisionError], and
    is 0 when [items] is empty; in [analyze_team_workload] the divisor of
    line 453 is the length of [items] after the early return of line 416,
    hence positive.  So, with a bridge that raises no [ZeroDivisionError] of
    its own, neither body ends in one. *)
Theorem C10_no_division_by_zero (rt : runtime) (mcp : string → pydict → result json)
    (project_name : option string) :
  (∀ name params, ¬ zero_division (mcp name params)) →
  (∀ count items, ¬ zero_division (percentage rt count items))
  ∧ (∀ count items, truthy items = false → percentage rt count items = Ok 0%Q)
  ∧ (∀ items n, truthy items = true → len rt items = Ok n → (0 < n)%Z)
  ∧ (∀ items, truthy items = true → ¬ zero_division (workload_report rt items))
  ∧ ¬ zero_division (get_simple_task_overview_body rt mcp project_name)
  ∧ ¬ zero_division (analyze_team_workload_body rt mcp project_name).
Proof.
  intros Hmcp. repeat split.
  - apply nz_percentage.
  - apply percentage_of_nothing.
  - apply len_truthy.
  - apply nz_workload_report.
  - by apply nz_overview_body.
  - by apply nz_workload_body.
Qed.

Lemma C10_no_division_by_zero_witness :
  percentage cpython 0 (JArr []) = Ok 0%Q
  ∧ ¬ zero_division (get_simple_task_overview_body cpython (λ _ _, Ok empty_summary) None)
  ∧ ¬ zero_division (analyze_team_workload_body cpython (λ _ _, Ok empty_summary) None).
Proof.
  destruct (C10_no_division_by_zero cpython (λ _ _, Ok empty_summary) None)
    as (_ & Hzero & _ & _ & Hoverview & Hworkload).
  - intros name params (e & He & _). discriminate He.
  - split; [apply Hzero; reflexivity |]. split; [exact Hoverview | exact Hworkload].
Defined.

(** * Further properties

    Facts that the code shows beyond the statements above: about the bridge
    (X1 to X5), about the reports built on it (X6 to X16), and about the
    selection of a project in [real_agent.py] (X17, X18). *)

Import Tally Agent.

(** ** Texts *)

Module TextFacts.

Lemma contains_unfold (needle hay : string) :
  contains needle hay
  = has_prefix needle hay
    || match hay with
       | EmptyString => false
       | String _ hay' => contains needle hay'
       end.
Proof. by destruct hay. Qed.

Lemma has_prefix_app (p rest : string) : has_prefix p (p +:+ rest) = true.
Proof. induction p as [|c p IH]; simpl; [by destruct rest |]. by rewrite Ascii.eqb_refl. Qed.

Lemma contains_prefix (needle rest : string) : contains needle (needle +:+ rest) = true.
Proof. by rewrite contains_unfold, has_prefix_app. Qed.

Lemma contains_refl (s : string) : contains s s = true.
Proof. rewrite <- (app_nil_r s) at 2. apply contains_prefix. Qed.

Lemma contains_app_r (needle a b : string) :
  contains needle b = true → contains needle (a +:+ b) = true.
Proof.
  intros Hb. induction a as [|c a IH]; [done |].
  change (String c a +:+ b) with (String c (a +:+ b)).
  rewrite contains_unfold, IH. apply orb_true_r.
Qed.

Lemma has_prefix_app_l (p a b : string) :
  has_prefix p a = true → has_prefix p (a +:+ b) = true.
Proof.
  revert a. induction p as [|c p IH]; intros [|x a]; simpl; try done.
  intros [-> Hp]%andb_true_iff. by rewrite IH.
Qed.

Lemma contains_app_l (needle a b : string) :
  contains needle a = true → contains needle (a +:+ b) = true.
Proof.
  induction a as [|c a IH].
  - rewrite contains_unfold, orb_false_r. intros H.
    rewrite contains_unfold. by rewrite (has_prefix_app_l _ "" b H).
  - rewrite contains_unfold. change (String c a +:+ b) with (String c (a +:+ b)).
    rewrite (contains_unfold needle (String c (a +:+ b))).
    intros [H | H]%orb_true_iff.
    + pose proof (has_prefix_app_l _ (String c a) b H) as H'.
      change (String c a +:+ b) with (String c (a +:+ b)) in H'. by rewrite H'.
    + rewrite (IH H). apply orb_true_r.
Qed.

End TextFacts.
Import TextFacts.

(** ** The bridge *)



(** X2.  Whatever the tool name, the params and the operating system do,
    the process that [subprocess.run] launched on the temporary file is not
    running when [call_mcp_tool] returns or raises: it was never started, it
    exited, or it was killed. *)
Theorem X2_launched_process_never_left_running (o : os) (tool_name : string)
    (params : pydict) (path : string) :
  named_temporary_file o = Ok path →
  alive (snd (call_mcp_tool o tool_name params)) (NodeScript path) = false.
Proof.
  intros Hf. unfold call_mcp_tool.
  destruct (dumps_params params) as [arguments|]; [| done].
  rewrite Hf. unfold subprocess_run.
  destruct (exec_node o path _) as [b|e]; [| done].
  assert (Hend : ∀ tr e, (e = Exited (NodeScript path) 0 ∨ e = Killed (NodeScript path)
                          ∨ ∃ code, e = Exited (NodeScript path) code) →
                 ∀ tail, Forall (λ e', ∃ p, e' = Unlinked p) tail →
                 alive (tr ++ e :: tail) (NodeScript path) = false).
  { intros tr e He tail Htail. unfold alive. rewrite alive_after_app.
    assert (alive_after [e] (NodeScript path) (alive_after tr (NodeScript path) false) = false)
      as Hfalse.
    { destruct He as [-> | [-> | [code ->]]]; cbn [alive_after]; by rewrite decide_True. }
    change (e :: tail) with ([e] ++ tail). rewrite alive_after_app, Hfalse.
    clear -Htail. induction Htail as [|e' tail [p ->] _ IH]; [done | exact IH]. }
  destruct (b_life b) as [secs code|].
  - destruct (secs <=? 30)%N; cbn [snd].
    + match goal with |- alive ?tr _ = _ =>
        replace tr with
          (([Created path (stage o tool_name arguments); Spawned (NodeScript path)]
            ++ b_started b ++ b_finished b)
           ++ Exited (NodeScript path) code :: [Unlinked path])
          by (cbn [app]; rewrite <- ?List.app_assoc; reflexivity)
      end.
      apply Hend; [eauto | repeat constructor; eauto].
    + match goal with |- alive ?tr _ = _ =>
        replace tr with
          (([Created path (stage o tool_name arguments); Spawned (NodeScript path)]
            ++ b_started b) ++ Killed (NodeScript path) :: [])
          by (cbn [app]; rewrite <- ?List.app_assoc; reflexivity)
      end.
      apply Hend; [eauto | constructor].
  - cbn [snd].
    match goal with |- alive ?tr _ = _ =>
      replace tr with
        (([Created path (stage o tool_name arguments); Spawned (NodeScript path)]
          ++ b_started b) ++ Killed (NodeScript path) :: [])
        by (cbn [app]; rewrite <- ?List.app_assoc; reflexivity)
    end.
    apply Hend; [eauto | constructor].
Qed.

Lemma X2_launched_process_never_left_running_witness :
  alive (snd (call_mcp_tool hanging_os "get_overview" overview_params))
    (NodeScript "/tmp/tmpk3v9x1.js") = false.
Proof.
  apply (X2_launched_process_never_left_running hanging_os "get_overview" overview_params
           "/tmp/tmpk3v9x1.js"). reflexivity.
Defined.

Module LineFacts.

Lemma unterminated (before after : string) :
  plain_text before = true →
  js_single_quoted (before +:+ String LF after) = Unterminated.
Proof.
  induction before as [|c before IH]; [done |].
  cbn [plain_text all_chars]. intros [Hc Hb]%andb_true_iff.
  change (String c before +:+ String LF after) with (String c (before +:+ String LF after)).
  cbn [js_single_quoted]. unfold plain_char in Hc.
  apply negb_true_iff in Hc.
  apply orb_false_iff in Hc as [Hc Hcr]. apply orb_false_iff in Hc as [Hc Hlf].
  apply orb_false_iff in Hc as [Hq Hbs].
  rewrite Hq, Hlf, Hcr, Hbs. cbn [orb]. fold plain_text in Hb. by rewrite (IH Hb).
Qed.

Lemma split_on_line (a b : string) :
  no_line_feed a = true → split_on LF (a +:+ String LF b) = a :: split_on LF b.
Proof.
  induction a as [|c a IH]; [done |].
  cbn [no_line_feed all_chars]. intros [Hc Ha]%andb_true_iff.
  change (String c a +:+ String LF b) with (String c (a +:+ String LF b)).
  cbn [split_on]. apply negb_true_iff in Hc. rewrite Hc.
  fold no_line_feed in Ha. by rewrite (IH Ha).
Qed.

End LineFacts.
Import LineFacts.

(** X3.  A tool name with a line feed after plain text makes the script a
    syntax error: Node exits with code 1 before anything runs, no server is
    started, the file is removed, and the call returns [MCP call failed: ]
    with what Node reports and [return_code] 1. *)
Theorem X3_line_break_in_tool_name (w : world) (before after : string) (params : pydict)
    (path : string) (m : members) :
  node_missing w = None → temp_file w = Ok path →
  plain_text (server_path w) = true → plain_text before = true →
  encodable params = Ok m →
  let tool_name := before +:+ String LF after in
  call_mcp_tool (os_of w) tool_name params
  = (Ok (JObj [("error", JStr ("MCP call failed: " +:+ w_syntax_report (node w)));
               ("return_code", JNum 1)]),
     [Created path (stage (os_of w) tool_name (json_dumps (JObj m)));
      Spawned (NodeScript path); Exited (NodeScript path) 1; Unlinked path]).
Proof.
  intros Hn Hf Hp Hb He tool_name.
  rewrite (call_completed (os_of w) tool_name params m path (syntax_failure (node w)) 0 1);
    [done | done | done | | done | done].
  cbn [exec_node os_of]. rewrite Hn. f_equal.
  unfold run_script, stage. cbn [s_server_path s_tool_name s_arguments].
  fold (os_of w). rewrite server_path_os_of.
  rewrite lit_plain by (rewrite plain_text_app, Hp; done).
  unfold tool_name. by rewrite unterminated.
Qed.

Lemma X3_line_break_in_tool_name_witness :
  fst (call_mcp_tool (os_of (stub_world one_result "" (ExitsAfter 1 0)))
         ("get_overview" +:+ String LF "") overview_params)
  = Ok (JObj [("error", JStr "MCP call failed: SyntaxError: Invalid or unexpected token");
              ("return_code", JNum 1)]).
Proof.
  rewrite (X3_line_break_in_tool_name (stub_world one_result "" (ExitsAfter 1 0))
             "get_overview" "" overview_params "/tmp/tmpk3v9x1.js" overview_members);
    reflexivity.
Defined.

Module LiteralFacts.

(** An object whose members are read back as they are is read back as the
    parser rebuilds it, key by key. *)
Lemma parse_value_rebuilt (oset : string → json → members → members) (L : layout)
    (HL : layout_ok L) (m : members) (fuel : nat) (w : string) :
  Forall (λ kv, stable oset (snd kv)) m → all_chars is_ws w = true →
  weight (JObj m) ≤ fuel →
  parse_value oset fuel (print L 0 (JObj m) +:+ w) = Some (JObj (rebuild oset m), w).
Proof.
  intros Sm Hw Hfuel. destruct fuel as [|f]; [simpl in Hfuel; lia |].
  destruct m as [|[k x] xs].
  { done. }
  apply Forall_cons in Sm as [Sx Sxs]. cbn [snd] in Sx.
  assert (Sxs' : foldr (λ y P, stable oset (snd y) ∧ P) True xs).
  { clear -Sxs. induction Sxs; simpl; [done | by split]. }
  cbn [print]. rewrite !app_assoc. cbn [String.append].
  rewrite parse_value_obj.
  destruct (skip_to_member L (print L 1) (lay_open L 1) (k, x)
    (members_with (print L 1) L (lay_sep L 1) (lay_close L 0 +:+ "}") xs +:+ w))
    as (r & ->); [apply HL |].
  change (Ascii.eqb dquote "}") with false. cbv iota.
  rewrite (parse_members_items oset L HL 0 xs);
    [done | | by apply parse_print | done | done | apply HL | simpl in Hfuel |- *; lia].
  apply Forall_forall. intros kv _. by apply parse_print.
Qed.

Lemma parse_text_rebuilt (oset : string → json → members → members) (L : layout)
    (HL : layout_ok L) (m : members) (w : string) :
  Forall (λ kv, stable oset (snd kv)) m → all_chars is_ws w = true →
  parse_text oset (print L 0 (JObj m) +:+ w) = Some (JObj (rebuild oset m)).
Proof.
  intros Sm Hw. unfold parse_text.
  rewrite parse_value_rebuilt; [| done | done | done |].
  - by rewrite skip_all_ws.
  - rewrite length_app. pose proof (weight_le_length L (JObj m) 0). lia.
Qed.

End LiteralFacts.
Import LiteralFacts.

Module ProtoFacts.

Lemma lookup_py_set (k k' : string) (v : json) (m : members) :
  lookup k (py_set k' v m) = if String.eqb k k' then Some v else lookup k m.
Proof.
  induction m as [|[k0 v0] m IH]; cbn [py_set lookup]; [done |].
  destruct (String.eqb_spec k' k0) as [<- | Hne]; cbn [lookup].
  - by destruct (String.eqb k k').
  - destruct (String.eqb_spec k k0) as [<- | Hne'].
    + destruct (String.eqb_spec k k'); [congruence | done].
    + exact IH.
Qed.

Lemma lookup_app (k : string) (m1 m2 : members) :
  lookup k (m1 ++ m2) = match lookup k m1 with Some v => Some v | None => lookup k m2 end.
Proof.
  induction m1 as [|[k0 v0] m1 IH]; cbn [lookup app]; [done |].
  by destruct (String.eqb k k0).
Qed.

Lemma lookup_js_insert_index (k : string) (n : N) (k' : string) (v : json) (m : members) :
  lookup k' m = None →
  lookup k (js_insert_index n k' v m) = if String.eqb k k' then Some v else lookup k m.
Proof.
  induction m as [|[k0 v0] m IH]; cbn [js_insert_index lookup]; [done |].
  destruct (String.eqb_spec k' k0) as [<- | Hne]; [done |]. intros Hnone.
  destruct (is_array_index k0) as [n' |]; [destruct (n <? n')%N |]; cbn [lookup]; try done.
  destruct (String.eqb_spec k k0) as [-> | Hne'].
  - destruct (String.eqb_spec k0 k'); [congruence | done].
  - by apply IH.
Qed.

Lemma lookup_js_set (k k' : string) (v : json) (m : members) :
  lookup k (js_set k' v m) = if String.eqb k k' then Some v else lookup k m.
Proof.
  unfold js_set, has_key. destruct (lookup k' m) as [x|] eqn:E.
  - apply lookup_py_set.
  - destruct (is_array_index k') as [n|]; [by apply lookup_js_insert_index |].
    rewrite lookup_app. cbn [lookup].
    destruct (String.eqb_spec k k') as [-> | Hne]; [by rewrite E |].
    by destruct (lookup k m).
Qed.

(** What an object literal with the members [m], in this order, denotes on
    top of [acc]. *)
Lemma lookup_literal (k : string) (m acc : members) :
  NoDup (keys m) →
  lookup k (fold_left (λ a kv, js_literal_set (fst kv) (snd kv) a) m acc)
  = if String.eqb k "__proto__" then lookup k acc
    else match lookup k m with Some v => Some v | None => lookup k acc end.
Proof.
  revert acc. induction m as [|[k0 v0] m IH]; intros acc Hnd; cbn [fold_left lookup fst snd].
  - by destruct (String.eqb k "__proto__").
  - apply NoDup_cons in Hnd as [Hk0 Hnd]. rewrite IH by done.
    destruct (String.eqb_spec k "__proto__") as [-> | Hk].
    + unfold js_literal_set. destruct (String.eqb_spec k0 "__proto__") as [-> | Hk0']; [done |].
      rewrite lookup_js_set. destruct (String.eqb_spec "__proto__" k0); [congruence | done].
    + destruct (String.eqb_spec k k0) as [-> | Hne].
      * apply (proj2 (lookup_None k0 m)) in Hk0. rewrite Hk0.
        unfold js_literal_set. destruct (String.eqb_spec k0 "__proto__"); [congruence |].
        rewrite lookup_js_set. by rewrite String.eqb_refl.
      * destruct (lookup k m); [done |].
        unfold js_literal_set. destruct (String.eqb k0 "__proto__"); [done |].
        rewrite lookup_js_set. by destruct (String.eqb_spec k k0).
Qed.

(** The arguments of the request, when [params] is pasted into the script. *)
Lemma eval_params (m : members) :
  Forall (λ kv, distinct_keys (snd kv) ∧ plain_keys (snd kv) = true) m →
  js_eval_literal (json_dumps (JObj m)) = Some (JObj (rebuild js_literal_set m)).
Proof.
  intros Hm. unfold js_eval_literal, json_dumps.
  rewrite <- (app_nil_r (print python 0 (JObj m))).
  apply (parse_text_rebuilt js_literal_set python python_ok); [| done].
  eapply Forall_impl; [exact Hm |]. intros kv [? ?]. by apply stable_js_literal.
Qed.

End ProtoFacts.
Import ProtoFacts.

Module ScriptFacts.

Lemma stdin_served (w : node_world) (entry name : string) (arguments : json)
    (path path' : string) (s : script) (tail : list event) :
  (∀ data, Wrote (McpServer entry) data ∉ tail) → Closed (McpServer entry) ∉ tail →
  stdin_of ([Created path s] ++ (Spawned (NodeScript path')
              :: b_started (serve w entry name arguments) ++ tail)) (McpServer entry)
  = [Some (request_line name arguments); None].
Proof.
  intros Hw Hc. cbn [serve b_started app stdin_of]. rewrite !decide_True by done.
  do 2 f_equal. induction tail as [|e tail IH]; [done |].
  assert (Hw' : ∀ data, Wrote (McpServer entry) data ∉ tail) by set_solver.
  assert (Hc' : Closed (McpServer entry) ∉ tail) by set_solver.
  destruct e as [| | |q data|q| |]; cbn [stdin_of]; try by apply IH.
  - destruct (decide (q = McpServer entry)) as [-> |]; [| by apply IH].
    exfalso. apply (Hw data). set_solver.
  - destruct (decide (q = McpServer entry)) as [-> |]; [| by apply IH].
    exfalso. apply Hc. set_solver.
Qed.

(** The script of a call whose tool name and server path are plain, with
    whatever keys in [params]. *)
Lemma run_pasted (w : world) (tool_name : string) (m : members) :
  plain_text (server_path w) = true → plain_text tool_name = true →
  Forall (λ kv, distinct_keys (snd kv) ∧ plain_keys (snd kv) = true) m →
  run_script (node w) (stage (os_of w) tool_name (json_dumps (JObj m)))
  = serve (node w) (entry_point w) tool_name (JObj (rebuild js_literal_set m)).
Proof.
  intros Hp Ht Hm. unfold run_script, stage.
  cbn [s_server_path s_tool_name s_arguments]. rewrite server_path_os_of.
  rewrite lit_plain by (rewrite plain_text_app, Hp; done).
  rewrite lit_plain by done.
  by rewrite eval_params.
Qed.

End ScriptFacts.
Import ScriptFacts.

(** X4.  The params are pasted into the script as an object literal, in
    which a member [__proto__] sets the prototype.  So a parameter named
    [__proto__] is not sent: when the call gets as far as running the
    script, with params whose values hold, at every depth, distinct plain
    keys (the names of the parameters themselves are free), ASCII strings,
    integers that JavaScript keeps and a nesting that it reads, the request
    that the server reads has no argument named [__proto__], and every
    other parameter with the value it was given. *)
Theorem X4_proto_parameter_never_sent (w : world) (tool_name : string) (params : pydict)
    (path : string) (m : members) :
  node_missing w = None → temp_file w = Ok path →
  plain_text (server_path w) = true → plain_text tool_name = true →
  ascii_text (server_path w) = true → ascii_text tool_name = true →
  encodable params = Ok m → NoDup (keys m) →
  Forall (λ kv, distinct_keys (snd kv) ∧ plain_keys (snd kv) = true) m →
  modelled (JObj m) = true →
  ∃ arguments,
    stdin_of (snd (call_mcp_tool (os_of w) tool_name params)) (McpServer (entry_point w))
    = [Some (JSON_stringify (request tool_name (JObj arguments)) +:+ nl); None]
    ∧ lookup "__proto__" arguments = None
    ∧ ∀ k, k ≠ "__proto__" → lookup k arguments = lookup k m.
Proof.
  intros Hn Hf Hp Ht _ _ He Hnd Hm _.
  exists (rebuild js_literal_set m). split; [| split].
  - pose proof (run_pasted w tool_name m Hp Ht Hm) as Hrun.
    set (b := serve (node w) (entry_point w) tool_name (JObj (rebuild js_literal_set m))) in *.
    assert (Hx : exec_node (os_of w) path (stage (os_of w) tool_name (json_dumps (JObj m)))
                 = Launched b).
    { cbn [exec_node os_of]. rewrite Hn. fold (os_of w). by rewrite Hrun. }
    destruct (lifetime_cases (b_life b)) as [(secs & code & Hlife & Hsecs) | Hover].
    + rewrite (call_completed (os_of w) tool_name params m path b secs code) by done.
      cbn [snd].
      match goal with |- stdin_of ?tr _ = _ =>
        replace tr with
          ([Created path (stage (os_of w) tool_name (json_dumps (JObj m)))]
           ++ Spawned (NodeScript path)
              :: b_started b ++ (b_finished b ++ [Exited (NodeScript path) code; Unlinked path]))
          by (cbn [app]; rewrite <- ?List.app_assoc; reflexivity)
      end.
      unfold b at 1. unfold request_line.
      rewrite (stdin_served (node w) (entry_point w) tool_name _ path path); [done | |].
      * intros data Hin. unfold b, serve in Hin. cbn [b_finished] in Hin.
        destruct (r_life _); set_solver.
      * intros Hin. unfold b, serve in Hin. cbn [b_finished] in Hin.
        destruct (r_life _); set_solver.
    + rewrite (call_timed_out (os_of w) tool_name params m path b) by done.
      cbn [snd]. unfold b at 1.
      rewrite (stdin_served (node w) (entry_point w) tool_name _ path path); [done | |];
        set_solver.
  - unfold rebuild. by rewrite lookup_literal.
  - intros k Hk. unfold rebuild. rewrite lookup_literal by done.
    destruct (String.eqb_spec k "__proto__"); [done |]. cbn [lookup]. by destruct (lookup k m).
Qed.

Lemma X4_proto_parameter_never_sent_witness :
  ∃ arguments,
    stdin_of (snd (call_mcp_tool (os_of (stub_world one_result "" (ExitsAfter 1 0)))
                     "get_overview" [("__proto__", Py (JNum 1)); ("limit", Py (JNum 5))]))
      (McpServer "/srv/mcp/index.js")
    = [Some (JSON_stringify (request "get_overview" (JObj arguments)) +:+ nl); None]
    ∧ lookup "__proto__" arguments = None
    ∧ lookup "limit" arguments = Some (JNum 5).
Proof.
  destruct (X4_proto_parameter_never_sent (stub_world one_result "" (ExitsAfter 1 0))
              "get_overview" [("__proto__", Py (JNum 1)); ("limit", Py (JNum 5))]
              "/tmp/tmpk3v9x1.js" [("__proto__", JNum 1); ("limit", JNum 5)])
    as (arguments & Hin & Hproto & Hothers);
    [reflexivity | reflexivity | reflexivity | reflexivity | reflexivity | reflexivity
    | reflexivity | repeat constructor; set_solver | repeat constructor | reflexivity |].
  exists arguments. split; [exact Hin |]. split; [exact Hproto |].
  by rewrite Hothers.
Defined.

(** ** White space after a line *)

Module SuffixFacts.

Lemma skip_ws_app_solid (s : string) (c : ascii) (r t : string) :
  skip_ws s = String c r → skip_ws (s +:+ t) = String c (r +:+ t).
Proof.
  induction s as [|a s IH]; simpl; [done |].
  destruct (is_ws a); [exact IH | by intros [= -> ->]].
Qed.

Lemma skip_ws_nothing (s : string) : skip_ws s = "" → all_chars is_ws s = true.
Proof.
  induction s as [|a s IH]; simpl; [done |]. by destruct (is_ws a).
Qed.

Lemma strip_prefix_app_r (p s r t : string) :
  strip_prefix p s = Some r → strip_prefix p (s +:+ t) = Some (r +:+ t).
Proof.
  revert s. induction p as [|a p IH]; intros s; simpl; [by intros [= ->] |].
  destruct s as [|b s]; [done |]. simpl. destruct (Ascii.eqb a b); [apply IH | done].
Qed.

Lemma parse_string_body_app (s x r t : string) :
  parse_string_body s = Some (x, r) → parse_string_body (s +:+ t) = Some (x, r +:+ t).
Proof.
  remember (String.length s) as n eqn:Hn. revert s x r Hn.
  induction n as [n IH] using lt_wf_ind. intros s x r Hn.
  destruct s as [|c s]; [done |]. cbn [parse_string_body String.append].
  destruct (Ascii.eqb c dquote); [by intros [= <- <-] |].
  destruct (Ascii.eqb c backslash).
  - destruct s as [|e s1]; [done |]. cbn [String.append].
    destruct (Ascii.eqb e "u").
    + destruct s1 as [|h3 [|h2 [|h1 [|h0 r2]]]]; try done. cbn [String.append].
      destruct (hex_value h3) as [[|?]|]; try done.
      destruct (hex_value h2) as [[|?]|]; try done.
      destruct (hex_value h1) as [a|]; try done.
      destruct (hex_value h0) as [b|]; try done.
      destruct (parse_string_body r2) as [[y rest]|] eqn:E; [| done].
      intros [= <- <-]. erewrite (IH (String.length r2)); [done | | done | exact E].
      subst n. simpl. lia.
    + destruct (if Ascii.eqb e dquote then _ else _) as [ch|]; [| done].
      destruct (parse_string_body s1) as [[y rest]|] eqn:E; [| done].
      intros [= <- <-]. erewrite (IH (String.length s1)); [done | | done | exact E].
      subst n. simpl. lia.
  - destruct (code c <? 32); [done |].
    destruct (parse_string_body s) as [[y rest]|] eqn:E; [| done].
    intros [= <- <-]. erewrite (IH (String.length s)); [done | | done | exact E].
    subst n. simpl. lia.
Qed.

Lemma scan_uint_app (s : string) (u : uint) (r t : string) :
  scan_uint s = (u, r) → no_digit_head t → scan_uint (s +:+ t) = (u, r +:+ t).
Proof.
  revert u r. induction s as [|c s IH]; intros u r; simpl.
  - intros [= <- <-] Ht. destruct t as [|c t]; simpl in *; [done | by rewrite Ht].
  - destruct (digit_of c) as [D|].
    + destruct (scan_uint s) as [u' r'] eqn:E. intros [= <- <-] Ht.
      by rewrite (IH u' r' eq_refl Ht).
    + by intros [= <- <-] _.
Qed.

Lemma parse_number_app (s : string) (v : json) (r t : string) :
  parse_number s = Some (v, r) → no_digit_head t →
  parse_number (s +:+ t) = Some (v, r +:+ t).
Proof.
  intros H Ht. unfold parse_number in *.
  destruct s as [|c s].
  - simpl in H. done.
  - cbn [String.append]. destruct (Ascii.eqb c "-").
    + destruct (scan_uint s) as [u rest] eqn:E.
      rewrite (scan_uint_app s u rest t E Ht).
      repeat case_match; simplify_eq; done.
    + destruct (scan_uint (String c s)) as [u rest] eqn:E.
      change (String c (s +:+ t)) with (String c s +:+ t).
      rewrite (scan_uint_app (String c s) u rest t E Ht).
      repeat case_match; simplify_eq; done.
Qed.

Section Suffix.

Variable oset : string → json → members → members.

#[local] Ltac suffix t Ht IHv IHe IHm :=
  repeat first
    [ progress cbv beta iota
    | match goal with
      | H : skip_ws ?s = String ?c ?r |- context [skip_ws (?s +:+ t)] =>
          rewrite (skip_ws_app_solid s c r t H)
      | H : strip_prefix ?p ?s = Some ?r |- context [strip_prefix ?p (?s +:+ t)] =>
          rewrite (strip_prefix_app_r p s r t H)
      | H : parse_string_body ?s = Some (?x, ?r) |- context [parse_string_body (?s +:+ t)] =>
          rewrite (parse_string_body_app s x r t H)
      | H : parse_value oset ?f ?s = Some (?v, ?r) |- context [parse_value oset _ (?s +:+ t)] =>
          rewrite (IHv s v r t _ H Ht)
      | H : parse_elems oset ?f ?s = Some (?v, ?r) |- context [parse_elems oset _ (?s +:+ t)] =>
          rewrite (IHe s v r t _ H Ht)
      | H : parse_members oset ?f ?s ?acc = Some (?v, ?r)
        |- context [parse_members oset _ (?s +:+ t) ?acc] =>
          rewrite (IHm s acc v r t _ H Ht)
      | H : ?b = true |- context [if ?b then _ else _] => rewrite H
      | H : ?b = false |- context [if ?b then _ else _] => rewrite H
      end ].

Lemma parse_suffix_all (fuel : nat) :
  (∀ s v r t k, parse_value oset fuel s = Some (v, r) → no_digit_head t →
     parse_value oset (fuel + k) (s +:+ t) = Some (v, r +:+ t))
  ∧ (∀ s l r t k, parse_elems oset fuel s = Some (l, r) → no_digit_head t →
       parse_elems oset (fuel + k) (s +:+ t) = Some (l, r +:+ t))
  ∧ (∀ s acc m r t k, parse_members oset fuel s acc = Some (m, r) → no_digit_head t →
       parse_members oset (fuel + k) (s +:+ t) acc = Some (m, r +:+ t)).
Proof.
  induction fuel as [|f (IHv & IHe & IHm)]; [by split; [| split] |].
  split; [| split].
  - intros s v r t k H Ht. cbn [parse_value] in H.
    repeat case_match; simplify_eq; cbn [parse_value Nat.add];
      suffix t Ht IHv IHe IHm; try done.
    by apply (parse_number_app (String _ _)).
  - intros s l r t k H Ht. cbn [parse_elems] in H.
    repeat case_match; simplify_eq; cbn [parse_elems Nat.add];
      suffix t Ht IHv IHe IHm; done.
  - intros s acc m r t k H Ht. cbn [parse_members] in H.
    repeat case_match; simplify_eq; cbn [parse_members Nat.add];
      suffix t Ht IHv IHe IHm; done.
Qed.

(** White space after a text does not change what the parser reads. *)
Lemma parse_text_padded (s pad : string) (v : json) :
  parse_text oset s = Some v → all_chars is_ws pad = true →
  parse_text oset (s +:+ pad) = Some v.
Proof.
  unfold parse_text. intros H Hpad.
  destruct (parse_value oset (S (String.length s)) s) as [[x r]|] eqn:E; [| done].
  destruct (skip_ws r) eqn:Hr; [| done]. injection H as ->.
  rewrite CharFacts.length_app.
  change (S (String.length s + String.length pad))
    with (S (String.length s) + String.length pad).
  rewrite (proj1 (parse_suffix_all _) s v r pad _ E (ws_no_digit pad Hpad)).
  by rewrite (skip_ws_app r pad (skip_ws_nothing r Hr)), (skip_all_ws pad Hpad).
Qed.

End Suffix.
End SuffixFacts.
Import SuffixFacts.

(** A line that [JSON_parse] reads, it reads the same with white space
    after it. *)
Lemma JSON_parse_padded (line pad : string) (v : json) :
  JSON_parse line = Parsed v → all_chars is_ws pad = true →
  JSON_parse (line +:+ pad) = Parsed v.
Proof.
  intros (Hv & Hm & _)%JSON_parse_parsed Hpad. unfold JSON_parse.
  by rewrite (parse_text_padded js_set line pad v Hv Hpad), Hm.
Qed.

(** X5.  The script splits the output at line feeds only, and white space
    (blanks, tabs, carriage returns) between a response and the line feed
    that ends its line does not hide it: when Node runs the staged script,
    the server closes its streams within the timeout, the lines before are
    passed over, and [line] parses to an object with a truthy [result], the
    call returns that result also when [line] is followed by such padding.
    So a server that ends its lines with carriage return and line feed is
    understood. *)
Theorem X5_padding_after_a_response (o : os) (tool_name : string) (params : pydict)
    (m : members) (path : string) (nw : node_world) (entry name : string)
    (arguments : json) (secs : N) (code : Z)
    (pre post : list string) (line pad : string) (parsed : members) (r : json) :
  encodable params = Ok m → named_temporary_file o = Ok path →
  exec_node o path (stage o tool_name (json_dumps (JObj m)))
  = Launched (serve nw entry name arguments) →
  let reply := w_server nw entry (request_line name arguments) in
  r_life reply = ExitsAfter secs code → (secs <= 30)%N →
  split_on LF (r_stdout reply) = pre ++ (line +:+ pad) :: post →
  Forall passed_over pre →
  all_chars is_ws pad = true →
  JSON_parse line = Parsed (JObj parsed) →
  lookup "result" parsed = Some r → js_truthy r = true →
  fst (call_mcp_tool o tool_name params) = Ok r.
Proof.
  intros He Hf Hx reply Hlife Hsecs Hsplit Hpre Hpad Hline Hr Ht.
  rewrite (call_of_serve o tool_name params m path nw entry name arguments secs code)
    by done.
  fold reply. rewrite (loads_found nw (r_stdout reply) r); [done |].
  rewrite first_result_output, Hsplit.
  apply (first_result_found pre post (line +:+ pad) parsed r); try done.
  by apply JSON_parse_padded.
Qed.

Lemma X5_padding_after_a_response_witness :
  fst (call_mcp_tool
         (os_of (stub_world
                   ("MCP server v1.0 starting" +:+ String CR nl +:+
                    dq "{'jsonrpc': '2.0', 'id': 1, 'result': {'ok': true}}" +:+ String CR nl)
                   "" (ExitsAfter 1 0)))
         "get_overview" overview_params)
  = Ok (JObj [("ok", JBool true)]).
Proof.
  set (out := "MCP server v1.0 starting" +:+ String CR nl +:+
              dq "{'jsonrpc': '2.0', 'id': 1, 'result': {'ok': true}}" +:+ String CR nl).
  apply (X5_padding_after_a_response (os_of (stub_world out "" (ExitsAfter 1 0)))
           "get_overview" overview_params overview_members "/tmp/tmpk3v9x1.js"
           (node (stub_world out "" (ExitsAfter 1 0)))
           "/srv/mcp/index.js" "get_overview" (JObj overview_members) 1 0
           ["MCP server v1.0 starting" +:+ String CR ""] [""]
           (dq "{'jsonrpc': '2.0', 'id': 1, 'result': {'ok': true}}") (String CR "")
           [("jsonrpc", JStr "2.0"); ("id", JNum 1); ("result", JObj [("ok", JBool true)])]).
  - reflexivity.
  - reflexivity.
  - vm_compute. reflexivity.
  - reflexivity.
  - vm_compute. discriminate.
  - reflexivity.
  - constructor; [left; vm_compute; reflexivity | constructor].
  - reflexivity.
  - vm_compute. reflexivity.
  - reflexivity.
  - reflexivity.
Defined.

(** ** The reports *)

Module DownFacts.

Lemma encodable_with_project (params : pydict) (m : members) (project_name : option string) :
  encodable params = Ok m → ∃ m', encodable (with_project params project_name) = Ok m'.
Proof.
  intros He. unfold with_project. destruct (given project_name) as [p|]; [| by exists m].
  exists (m ++ [("project_name", JStr p)]).
  revert m He. induction params as [|[k [v|t]] params IH]; intros m; cbn [encodable app].
  - by intros [= <-].
  - destruct (encodable params) as [m0|] eqn:E; [| done]. intros [= <-].
    by rewrite (IH m0 eq_refl).
  - done.
Qed.

Section Down.
Variable rt : runtime.
Variable mcp : string → pydict → result json.
Variable msg : string.

(** The bridge answers every request it can encode by the error [msg]. *)
Hypothesis Hdown : ∀ name params m,
  encodable params = Ok m → mcp name params = Ok (JObj [("error", JStr msg)]).

Lemma switch_project_down (p : string) :
  switch_project rt mcp p = Ok ("Error switching to project: " +:+ msg).
Proof.
  unfold switch_project, switch_project_body.
  by rewrite (Hdown _ [("project_identifier", Py (JStr p))]
                [("project_identifier", JStr p)] eq_refl).
Qed.

Lemma switch_first_down (project_name : option string) (rest : result string) (prefix : string) :
  rest = Ok (prefix +:+ msg) →
  ∃ s, switch_first rt mcp project_name rest = Ok s ∧ contains msg s = true.
Proof.
  intros ->. unfold switch_first. destruct (given project_name) as [p|].
  - rewrite switch_project_down. cbn [mbind result_bind].
    change ("Error switching to project: " +:+ msg)
      with ("Error" +:+ (" switching to project: " +:+ msg)).
    rewrite contains_prefix. eexists. split; [done |].
    do 3 apply contains_app_r. apply contains_refl.
  - eexists. split; [done |]. apply contains_app_r, contains_refl.
Qed.

Lemma down_with_project (name : string) (params : pydict) (m : members)
    (project_name : option string) :
  encodable params = Ok m →
  mcp name (with_project params project_name) = Ok (JObj [("error", JStr msg)]).
Proof.
  intros He. destruct (encodable_with_project params m project_name He) as [m' Hm'].
  by apply (Hdown _ _ m').
Qed.

Lemma content_tools_down (project_name : option string) :
  get_simple_task_overview rt mcp project_name = Ok ("Error getting tasks: " +:+ msg)
  ∧ get_blocked_tasks rt mcp project_name = Ok ("Error getting blocked tasks: " +:+ msg)
  ∧ get_high_priority_tasks rt mcp project_name
    = Ok ("Error getting high priority tasks: " +:+ msg).
Proof.
  unfold get_simple_task_overview, get_simple_task_overview_body,
    get_blocked_tasks, get_blocked_tasks_body,
    get_high_priority_tasks, get_high_priority_tasks_body.
  cbv zeta. repeat split; (erewrite down_with_project; [done | reflexivity]).
Qed.

Lemma switching_tools_down (project_name : option string) (query : string) :
  ∃ s1 s2 s3,
    analyze_team_workload rt mcp project_name = Ok s1 ∧ contains msg s1 = true
    ∧ search_tasks rt mcp query project_name = Ok s2 ∧ contains msg s2 = true
    ∧ get_project_info rt mcp project_name = Ok s3 ∧ contains msg s3 = true.
Proof.
  unfold analyze_team_workload, analyze_team_workload_body, search_tasks, search_tasks_body,
    get_project_info, get_project_info_body. cbv zeta.
  erewrite !Hdown by reflexivity.
  cbn [mbind result_bind contains_str item]. unfold has_key.
  cbn [lookup String.eqb Ascii.eqb Bool.eqb]. cbn [mbind result_bind str].
  destruct (switch_first_down project_name (Ok ("Error getting tasks: " +:+ msg)) _ eq_refl)
    as (s1 & -> & H1).
  destruct (switch_first_down project_name (Ok ("Error searching tasks: " +:+ msg)) _ eq_refl)
    as (s2 & -> & H2).
  destruct (switch_first_down project_name (Ok ("Error getting project info: " +:+ msg)) _
              eq_refl) as (s3 & -> & H3).
  by exists s1, s2, s3.
Qed.

Lemma invoke_down (f : tool) (args : list string) :
  accepts f (length args) = true →
  ∃ s, invoke rt mcp f args = Ok s ∧ contains msg s = true.
Proof.
  intros Hacc.
  destruct f, args as [|a [|b [|c args]]]; try discriminate Hacc; cbn [invoke].
  - rewrite switch_project_down. eexists. split; [done |].
    apply contains_app_r, contains_refl.
  - destruct (content_tools_down None) as (-> & _). eexists. split; [done |].
    apply contains_app_r, contains_refl.
  - destruct (content_tools_down (Some a)) as (-> & _). eexists. split; [done |].
    apply contains_app_r, contains_refl.
  - destruct (content_tools_down None) as (_ & -> & _). eexists. split; [done |].
    apply contains_app_r, contains_refl.
  - destruct (content_tools_down (Some a)) as (_ & -> & _). eexists. split; [done |].
    apply contains_app_r, contains_refl.
  - destruct (content_tools_down None) as (_ & _ & ->). eexists. split; [done |].
    apply contains_app_r, contains_refl.
  - destruct (content_tools_down (Some a)) as (_ & _ & ->). eexists. split; [done |].
    apply contains_app_r, contains_refl.
  - destruct (switching_tools_down None "") as (s & _ & _ & -> & ? & _). by exists s.
  - destruct (switching_tools_down (Some a) "") as (s & _ & _ & -> & ? & _). by exists s.
  - destruct (switching_tools_down None a) as (_ & s & _ & _ & _ & -> & ? & _). by exists s.
  - destruct (switching_tools_down (Some b) a) as (_ & s & _ & _ & _ & -> & ? & _).
    by exists s.
  - destruct (switching_tools_down None "") as (_ & _ & s & _ & _ & _ & _ & -> & ?).
    by exists s.
  - destruct (switching_tools_down (Some a) "") as (_ & _ & s & _ & _ & _ & _ & -> & ?).
    by exists s.
Qed.

End Down.
End DownFacts.
Import DownFacts.

(** X6.  When [node] cannot be launched, and when the launched process
    outlives the timeout, every tool, called with arguments that its
    signature accepts, returns a string that contains the message of the
    bridge: [Unexpected error: ] with the text of the exception, or
    [MCP call timed out]. *)
Theorem X6_bridge_failures_reach_every_report (rt : runtime) (o : os) (path : string)
    (f : tool) (args : list string) :
  named_temporary_file o = Ok path → accepts f (length args) = true →
  let mcp := λ tool_name params, fst (call_mcp_tool o tool_name params) in
  (∀ e, (∀ s, exec_node o path s = NotLaunched e) → exn_class_of e ≠ TimeoutExpired →
     ∃ out, invoke rt mcp f args = Ok out
            ∧ contains ("Unexpected error: " +:+ exn_msg e) out = true)
  ∧ ((∀ s, ∃ b, exec_node o path s = Launched b ∧ overruns (b_life b) 30) →
     ∃ out, invoke rt mcp f args = Ok out ∧ contains "MCP call timed out" out = true).
Proof.
  intros Hf Hacc mcp. split.
  - intros e Hx He. apply invoke_down; [| done].
    intros name params m Hm. unfold mcp.
    rewrite (call_not_launched o name params m path e) by done.
    cbn [fst]. unfold handle. by destruct (exn_class_of e).
  - intros Hx. apply invoke_down; [| done].
    intros name params m Hm. unfold mcp.
    destruct (Hx (stage o name (json_dumps (JObj m)))) as (b & Hb & Hover).
    by rewrite (call_timed_out o name params m path b).
Qed.

Lemma X6_bridge_failures_reach_every_report_witness :
  ∃ out, invoke cpython (λ tool_name params, fst (call_mcp_tool hanging_os tool_name params))
           SearchTasks ["login"; "website"] = Ok out
         ∧ contains "MCP call timed out" out = true.
Proof.
  apply (X6_bridge_failures_reach_every_report cpython hanging_os
           "/tmp/tmpk3v9x1.js" SearchTasks ["login"; "website"] eq_refl eq_refl).
  intros s. exists idle. split; [reflexivity | exact I].
Defined.

Module SwitchFacts.

Section ErrorName.
Variable rt : runtime.
Variable mcp : string → pydict → result json.

Lemma switch_project_says (p : string) :
  (∃ x, switch_project rt mcp p = Ok ("Error switching to project: " +:+ x))
  ∨ switch_project rt mcp p = Ok ("✅ Switched to project: " +:+ p).
Proof.
  unfold switch_project, switch_project_body.
  destruct (mcp _ _) as [r|e]; simpl; [| by left; eexists].
  destruct (contains_str rt "error" r) as [[|]|e]; simpl; [| by right | by left; eexists].
  destruct (item rt r "error") as [x|e]; simpl; by left; eexists.
Qed.

Lemma given_nonempty (p : string) : contains "Error" p = true → given (Some p) = Some p.
Proof. by destruct p. Qed.

Lemma switch_first_error_name (p : string) (rest : result string) :
  contains "Error" p = true →
  ∃ s, switch_project rt mcp p = Ok s
       ∧ switch_first rt mcp (Some p) rest = Ok ("Project switch failed: " +:+ s).
Proof.
  intros Hp. unfold switch_first. rewrite (given_nonempty p Hp).
  destruct (switch_project_says p) as [[x Hx] | Hx]; rewrite Hx; cbn [mbind result_bind].
  - eexists. split; [done |].
    change ("Error switching to project: " +:+ x)
      with ("Error" +:+ (" switching to project: " +:+ x)).
    by rewrite contains_prefix.
  - eexists. split; [done |].
    by rewrite (contains_app_r "Error" "✅ Switched to project: " p Hp).
Qed.

End ErrorName.

End SwitchFacts.
Import SwitchFacts.

(** X7.  The three tools that switch the project first test whether the
    answer of [switch_project] contains the word [Error].  The answer to a
    successful switch ends with the name of the project, so for a project
    whose name contains [Error] they always report a failed switch and never
    ask for the data, whatever the bridge does. *)
Theorem X7_error_in_project_name (rt : runtime) (mcp : string → pydict → result json)
    (p query : string) :
  contains "Error" p = true →
  ∃ s, switch_project rt mcp p = Ok s
       ∧ analyze_team_workload rt mcp (Some p) = Ok ("Project switch failed: " +:+ s)
       ∧ search_tasks rt mcp query (Some p) = Ok ("Project switch failed: " +:+ s)
       ∧ get_project_info rt mcp (Some p) = Ok ("Project switch failed: " +:+ s).
Proof.
  intros Hp.
  destruct (switch_first_error_name rt mcp p (Ok "") Hp) as (s & Hs & _).
  exists s. split; [done |].
  unfold analyze_team_workload, analyze_team_workload_body, search_tasks, search_tasks_body,
    get_project_info, get_project_info_body.
  repeat split;
    match goal with |- catch _ (switch_first _ _ _ ?rest) = _ =>
      destruct (switch_first_error_name rt mcp p rest Hp) as (s' & Hs' & ->)
    end;
    rewrite Hs in Hs'; by injection Hs' as <-.
Qed.

Lemma X7_error_in_project_name_witness :
  analyze_team_workload cpython (λ _ _, Ok (JObj [])) (Some "ErrorLogs")
  = Ok "Project switch failed: ✅ Switched to project: ErrorLogs".
Proof.
  destruct (X7_error_in_project_name cpython (λ _ _, Ok (JObj [])) "ErrorLogs" "" eq_refl)
    as (s & Hs & Ha & _).
  rewrite Ha. injection Hs as <-. reflexivity.
Defined.

Module CountFacts.

Lemma tally_set_key (k : json) (x : Z) (d : list (json * Z)) :
  tally (set_key k x d)
  = (tally d - match find_key k d with Some n => n | None => 0 end + x)%Z.
Proof.
  induction d as [|[k' n] d IH]; simpl; [lia |].
  destruct (key_eqb k k'); simpl; [lia |]. rewrite IH. lia.
Qed.

Section WithRuntime.
Variable rt : runtime.

Lemma bump_tally (k : json) (c c' : list (json * Z)) :
  bump rt k c = Ok c' → tally c' = (tally c + 1)%Z.
Proof.
  unfold bump. destruct (hashable k); [| done]. intros [= <-].
  rewrite tally_set_key. destruct (find_key k c); lia.
Qed.

Lemma find_key_set_key_positive (k : json) (x : Z) (d : list (json * Z)) :
  (0 < x)%Z → Forall (λ kn, 0 < snd kn)%Z d → Forall (λ kn, 0 < snd kn)%Z (set_key k x d).
Proof.
  intros Hx. induction 1 as [|[k' n] d Hn Hd IH]; simpl; [by repeat constructor |].
  destruct (key_eqb k k'); constructor; done.
Qed.

Lemma find_key_positive (k : json) (d : list (json * Z)) (n : Z) :
  Forall (λ kn, 0 < snd kn)%Z d → find_key k d = Some n → (0 < n)%Z.
Proof.
  induction 1 as [|[k' m] d Hm Hd IH]; simpl; [done |].
  destruct (key_eqb k k'); [by intros [= <-] | done].
Qed.

Lemma bump_positive (k : json) (c c' : list (json * Z)) :
  Forall (λ kn, 0 < snd kn)%Z c → bump rt k c = Ok c' → Forall (λ kn, 0 < snd kn)%Z c'.
Proof.
  intros Hc. unfold bump. destruct (hashable k); [| done]. intros [= <-].
  apply find_key_set_key_positive; [| done].
  destruct (find_key k c) as [n|] eqn:E; [| lia].
  pose proof (find_key_positive k c n Hc E). lia.
Qed.

Definition counted (n : Z) (c : list (json * Z)) : Prop :=
  tally c = n ∧ Forall (λ kn, 0 < snd kn)%Z c.

Lemma count_task_counted (n : Z) (s s' : list (json * Z) * list (json * Z)) (task : json) :
  counted n (fst s) → counted n (snd s) →
  count_task rt s task = Ok s' →
  counted (n + 1) (fst s') ∧ counted (n + 1) (snd s').
Proof.
  intros [H1 P1] [H2 P2]. unfold count_task.
  destruct (get rt task "status" _) as [status|]; [| done]. cbn [mbind result_bind].
  destruct (get rt task "priority" _) as [priority|]; [| done]. cbn [mbind result_bind].
  destruct (bump rt status (fst s)) as [c1|] eqn:E1; [| done]. cbn [mbind result_bind].
  destruct (bump rt priority (snd s)) as [c2|] eqn:E2; [| done]. cbn [mbind result_bind].
  intros [= <-]. simpl. unfold counted.
  rewrite (bump_tally _ _ _ E1), (bump_tally _ _ _ E2), H1, H2.
  repeat split; eauto using bump_positive.
Qed.

Lemma count_tasks_counted (tasks : list json) (n : Z)
    (s s' : list (json * Z) * list (json * Z)) :
  counted n (fst s) → counted n (snd s) →
  for_each (count_task rt) tasks s = Ok s' →
  counted (n + Z.of_nat (length tasks)) (fst s')
  ∧ counted (n + Z.of_nat (length tasks)) (snd s').
Proof.
  revert n s. induction tasks as [|task tasks IH]; intros n s H1 H2; simpl.
  - intros [= <-]. by rewrite Z.add_0_r.
  - destruct (count_task rt s task) as [s1|] eqn:E; [| done]. intros Hrest.
    destruct (count_task_counted n s s1 task H1 H2 E) as [H1' H2'].
    destruct (IH (n + 1)%Z s1 H1' H2' Hrest) as [G1 G2].
    replace (n + Z.of_nat (S (length tasks)))%Z
      with (n + 1 + Z.of_nat (length tasks))%Z by lia.
    done.
Qed.

End WithRuntime.
End CountFacts.
Import CountFacts.

(** X8.  When the loop of [get_simple_task_overview] has counted the tasks,
    the counts by status add up to the number of tasks, so do the counts by
    priority, and every status and priority listed has a count of at least
    one. *)
Theorem X8_overview_counts_add_up (rt : runtime) (tasks : list json)
    (counts : list (json * Z) * list (json * Z)) :
  for_each (count_task rt) tasks ([], []) = Ok counts →
  tally (fst counts) = Z.of_nat (length tasks)
  ∧ tally (snd counts) = Z.of_nat (length tasks)
  ∧ Forall (λ entry, 0 < snd entry)%Z (fst counts)
  ∧ Forall (λ entry, 0 < snd entry)%Z (snd counts).
Proof.
  intros H.
  destruct (count_tasks_counted rt tasks 0 ([], []) counts) as [[? ?] [? ?]]; try done.
Qed.

Lemma X8_overview_counts_add_up_witness :
  ∃ counts,
    for_each (count_task cpython)
      [JObj [("status", JStr "todo"); ("priority", JStr "high")];
       JObj [("status", JStr "blocked")];
       JObj [("status", JStr "todo"); ("priority", JStr "low")]] ([], []) = Ok counts
    ∧ tally (fst counts) = 3%Z ∧ tally (snd counts) = 3%Z.
Proof.
  eexists. split; [reflexivity |].
  destruct (X8_overview_counts_add_up cpython
    [JObj [("status", JStr "todo"); ("priority", JStr "high")];
     JObj [("status", JStr "blocked")];
     JObj [("status", JStr "todo"); ("priority", JStr "low")]] _ eq_refl) as (H1 & H2 & _).
  split; [exact H1 | exact H2].
Defined.

Module ShareFacts.

Lemma tally_bounds (c : list (json * Z)) (entry : json * Z) :
  Forall (λ kn, 0 < snd kn)%Z c → entry ∈ c → (0 < snd entry <= tally c)%Z.
Proof.
  induction 1 as [|kn c Hkn Hc IH]; [set_solver |].
  intros [-> | Hin]%elem_of_cons; cbn [tally fold_right].
  - assert (0 <= tally c)%Z; [| unfold tally in *; lia].
    clear -Hc. induction Hc as [|x c Hx Hc IH]; cbn [tally fold_right]; [lia |].
    unfold tally in IH. lia.
  - specialize (IH Hin). unfold tally in IH. lia.
Qed.

Lemma percentage_in_range (rt : runtime) (count : Z) (tasks : list json) :
  (0 < count <= Z.of_nat (length tasks))%Z →
  ∃ q, percentage rt count (JArr tasks) = Ok q ∧ (0 < q)%Q ∧ (q <= 100)%Q.
Proof.
  intros Hc. unfold percentage. destruct tasks as [|t tasks]; [simpl in Hc; lia |].
  cbn [truthy len mbind result_bind]. unfold truediv.
  remember (length (t :: tasks)) as n eqn:Hn.
  destruct (Z.of_nat n) as [|p|p] eqn:Hp; [lia | | lia].
  cbn [mbind result_bind]. eexists. split; [done |].
  unfold Qlt, Qle. simpl. split; lia.
Qed.

End ShareFacts.
Import ShareFacts.

(** X9.  Every percentage that the overview shows, for a status or for a
    priority, is computed without error and lies above 0 and at most at
    100. *)
Theorem X9_overview_percentages_in_range (rt : runtime) (tasks : list json)
    (counts : list (json * Z) * list (json * Z)) (entry : json * Z) :
  for_each (count_task rt) tasks ([], []) = Ok counts →
  entry ∈ fst counts ∨ entry ∈ snd counts →
  ∃ q, percentage rt (snd entry) (JArr tasks) = Ok q ∧ (0 < q)%Q ∧ (q <= 100)%Q.
Proof.
  intros H Hin.
  destruct (count_tasks_counted rt tasks 0 ([], []) counts) as [[T1 P1] [T2 P2]]; try done.
  apply percentage_in_range. rewrite Z.add_0_l in T1, T2.
  destruct Hin as [Hin | Hin].
  - rewrite <- T1. by apply tally_bounds.
  - rewrite <- T2. by apply tally_bounds.
Qed.

Lemma X9_overview_percentages_in_range_witness :
  ∃ q, percentage cpython 2
         (JArr [JObj [("status", JStr "todo")]; JObj [("status", JStr "blocked")];
                JObj [("status", JStr "todo")]]) = Ok q
       ∧ (0 < q)%Q ∧ (q <= 100)%Q.
Proof.
  apply (X9_overview_percentages_in_range cpython
           [JObj [("status", JStr "todo")]; JObj [("status", JStr "blocked")];
            JObj [("status", JStr "todo")]]
           ([(JStr "todo", 2%Z); (JStr "blocked", 1%Z)], [(JStr "unknown", 3%Z)])
           (JStr "todo", 2%Z)).
  - reflexivity.
  - left. set_solver.
Defined.

Module WorkloadFacts.

(** The counters of a load are those of [new_load]. *)
Definition shaped (l : load) : Prop := map fst l = map fst new_load.

Lemma increment_shaped (k : string) (l : load) : shaped l → shaped (increment k l).
Proof.
  unfold shaped. intros <-. clear.
  induction l as [|[k' n] l IH]; simpl; [done |].
  destruct (String.eqb k k'); simpl; [done | by rewrite IH].
Qed.

Lemma total_incremented (l : load) :
  shaped l → counter "total" (increment "total" l) = (counter "total" l + 1)%Z.
Proof.
  unfold shaped. destruct l as [|[k n] l]; [done |]. simpl. intros [= -> _]. by simpl.
Qed.

Lemma total_kept (k : string) (l : load) :
  k ≠ "total" → counter "total" (increment k l) = counter "total" l.
Proof.
  intros Hk. induction l as [|[k' n] l IH]; cbn [increment counter]; [done |].
  destruct (String.eqb_spec k k') as [<- | Hkk']; cbn [counter].
  - destruct (String.eqb_spec "total" k); [congruence | done].
  - destruct (String.eqb "total" k'); [done | apply IH].
Qed.

Definition all_shaped (workload : list (json * load)) : Prop :=
  Forall (λ kl, shaped (snd kl)) workload.

Lemma find_key_shaped (k : json) (workload : list (json * load)) (l : load) :
  all_shaped workload → find_key k workload = Some l → shaped l.
Proof.
  induction 1 as [|[k' l'] d Hl Hd IH]; simpl; [done |].
  destruct (key_eqb k k'); [by intros [= <-] | done].
Qed.

Lemma set_key_shaped (k : json) (l : load) (workload : list (json * load)) :
  shaped l → all_shaped workload → all_shaped (set_key k l workload).
Proof.
  intros Hl. induction 1 as [|[k' l'] d Hl' Hd IH]; simpl; [by repeat constructor |].
  destruct (key_eqb k k'); by constructor.
Qed.

Lemma assigned_total_set_key (k : json) (l : load) (workload : list (json * load)) :
  assigned_total (set_key k l workload)
  = (assigned_total workload
     - match find_key k workload with Some l' => counter "total" l' | None => 0 end
     + counter "total" l)%Z.
Proof.
  induction workload as [|[k' l'] d IH]; simpl; [lia |].
  destruct (key_eqb k k'); simpl; [lia |]. rewrite IH. lia.
Qed.

Section WithRuntime.
Variable rt : runtime.

(** The status of the task is not the word [total]. *)
Definition status_not_total (task : json) : Prop :=
  get rt task "status" (JStr "unknown") ≠ Ok (JStr "total").

Definition accounted (n : Z) (state : list (json * load) * Z) : Prop :=
  (snd state + assigned_total (fst state) = n)%Z ∧ all_shaped (fst state).

Lemma assign_task_accounted (n : Z) (state state' : list (json * load) * Z) (task : json) :
  status_not_total task → accounted n state →
  assign_task rt state task = Ok state' → accounted (n + 1) state'.
Proof.
  intros Hst [Hn Hs]. unfold assign_task.
  destruct (get rt task "assigned_to" JNull) as [assigned|]; [| done].
  cbn [mbind result_bind].
  destruct (truthy assigned); cbn [negb].
  2:{ intros [= <-]. split; simpl; [lia | done]. }
  destruct (hashable assigned); cbn [negb]; [| done].
  destruct (get rt task "priority" JNull) as [priority|]; [| done].
  cbn [mbind result_bind].
  unfold status_not_total in Hst.
  destruct (get rt task "status" (JStr "unknown")) as [status|]; [| done].
  cbn [mbind result_bind].
  destruct (hashable status); cbn [negb]; [| done].
  intros [= <-].
  set (mine0 := match find_key assigned (fst state) with Some l => l | None => new_load end).
  assert (H0 : shaped mine0).
  { unfold mine0. destruct (find_key assigned (fst state)) as [l|] eqn:E; [| done].
    by apply (find_key_shaped assigned (fst state)). }
  set (mine1 := increment "total" mine0).
  assert (H1 : shaped mine1) by by apply increment_shaped.
  set (mine2 := if eq_str priority "high" then increment "high" mine1 else mine1).
  assert (H2 : shaped mine2).
  { unfold mine2. destruct (eq_str priority "high"); [by apply increment_shaped | done]. }
  assert (T2 : counter "total" mine2 = (counter "total" mine0 + 1)%Z).
  { unfold mine2, mine1. destruct (eq_str priority "high").
    - rewrite total_kept by done. by apply total_incremented.
    - by apply total_incremented. }
  set (mine3 := match status with
                | JStr s => if has_counter s mine2 then increment s mine2 else mine2
                | _ => mine2
                end).
  assert (H3 : shaped mine3 ∧ counter "total" mine3 = (counter "total" mine0 + 1)%Z).
  { unfold mine3. destruct status as [ | | |s| | ]; try done.
    destruct (has_counter s mine2); [| done]. split; [by apply increment_shaped |].
    rewrite total_kept; [done |]. intros ->. by apply Hst. }
  destruct H3 as [H3 T3]. split; cbn [fst snd].
  - rewrite assigned_total_set_key, T3. unfold mine0.
    destruct (find_key assigned (fst state)); simpl; lia.
  - by apply set_key_shaped.
Qed.

Lemma assign_tasks_accounted (tasks : list json) (n : Z)
    (state state' : list (json * load) * Z) :
  Forall status_not_total tasks → accounted n state →
  for_each (assign_task rt) tasks state = Ok state' →
  accounted (n + Z.of_nat (length tasks)) state'.
Proof.
  intros Htasks. revert n state.
  induction Htasks as [|task tasks Ht Hts IH]; intros n state Hn; cbn [for_each length].
  - intros [= <-]. by rewrite Z.add_0_r.
  - destruct (assign_task rt state task) as [s1|] eqn:E; [| done]. intros Hrest.
    pose proof (assign_task_accounted n state s1 task Ht Hn E) as H1.
    pose proof (IH (n + 1)%Z s1 H1 Hrest) as G.
    replace (n + Z.of_nat (S (length tasks)))%Z
      with (n + 1 + Z.of_nat (length tasks))%Z by lia.
    done.
Qed.

End WithRuntime.
End WorkloadFacts.
Import WorkloadFacts.

(** X10.  When the loop of [analyze_team_workload] ends, the tasks counted
    as unassigned and the totals of the team members add up to the number of
    tasks, provided no task has the status [total]: that word is a key of
    the counters, so such a task would be counted twice. *)
Theorem X10_workload_accounts_for_every_task (rt : runtime) (tasks : list json)
    (state : list (json * load) * Z) :
  Forall (λ task, get rt task "status" (JStr "unknown") ≠ Ok (JStr "total")) tasks →
  for_each (assign_task rt) tasks ([], 0%Z) = Ok state →
  (snd state + assigned_total (fst state))%Z = Z.of_nat (length tasks).
Proof.
  intros Hst H.
  destruct (assign_tasks_accounted rt tasks 0 ([], 0%Z) state Hst) as [G _]; [| done | lia].
  split; [reflexivity | constructor].
Qed.

Lemma X10_workload_accounts_for_every_task_witness :
  ∃ state,
    for_each (assign_task cpython)
      [JObj [("assigned_to", JStr "ana@example.com"); ("status", JStr "todo")];
       JObj [("status", JStr "blocked")];
       JObj [("assigned_to", JStr "ana@example.com"); ("priority", JStr "high")]]
      ([], 0%Z) = Ok state
    ∧ (snd state + assigned_total (fst state))%Z = 3%Z.
Proof.
  eexists. split; [reflexivity |].
  apply (X10_workload_accounts_for_every_task cpython
    [JObj [("assigned_to", JStr "ana@example.com"); ("status", JStr "todo")];
     JObj [("status", JStr "blocked")];
     JObj [("assigned_to", JStr "ana@example.com"); ("priority", JStr "high")]]).
  - repeat constructor; discriminate.
  - reflexivity.
Defined.

Module SortFacts.

(** [a] is listed before [b]: its total is not below. *)
Definition not_below (a b : json * load) : Prop :=
  (counter "total" (snd b) <= counter "total" (snd a))%Z.

Lemma insert_by_total_perm (x : json * load) (l : list (json * load)) :
  insert_by_total x l ≡ₚ x :: l.
Proof.
  induction l as [|y l IH]; simpl; [done |].
  destruct (_ <=? _)%Z; [| done]. rewrite IH. apply Permutation_swap.
Qed.

Lemma insert_by_total_sorted (x : json * load) (l : list (json * load)) :
  StronglySorted not_below l → StronglySorted not_below (insert_by_total x l).
Proof.
  induction 1 as [|y l Hl IH Hy]; simpl; [repeat constructor |].
  destruct (Z.leb_spec (counter "total" (snd x)) (counter "total" (snd y))) as [Hle | Hlt].
  - constructor; [done |].
    rewrite insert_by_total_perm. constructor; [done | done].
  - constructor; [by constructor |].
    constructor; [unfold not_below; lia |].
    eapply Forall_impl; [exact Hy |]. unfold not_below. intros z Hz. simpl in *. lia.
Qed.

Lemma sorted_from (workload sorted : list (json * load)) :
  StronglySorted not_below sorted →
  fold_left (λ sorted x, insert_by_total x sorted) workload sorted ≡ₚ workload ++ sorted
  ∧ StronglySorted not_below
      (fold_left (λ sorted x, insert_by_total x sorted) workload sorted).
Proof.
  revert sorted. induction workload as [|x workload IH]; intros sorted Hs; simpl; [done |].
  destruct (IH (insert_by_total x sorted)) as [Hp Hsorted];
    [by apply insert_by_total_sorted |].
  split; [| done]. rewrite Hp, insert_by_total_perm. by rewrite Permutation_middle.
Qed.

End SortFacts.
Import SortFacts.

(** X11.  The team members of the workload report are those of the
    workload, each once, in an order in which no total is followed by a
    larger one. *)
Theorem X11_members_by_falling_total (workload : list (json * load)) :
  sorted_by_total workload ≡ₚ workload
  ∧ StronglySorted (λ a b, counter "total" (snd b) <= counter "total" (snd a))%Z
      (sorted_by_total workload).
Proof.
  destruct (sorted_from workload []) as [Hp Hs]; [constructor |].
  rewrite List.app_nil_r in Hp. done.
Qed.

Module ReportFacts.

Section WithRuntime.
Variable rt : runtime.

(** The status the report reads off a task is a string outside
    [status_order]. *)
Definition unlisted (task : json) : Prop :=
  ∃ s, get rt task "status" (JStr "unknown") = Ok (JStr s) ∧ s ∉ status_order.

Definition no_listed_key (by_status : list (json * list json)) : Prop :=
  Forall (λ entry, ∃ s, fst entry = JStr s ∧ s ∉ status_order) by_status.

Lemma set_key_no_listed (s : string) (x : list json) (by_status : list (json * list json)) :
  s ∉ status_order → no_listed_key by_status → no_listed_key (set_key (JStr s) x by_status).
Proof.
  intros Hs. induction 1 as [|[k l] d Hk Hd IH]; cbn [set_key].
  - repeat constructor. by exists s.
  - destruct (key_eqb (JStr s) k); constructor; done.
Qed.

Lemma group_unlisted (tasks : list json) (by_status : list (json * list json)) :
  Forall unlisted tasks → no_listed_key by_status →
  ∃ by_status', for_each (group_task rt) tasks by_status = Ok by_status'
                ∧ no_listed_key by_status'.
Proof.
  intros Htasks. revert by_status.
  induction Htasks as [|task tasks (s & Hget & Hs) _ IH]; intros by_status Hb; simpl.
  - by exists by_status.
  - unfold group_task at 1. rewrite Hget. cbn [mbind result_bind hashable].
    apply IH. by apply set_key_no_listed.
Qed.

Lemma find_key_no_listed (status : string) (by_status : list (json * list json)) :
  status ∈ status_order → no_listed_key by_status →
  find_key (JStr status) by_status = None.
Proof.
  intros Hin. induction 1 as [|[k l] d (s & Hk & Hs) Hd IH]; cbn [find_key]; [done |].
  cbn [fst] in Hk. subst k. cbn [key_eqb].
  destruct (String.eqb_spec status s) as [-> | _]; [done | exact IH].
Qed.

Lemma sections_skipped (by_status : list (json * list json)) (result : list string)
    (statuses : list string) :
  statuses ⊆ status_order → no_listed_key by_status →
  for_each (status_section rt by_status) statuses result = Ok result.
Proof.
  intros Hsub Hb. induction statuses as [|status statuses IH]; simpl; [done |].
  unfold status_section at 1. rewrite find_key_no_listed; [| set_solver | done].
  apply IH. set_solver.
Qed.

End WithRuntime.
End ReportFacts.
Import ReportFacts.

(** X12.  The report of high priority tasks has a section for each of five
    statuses only.  When every task has another status, or none (which
    reads as [unknown]), the report counts the tasks in its heading and
    shows none of them. *)
Theorem X12_unlisted_statuses_are_counted_not_shown (rt : runtime) (task : json)
    (tasks : list json) :
  Forall (λ task, ∃ s, get rt task "status" (JStr "unknown") = Ok (JStr s)
                       ∧ s ∉ status_order) (task :: tasks) →
  high_priority_report rt (JArr (task :: tasks))
  = Ok (join line_separator
          ["# High Priority Tasks (" +:+ string_of_Z (Z.of_nat (S (length tasks))) +:+ " found)";
           "**Data Source**: aitistra.com API";
           ""]).
Proof.
  intros Htasks. unfold high_priority_report. cbn [truthy negb iter mbind result_bind].
  destruct (group_unlisted rt (task :: tasks) [] Htasks) as (by_status & -> & Hb);
    [constructor |].
  cbn [mbind result_bind len length].
  by rewrite sections_skipped.
Qed.

Lemma X12_unlisted_statuses_are_counted_not_shown_witness :
  high_priority_report cpython
    (JArr [JObj [("title", JStr "Ship it"); ("status", JStr "cancelled")];
           JObj [("title", JStr "No status")]])
  = Ok (join line_separator
          ["# High Priority Tasks (2 found)"; "**Data Source**: aitistra.com API"; ""]).
Proof.
  apply (X12_unlisted_statuses_are_counted_not_shown cpython
    (JObj [("title", JStr "Ship it"); ("status", JStr "cancelled")])
    [JObj [("title", JStr "No status")]]).
  repeat constructor.
  - exists "cancelled". split; [reflexivity |]. unfold status_order. set_solver.
  - exists "unknown". split; [reflexivity |]. unfold status_order. set_solver.
Defined.

Module BlockedFacts.




End BlockedFacts.
Import BlockedFacts.



Module SearchFacts.
Section WithRuntime.
Variable rt : runtime.

Lemma search_hit_lines (i : Z) (lines : list string) (task : json) (s' : Z * list string) :
  search_hit rt (i, lines) task = Ok s' →
  ∃ t rest, get rt task "title" (JStr "Untitled") = Ok t
    ∧ length rest = 5
    ∧ s' = ((i + 1)%Z, lines ++ ("## " +:+ string_of_Z i +:+ ". " +:+ str t) :: rest).
Proof.
  unfold search_hit. cbn [fst snd].
  destruct (get rt task "title" _) as [t|]; [| done]. cbn [mbind result_bind].
  destruct (get rt task "status" _) as [st|]; [| done]. cbn [mbind result_bind].
  destruct (as_str rt st) as [st'|]; [| done]. cbn [mbind result_bind].
  destruct (get rt task "priority" _) as [pr|]; [| done]. cbn [mbind result_bind].
  destruct (as_str rt pr) as [pr'|]; [| done]. cbn [mbind result_bind].
  destruct (get rt task "assigned_to" _) as [a|]; [| done]. cbn [mbind result_bind].
  destruct (get rt task "id" _) as [id|]; [| done]. cbn [mbind result_bind].
  intros [= <-]. eexists t, _. split; [done |]. split; [| done]. done.
Qed.

Lemma search_hits_lines (tasks : list json) (i : Z) (lines : list string)
    (final : Z * list string) :
  for_each (search_hit rt) tasks (i, lines) = Ok final →
  fst final = (i + Z.of_nat (length tasks))%Z
  ∧ ∃ added, snd final = lines ++ added
      ∧ length added = 6 * length tasks
      ∧ ∀ k task, tasks !! k = Some task →
          ∃ t, get rt task "title" (JStr "Untitled") = Ok t
               ∧ added !! (6 * k)
                 = Some ("## " +:+ string_of_Z (i + Z.of_nat k) +:+ ". " +:+ str t).
Proof.
  revert i lines. induction tasks as [|task tasks IH]; intros i lines; cbn [for_each length].
  - intros [= <-]. cbn [fst snd]. split; [lia |]. exists [].
    split; [by rewrite List.app_nil_r |]. done.
  - destruct (search_hit rt (i, lines) task) as [s1|] eqn:E; [| done].
    destruct (search_hit_lines i lines task s1 E) as (t & rest & Ht & Hrest & ->).
    intros Hfinal.
    destruct (IH _ _ Hfinal) as (H1 & added & H2 & H3 & H4).
    split; [lia |].
    exists ((("## " +:+ string_of_Z i +:+ ". " +:+ str t) :: rest) ++ added).
    split; [by rewrite H2, <- List.app_assoc |].
    split; [rewrite List.length_app; cbn [length]; lia |].
    intros [|k] task' Hk.
    + injection Hk as <-. exists t. split; [done |]. by rewrite Z.add_0_r.
    + destruct (H4 k task' Hk) as (t' & Ht' & Hl). exists t'. split; [done |].
      rewrite lookup_app_r by (cbn [length]; lia).
      cbn [length]. rewrite Hrest.
      replace (6 * S k - 6) with (6 * k) by lia.
      rewrite Hl. do 3 f_equal. f_equal. lia.
Qed.

End WithRuntime.
End SearchFacts.
Import SearchFacts.

(** X14.  The search report keeps its header and adds six lines for each
    task, in the order of the tasks; the first of the six is the heading
    with the number of the task, counted from 1, and its title. *)
Theorem X14_search_hits_are_numbered (rt : runtime) (tasks : list json)
    (header : list string) (final : Z * list string) :
  for_each (search_hit rt) tasks (1%Z, header) = Ok final →
  ∃ hits, snd final = header ++ hits
    ∧ length hits = 6 * length tasks
    ∧ ∀ k task, tasks !! k = Some task →
        ∃ t, get rt task "title" (JStr "Untitled") = Ok t
             ∧ hits !! (6 * k)
               = Some ("## " +:+ string_of_Z (1 + Z.of_nat k) +:+ ". " +:+ str t).
Proof.
  intros H. by destruct (search_hits_lines rt tasks 1 header final H) as [_ ?].
Qed.

Lemma X14_search_hits_are_numbered_witness :
  ∃ final hits,
    for_each (search_hit cpython)
      [JObj [("title", JStr "Fix login")]; JObj [("title", JStr "Write docs")]]
      (1%Z, ["# Search Results for 'x'"]) = Ok final
    ∧ snd final = ["# Search Results for 'x'"] ++ hits
    ∧ length hits = 12
    ∧ hits !! 6 = Some "## 2. Write docs".
Proof.
  eexists.
  destruct (X14_search_hits_are_numbered cpython
              [JObj [("title", JStr "Fix login")]; JObj [("title", JStr "Write docs")]]
              ["# Search Results for 'x'"] _ eq_refl) as (hits & H1 & H2 & H3).
  exists hits. split; [reflexivity |]. split; [exact H1 |]. split; [exact H2 |].
  destruct (H3 1 (JObj [("title", JStr "Write docs")]) eq_refl) as (t & Ht & Hl).
  injection Ht as <-. exact Hl.
Defined.

(** X15.  [analyze_team_workload] and [search_tasks] read [items] off the
    result of the bridge itself, not off the text of its first content item as
    the other reports do: for a result without [error] and without [items],
    such as the envelope with [content], they report that there are no
    tasks. *)
Theorem X15_items_are_read_off_the_result (rt : runtime) (mcp : string → pydict → result json)
    (query : string) (data : members) :
  (∀ name params, mcp name params = Ok (JObj data)) →
  lookup "error" data = None → lookup "items" data = None →
  analyze_team_workload rt mcp None = Ok "No tasks found for workload analysis."
  ∧ search_tasks rt mcp query None = Ok ("No tasks found matching '" +:+ query +:+ "'").
Proof.
  intros Hmcp Herr Hitems.
  unfold analyze_team_workload, analyze_team_workload_body, search_tasks, search_tasks_body,
    switch_first. cbn [given]. cbv zeta. rewrite !Hmcp.
  cbn [mbind result_bind contains_str get]. unfold has_key. rewrite Herr, Hitems.
  cbn [mbind result_bind truthy negb]. done.
Qed.

Lemma X15_items_are_read_off_the_result_witness :
  analyze_team_workload cpython (λ _ _, Ok empty_summary) None
  = Ok "No tasks found for workload analysis."
  ∧ search_tasks cpython (λ _ _, Ok empty_summary) "login" None
    = Ok "No tasks found matching 'login'".
Proof.
  apply (X15_items_are_read_off_the_result cpython (λ _ _, Ok empty_summary) "login"
           [("content", JArr [JObj [("text", JStr empty_summary_text)]])]); reflexivity.
Defined.

(** X16.  [get_project_info] asks for the project info and only tests it
    for [error]: the report is the same whatever else the info holds.  And
    an error of the listing of projects is passed over in silence: the
    report is then its two header lines and an empty one. *)
Theorem X16_project_info_is_not_shown (rt : runtime) (mcp : string → pydict → result json)
    (project_data other : members) :
  mcp "simpletask_get_project_info" [] = Ok (JObj project_data) →
  lookup "error" project_data = None → lookup "error" other = None →
  get_project_info rt mcp None
  = get_project_info rt (answering mcp "simpletask_get_project_info" (JObj other)) None
  ∧ ∀ listing e,
      mcp "simpletask_list_projects" [] = Ok (JObj listing) →
      lookup "error" listing = Some e →
      get_project_info rt mcp None
      = Ok (join line_separator
              ["# Project Information"; "**Data Source**: aitistra.com API"; ""]).
Proof.
  intros Hinfo Herr Hother.
  unfold get_project_info, get_project_info_body, switch_first. cbn [given].
  unfold answering.
  change (String.eqb "simpletask_get_project_info" "simpletask_get_project_info") with true.
  change (String.eqb "simpletask_list_projects" "simpletask_get_project_info") with false.
  cbv iota. rewrite Hinfo. cbn [mbind result_bind contains_str]. unfold has_key.
  rewrite Herr, Hother. split; [done |].
  intros listing e -> He. cbn [mbind result_bind contains_str]. unfold has_key.
  by rewrite He.
Qed.

Lemma X16_project_info_is_not_shown_witness :
  get_project_info cpython listing_fails None
  = Ok (join line_separator ["# Project Information"; "**Data Source**: aitistra.com API"; ""]).
Proof.
  destruct (X16_project_info_is_not_shown cpython listing_fails
              [("name", JStr "Alpha"); ("projectName", JStr "alpha")] []
              eq_refl eq_refl eq_refl) as [_ H].
  apply (H [("error", JStr "MCP call timed out")] (JStr "MCP call timed out")); reflexivity.
Defined.

(** ** The selection of a project *)

Module AgentFacts.
Section WithRuntime.
Variable rt : runtime.
Variable max_str_digits : nat.

(** A line after which the loop asks again: not [all], not empty, and no
    number of a project. *)
Definition refused (n : nat) (typed : string) : Prop :=
  let choice := lower (strip typed) in
  choice ≠ "all" ∧ choice ≠ ""
  ∧ ∀ k, py_int max_str_digits choice = Some k → ¬ (1 <= k <= Z.of_nat n)%Z.

Lemma choose_out (projects : list json) (keys : list keyed) (out1 out2 : list console) :
  fst (choose rt max_str_digits projects keys out1) = fst (choose rt max_str_digits projects keys out2).
Proof.
  revert out1 out2. induction keys as [|[typed|] keys IH]; intros out1 out2;
    cbn [choose]; [done | | done].
  cbv zeta. destruct (_ || _); [done |].
  destruct (py_int _) as [k|]; [| apply IH].
  destruct (_ && _); [| apply IH].
  destruct (nth_error _ _) as [p|]; [| done].
  destruct (get rt p "projectName" JNull); [| done].
  by destruct (get rt p "name" JNull).
Qed.

Lemma choose_refused (projects : list json) (typed : string) (keys : list keyed)
    (out : list console) :
  refused (length projects) typed →
  fst (choose rt max_str_digits projects (Line typed :: keys) out) = fst (choose rt max_str_digits projects keys out).
Proof.
  intros (Hall & Hempty & Hnum). cbn [choose]. cbv zeta.
  destruct (String.eqb_spec (lower (strip typed)) "all"); [done |].
  destruct (String.eqb_spec (lower (strip typed)) ""); [done |]. cbn [orb].
  destruct (py_int _) as [k|] eqn:E; [| apply choose_out].
  specialize (Hnum k eq_refl).
  destruct (Z.leb_spec 1 k); destruct (Z.leb_spec k (Z.of_nat (length projects)));
    cbn [andb]; try apply choose_out. lia.
Qed.

Lemma choose_refusals (projects : list json) (bad : list string) (keys : list keyed)
    (out : list console) :
  Forall (refused (length projects)) bad →
  fst (choose rt max_str_digits projects (map Line bad ++ keys) out) = fst (choose rt max_str_digits projects keys out).
Proof.
  induction 1 as [|typed bad Ht Hbad IH]; [done |].
  cbn [map app]. by rewrite choose_refused.
Qed.

Lemma choose_selected (projects : list json) (keys : list keyed) (out out' : list console)
    (v : json) :
  choose rt max_str_digits projects keys out = (Selected v, out') →
  v = JNull ∨ ∃ project, project ∈ projects ∧ get rt project "projectName" JNull = Ok v.
Proof.
  revert out. induction keys as [|[typed|] keys IH]; intros out; cbn [choose].
  - done.
  - cbv zeta. destruct (_ || _); [intros [= <- _]; by left |].
    destruct (py_int _) as [k|]; [| apply IH].
    destruct (_ && _); [| apply IH].
    destruct (nth_error _ _) as [p|] eqn:E; [| done].
    destruct (get rt p "projectName" JNull) as [x|] eqn:Ex; [| done].
    destruct (get rt p "name" JNull); [| done].
    intros [= <- _]. right. exists p. split; [| done].
    apply list_elem_of_In. by apply nth_error_In in E.
  - intros [= <- _]. by left.
Qed.

(** Every project is a dict. *)
Definition all_dicts (projects : list json) : Prop :=
  Forall (λ project, ∃ m, project = JObj m) projects.

Lemma list_projects_dicts (projects : list json) (i : Z) (out : list console) :
  all_dicts projects → ∃ out', list_projects rt i projects out = (None, out').
Proof.
  intros Hp. revert i out. induction Hp as [|p projects [m ->] _ IH]; intros i out;
    cbn [list_projects get]; [by eexists | apply IH].
Qed.

End WithRuntime.
End AgentFacts.
Import AgentFacts.

(** X17.  Whatever the user types, when [select_project] returns it
    returns [None] or the value under [projectName] of one of the projects
    of the file. *)
Theorem X17_selection_is_none_or_listed (rt : runtime) (max_str_digits : nat)
    (projects : json)
    (keys : list keyed) (out out' : list console) (v : json) :
  select_among rt max_str_digits projects keys out = (Selected v, out') →
  v = JNull
  ∨ ∃ all project, iter rt projects = Ok all ∧ project ∈ all
                   ∧ get rt project "projectName" JNull = Ok v.
Proof.
  unfold select_among. destruct (negb (truthy projects)); [intros [= <- _]; by left |].
  destruct (iter rt projects) as [all|]; [| done].
  destruct (list_projects rt 1 all _) as [[e|] out1]; [done |].
  intros H. destruct (choose_selected rt max_str_digits all keys out1 out' v H) as [-> | (p & Hp & Hv)];
    [by left |].
  right. by exists all, p.
Qed.

Lemma X17_selection_is_none_or_listed_witness :
  JStr "beta" = JNull
  ∨ ∃ all project, iter cpython (JArr two_projects) = Ok all ∧ project ∈ all
                   ∧ get cpython project "projectName" JNull = Ok (JStr "beta").
Proof.
  eapply (X17_selection_is_none_or_listed cpython 4300 (JArr two_projects)
            [Line "7"; Line " 2 "] []).
  vm_compute. reflexivity.
Defined.

(** X18.  After any number of lines that are refused (not [all], not
    empty, and no number of a project), the next line decides: [all] in any
    case of letters, or an empty line, with white space around, gives [None];
    the number of a project gives the value under [projectName] of that
    project, [None] when it has none. *)
Theorem X18_selection_after_refused_lines (rt : runtime) (max_str_digits : nat)
    (projects : list json)
    (bad : list string) (typed : string) (rest : list keyed) (out : list console) :
  projects ≠ [] → Forall (λ project, ∃ m, project = JObj m) projects →
  Forall (λ line,
            lower (strip line) ≠ "all" ∧ lower (strip line) ≠ ""
            ∧ ∀ k, py_int max_str_digits (lower (strip line)) = Some k →
                   ¬ (1 <= k <= Z.of_nat (length projects))%Z) bad →
  let keys := map Line bad ++ Line typed :: rest in
  (lower (strip typed) = "all" ∨ lower (strip typed) = "" →
   fst (select_among rt max_str_digits (JArr projects) keys out) = Selected JNull)
  ∧ ∀ k m, py_int max_str_digits (lower (strip typed)) = Some (Z.of_nat (S k)) →
           projects !! k = Some (JObj m) →
           fst (select_among rt max_str_digits (JArr projects) keys out)
           = Selected (match lookup "projectName" m with Some v => v | None => JNull end).
Proof.
  intros Hne Hd Hbad keys. unfold select_among.
  destruct projects as [|p0 projects0] eqn:Ep; [done |]. rewrite <- Ep in *.
  replace (truthy (JArr projects)) with true by by rewrite Ep.
  cbn [negb iter].
  destruct (list_projects_dicts rt projects 1
              (out ++ [Printed "🎯 Available Projects:";
                       Printed "=================================================="]) Hd)
    as [out1 ->].
  unfold keys. rewrite (choose_refusals rt max_str_digits projects bad _ out1 Hbad).
  split.
  - intros Hall. cbn [choose]. cbv zeta.
    destruct Hall as [-> | ->]; done.
  - intros k m Hk Hm. cbn [choose]. cbv zeta.
    destruct (String.eqb_spec (lower (strip typed)) "all") as [E | _].
    { rewrite E in Hk. discriminate Hk. }
    destruct (String.eqb_spec (lower (strip typed)) "") as [E | _].
    { rewrite E in Hk. discriminate Hk. }
    cbn [orb]. rewrite Hk.
    pose proof (lookup_lt_Some _ _ _ Hm) as Hlt.
    replace ((1 <=? Z.of_nat (S k))%Z && (Z.of_nat (S k) <=? Z.of_nat (length projects))%Z)
      with true by (symmetry; apply andb_true_iff; split; apply Z.leb_le; lia).
    replace (Z.to_nat (Z.of_nat (S k) - 1)) with k by lia.
    assert (Hnth : nth_error projects k = Some (JObj m)).
    { clear -Hm. revert k Hm. induction projects as [|x l IH]; intros [|k]; try done.
      apply IH. }
    rewrite Hnth. cbn [get]. done.
Qed.

Lemma X18_selection_after_refused_lines_witness :
  fst (select_among cpython 4300 (JArr two_projects)
         [Line "7"; Line "first"; Line " 2 "; Line "1"] [])
  = Selected (JStr "beta").
Proof.
  destruct (X18_selection_after_refused_lines cpython 4300 two_projects ["7"; "first"] " 2 "
              [Line "1"] []) as [_ H].
  - discriminate.
  - repeat constructor; by eexists.
  - repeat constructor; try discriminate.
    intros k [= <-]. simpl. lia.
  - apply (H 1 [("projectName", JStr "beta")]); reflexivity.
Defined.
